(** * Lunar colony sandbox: the simulation core of [App.tsx]

    Shallow embedding of the tick engine, the auto-builder, the tile-click
    handler (placement and demolition), the research action and the goal
    claim action, in the two variants found in the sources:

    - the basic variant (the [App] module without atmosphere), and
    - the extended variant (atmosphere, food, terrain height, variants).

    Conventions.
    - A JavaScript [number] that the code treats as a quantity (credits,
      crew, yields, ratios, oxygen, ...) is an exact rational [Q]; array
      indices, loop bounds and map sizes are integers [Z].
    - [Math.floor] is [Qfloor], [Math.abs] is [Qabs], [Math.min]/[Math.max]
      are [Qmin]/[Qmax].
    - Reading [grid[y][x]] outside the array is [None]: the script would
      raise a TypeError on the property access that follows.
    - [Math.random], [Math.cos], [Math.sin], [Math.PI] and [Date.now] are
      inputs of the functions that call them.
    - The catalog [BUILDINGS], the research tree [TECH_TREE] and the
      per-capita rates [POP_*] come from the constants module of the
      extended variant, which is not among the sources: they are
      parameters of the development.  The same holds for its type
      declarations: tiles, stats and kinds carry the fields and tags that
      [App.tsx] reads and writes ([height], [oxygen], [co2], [food],
      [GreenRoad]) on top of those of [types.ts].
    - The goal service is modelled with the answer of the model API as an
      input; of the overlay and the map, the research panel, the status
      check of the guide, the scaling of the dashboard charts and the
      placement preview are modelled.  The news service, the random news
      alerts of the tick and the rest of the renderer are outside the
      model. *)

From Stdlib Require Import String.
From Stdlib Require Import ZArith QArith Qround Qminmax Qabs.
From Stdlib Require Import List Bool Lia Lqa.
Import ListNotations.

Local Open Scope Q_scope.

(** ** Numbers *)

Definition Qltb (a b : Q) : bool := negb (Qle_bool b a).
Definition Qgtb (a b : Q) : bool := Qltb b a.
Definition Qgeb (a b : Q) : bool := Qle_bool b a.

(** [Math.floor], as a number again. *)
Definition floor (q : Q) : Q := inject_Z (Qfloor q).

(** ** Building kinds ([types.ts], with the [GreenRoad] kind that the
    extended [App.tsx] refers to) *)

Module BuildingType.
Inductive t : Set :=
| None
| Road
| GreenRoad
| Residential
| Commercial
| Industrial
| Agriculture
| Park
| SolarPanel
| FusionReactor
| ResearchLab.

Definition eq_dec (a b : t) : {a = b} + {a <> b}.
Proof. decide equality. Defined.

Definition eqb (a b : t) : bool := if eq_dec a b then true else false.

Definition all : list t :=
  [None; Road; GreenRoad; Residential; Commercial; Industrial;
   Agriculture; Park; SolarPanel; FusionReactor; ResearchLab].
End BuildingType.

(** [available.includes(b)] *)
Definition includes (l : list BuildingType.t) (b : BuildingType.t) : bool :=
  existsb (BuildingType.eqb b) l.

(** ** Catalog entries *)

Module BuildingConfig.
Record t : Type := mk {
  cost : Q;
  name : string;
  popGen : Q;
  incomeGen : Q;
  powerGen : Q;
  scienceGen : Q;
  foodGen : Q;
  oxygenGen : Q;
  co2Gen : Q;
  width : Z;
  height : Z
}.
End BuildingConfig.

(** ** Tiles and the grid *)

Module TileData.
Record t : Type := mk {
  x : Z;
  y : Z;
  buildingType : BuildingType.t;
  ownerX : option Z;
  ownerY : option Z;
  variant : option Z;
  height : option Z
}.
End TileData.

Definition Grid : Type := list (list TileData.t).

Definition index {A : Type} (l : list A) (i : Z) : option A :=
  if (i <? 0)%Z then None else nth_error l (Z.to_nat i).

(** [grid[y][x]] *)
Definition tileAt (g : Grid) (x y : Z) : option TileData.t :=
  match index g y with
  | Some row => index row x
  | None => None
  end.

Fixpoint replaceNth {A : Type} (l : list A) (n : nat) (v : A) : option (list A) :=
  match l, n with
  | [], _ => None
  | _ :: tl, O => Some (v :: tl)
  | hd :: tl, S n' =>
      match replaceNth tl n' v with
      | Some tl' => Some (hd :: tl')
      | None => None
      end
  end.

Definition replaceAt {A : Type} (l : list A) (i : Z) (v : A) : option (list A) :=
  if (i <? 0)%Z then None else replaceNth l (Z.to_nat i) v.

(** [newGrid[y][x] = v], on the copy [currentGrid.map(row => [...row])].
    [None] when the position is not a tile of the grid (a missing row
    raises a TypeError; a missing column would grow the row). *)
Definition setTile (g : Grid) (x y : Z) (v : TileData.t) : option Grid :=
  match index g y with
  | Some row =>
      match replaceAt row x v with
      | Some row' => replaceAt g y row'
      | None => None
      end
  | None => None
  end.

(** Loop counters [0, 1, ..., n-1] of [for (let i = 0; i < n; i++)]. *)
Definition range (n : Z) : list Z := map Z.of_nat (seq 0 (Z.to_nat n)).

Arguments range : simpl never.

(** A loop whose body may leave the grid. *)
Fixpoint forEach {S : Type} (l : list Z) (body : Z -> S -> option S) (s : S)
  : option S :=
  match l with
  | [] => Some s
  | i :: l' =>
      match body i s with
      | Some s' => forEach l' body s'
      | None => None
      end
  end.

(** ** Goals, news, research nodes *)

Inductive TargetType : Set := population_t | money_t | building_count_t | science_t.

Module AIGoal.
Record t : Type := mk {
  description : string;
  targetType : TargetType;
  targetValue : Q;
  buildingType : option BuildingType.t;
  reward : Q;
  completed : bool
}.
End AIGoal.

Inductive Sentiment : Set := positive | negative | neutral.

Module NewsItem.
Record t : Type := mk {
  id : string;
  text : string;
  type : Sentiment
}.
End NewsItem.

Module TechNode.
Record t : Type := mk {
  id : string;
  name : string;
  cost : Q;
  unlocks : list BuildingType.t;
  prerequisites : list string
}.
End TechNode.

(** [prev => [...prev.slice(-12), item]] *)
Definition addNewsItem (feed : list NewsItem.t) (item : NewsItem.t) : list NewsItem.t :=
  skipn (length feed - 12) feed ++ [item].

(** [TECH_TREE.find(t => t.id === techId)] *)
Definition findTech (tree : list TechNode.t) (techId : string) : option TechNode.t :=
  find (fun t => String.eqb (TechNode.id t) techId) tree.

(** The effect that recomputes [unlockedBuildings]: a [Set] seeded with
    [None], filled in research order, then [Array.from]. *)
Definition setAdd (s : list BuildingType.t) (b : BuildingType.t) : list BuildingType.t :=
  if includes s b then s else s ++ [b].

Definition unlockedBuildingsOf (tree : list TechNode.t) (techs : list string)
  : list BuildingType.t :=
  fold_left
    (fun acc techId =>
       match findTech tree techId with
       | Some tech => fold_left setAdd (TechNode.unlocks tech) acc
       | None => acc
       end)
    techs [BuildingType.None].

(** ** The aggregation pass of the tick (shared by both variants; the basic
    variant does not read the three bio totals) *)

(** The string [`${ownerX},${ownerY}`] or [`${x},${y}`], as the pair it
    prints. *)
Definition RootId : Type := (Z * option Z)%type.

Definition rootIdOf (tile : TileData.t) : RootId :=
  match TileData.ownerX tile with
  | Some ox => (ox, TileData.ownerY tile)
  | None => (TileData.x tile, Some (TileData.y tile))
  end.

Definition optZ_eqb (a b : option Z) : bool :=
  match a, b with
  | Some u, Some v => (u =? v)%Z
  | None, None => true
  | _, _ => false
  end.

Definition rootId_eqb (a b : RootId) : bool :=
  (fst a =? fst b)%Z && optZ_eqb (snd a) (snd b).

(** [processedRoots.has(rootId)] *)
Definition has (s : list RootId) (r : RootId) : bool := existsb (rootId_eqb r) s.

Module Agg.
Record t : Type := mk {
  dailyIncome : Q;
  dailyPopGrowth : Q;
  dailyScience : Q;
  powerGen : Q;
  powerDrain : Q;
  bioFoodGen : Q;
  bioO2Gen : Q;
  bioCO2Gen : Q;
  buildingCounts : BuildingType.t -> Z;
  processedRoots : list RootId
}.

Definition zero : t := mk 0 0 0 0 0 0 0 0 (fun _ => 0%Z) [].
End Agg.

Definition bump (counts : BuildingType.t -> Z) (k : BuildingType.t)
  : BuildingType.t -> Z :=
  fun k' => if BuildingType.eqb k' k then (counts k' + 1)%Z else counts k'.

Section Aggregation.
Variable BUILDINGS : BuildingType.t -> BuildingConfig.t.

(** The body of [gridRef.current.flat().forEach(tile => ...)]. *)
Definition visit (a : Agg.t) (tile : TileData.t) : Agg.t :=
  if BuildingType.eqb (TileData.buildingType tile) BuildingType.None then a
  else
    let rootId := rootIdOf tile in
    if has (Agg.processedRoots a) rootId then a
    else
      let config := BUILDINGS (TileData.buildingType tile) in
      let pg := BuildingConfig.powerGen config in
      Agg.mk
        (Agg.dailyIncome a + BuildingConfig.incomeGen config)
        (Agg.dailyPopGrowth a + BuildingConfig.popGen config)
        (Agg.dailyScience a + BuildingConfig.scienceGen config)
        (if Qgtb pg 0 then Agg.powerGen a + pg else Agg.powerGen a)
        (if Qgtb pg 0 then Agg.powerDrain a else Agg.powerDrain a + Qabs pg)
        (Agg.bioFoodGen a + BuildingConfig.foodGen config)
        (Agg.bioO2Gen a + BuildingConfig.oxygenGen config)
        (Agg.bioCO2Gen a + BuildingConfig.co2Gen config)
        (bump (Agg.buildingCounts a) (TileData.buildingType tile))
        (rootId :: Agg.processedRoots a).

Definition aggregate (g : Grid) : Agg.t := fold_left visit (concat g) Agg.zero.
End Aggregation.

(** [powerDrain > 0 ? Math.min(1, powerGen / powerDrain) : 1] *)
Definition powerRatio (a : Agg.t) : Q :=
  if Qgtb (Agg.powerDrain a) 0 then Qmin 1 (Agg.powerGen a / Agg.powerDrain a) else 1.

Definition isLowPower (a : Agg.t) : bool := Qltb (powerRatio a) 1.

(** [resCount] and [maxPop] of the tick. *)
Definition resCount (a : Agg.t) : Z := Agg.buildingCounts a BuildingType.Residential.
Definition maxPop (a : Agg.t) : Q := inject_Z (resCount a) * 50.

(** The goal check at the end of the [setStats] updater: the value that
    [currentGoal] holds after the tick.  [money], [pop], [sci] are the
    fields of [newStats]. *)
Definition isMet (goal : AIGoal.t) (money pop sci : Q) (counts : BuildingType.t -> Z)
  : bool :=
  match AIGoal.targetType goal with
  | money_t => Qgeb money (AIGoal.targetValue goal)
  | population_t => Qgeb pop (AIGoal.targetValue goal)
  | science_t => Qgeb sci (AIGoal.targetValue goal)
  | building_count_t =>
      match AIGoal.buildingType goal with
      | Some b => Qgeb (inject_Z (counts b)) (AIGoal.targetValue goal)
      | None => false
      end
  end.

Definition markCompleted (goal : AIGoal.t) : AIGoal.t :=
  AIGoal.mk (AIGoal.description goal) (AIGoal.targetType goal)
            (AIGoal.targetValue goal) (AIGoal.buildingType goal)
            (AIGoal.reward goal) true.

Definition checkGoal (aiEnabled : bool) (goal : option AIGoal.t)
           (money pop sci : Q) (counts : BuildingType.t -> Z) : option AIGoal.t :=
  match goal with
  | Some g =>
      if aiEnabled && negb (AIGoal.completed g) then
        if isMet g money pop sci counts then Some (markCompleted g) else goal
      else goal
  | None => None
  end.

(** Option bind, for code that may leave the grid. *)
Notation "x <- e ;; k" :=
  (match e with Some x => k | None => None end)
    (at level 61, e at next level, right associativity).

(** ** Footprint loops *)

(** [for (i = 0; i < w; i++) for (j = 0; j < h; j++) body] *)
Definition forFootprint {S : Type} (w h : Z) (body : Z -> Z -> S -> option S) (s : S)
  : option S :=
  forEach (range w) (fun i s1 => forEach (range h) (fun j s2 => body i j s2) s1) s.

(** A loop whose body may [break]: the body returns the new state and
    whether it broke out. *)
Fixpoint forEachBreak {S : Type} (l : list Z) (body : Z -> S -> option (S * bool)) (s : S)
  : option S :=
  match l with
  | [] => Some s
  | i :: l' =>
      match body i s with
      | Some (s', true) => Some s'
      | Some (s', false) => forEachBreak l' body s'
      | None => None
      end
  end.

Definition isNone (b : BuildingType.t) : bool := BuildingType.eqb b BuildingType.None.

(** The [for attempt] loop of the auto-builder, common shape: [site k]
    proposes a position, [valid] is the check, and the first valid
    position is returned with the index of its attempt ([break]); an
    invalid one is skipped ([continue]).  [None] is a TypeError raised by
    the check. *)
Fixpoint firstValid {P : Type} (attempts : list Z) (site : Z -> P)
         (valid : P -> option bool) : option (option (Z * P)) :=
  match attempts with
  | [] => Some None
  | k :: rest =>
      ok <- valid (site k) ;;
      if ok then Some (Some (k, site k)) else firstValid rest site valid
  end.

(** * The basic variant *)

Module Basic.

Record CityStats : Type := mkStats {
  money : Q;
  population : Q;
  day : Q;
  science : Q;
  powerSupply : Q;
  powerDemand : Q
}.

Record State : Type := mkState {
  gameStarted : bool;
  mapSize : Z;
  aiEnabled : bool;
  autoGrowth : bool;
  grid : Grid;
  stats : CityStats;
  selectedTool : BuildingType.t;
  unlockedTechs : list string;
  currentGoal : option AIGoal.t;
  newsFeed : list NewsItem.t
}.

Definition setGrid (st : State) (g : Grid) : State :=
  mkState (gameStarted st) (mapSize st) (aiEnabled st) (autoGrowth st) g
          (stats st) (selectedTool st) (unlockedTechs st) (currentGoal st)
          (newsFeed st).

Definition setStats (st : State) (f : CityStats -> CityStats) : State :=
  mkState (gameStarted st) (mapSize st) (aiEnabled st) (autoGrowth st) (grid st)
          (f (stats st)) (selectedTool st) (unlockedTechs st) (currentGoal st)
          (newsFeed st).

Definition setUnlockedTechs (st : State) (techs : list string) : State :=
  mkState (gameStarted st) (mapSize st) (aiEnabled st) (autoGrowth st) (grid st)
          (stats st) (selectedTool st) techs (currentGoal st) (newsFeed st).

Definition setCurrentGoal (st : State) (goal : option AIGoal.t) : State :=
  mkState (gameStarted st) (mapSize st) (aiEnabled st) (autoGrowth st) (grid st)
          (stats st) (selectedTool st) (unlockedTechs st) goal (newsFeed st).

Definition pushNews (st : State) (item : NewsItem.t) : State :=
  mkState (gameStarted st) (mapSize st) (aiEnabled st) (autoGrowth st) (grid st)
          (stats st) (selectedTool st) (unlockedTechs st) (currentGoal st)
          (addNewsItem (newsFeed st) item).

(** [{ ...prev, money: prev.money - c }] *)
Definition debit (c : Q) (prev : CityStats) : CityStats :=
  mkStats (money prev - c) (population prev) (day prev) (science prev)
          (powerSupply prev) (powerDemand prev).

(** [{ ...prev, science: prev.science - c }] *)
Definition debitScience (c : Q) (prev : CityStats) : CityStats :=
  mkStats (money prev) (population prev) (day prev) (science prev - c)
          (powerSupply prev) (powerDemand prev).

(** [{ ...prev, money: prev.money + r }] *)
Definition credit (r : Q) (prev : CityStats) : CityStats :=
  mkStats (money prev + r) (population prev) (day prev) (science prev)
          (powerSupply prev) (powerDemand prev).

(** [createInitialGrid]: [size] rows of [size] empty tiles. *)
Definition createInitialGrid (size : Z) : Grid :=
  map (fun y => map (fun x => TileData.mk x y BuildingType.None None None None None)
                    (range size))
      (range size).

Section Engine.
Variable BUILDINGS : BuildingType.t -> BuildingConfig.t.
Variable TECH_TREE : list TechNode.t.

Definition unlockedBuildings (st : State) : list BuildingType.t :=
  unlockedBuildingsOf TECH_TREE (unlockedTechs st).

(** *** Research *)
Definition handleUnlockTech (st : State) (techId now : string) : State :=
  match findTech TECH_TREE techId with
  | None => st
  | Some tech =>
      if Qgeb (science (stats st)) (TechNode.cost tech) then
        pushNews
          (setUnlockedTechs (setStats st (debitScience (TechNode.cost tech)))
                            (unlockedTechs st ++ [techId]))
          (NewsItem.mk now (String.append "Research Completed: " (TechNode.name tech))
                       positive)
      else
        pushNews st
          (NewsItem.mk now (String.append "Insufficient Science for " (TechNode.name tech))
                       negative)
  end.

(** *** Claiming a reward ([fetchNewGoal] is asynchronous: the next
    goal arrives as a later event; the notice prints the reward, which
    the text here leaves out) *)
Definition handleClaimReward (st : State) (now : string) : State :=
  match currentGoal st with
  | Some goal =>
      if AIGoal.completed goal then
        setCurrentGoal
          (pushNews (setStats st (credit (AIGoal.reward goal)))
             (NewsItem.mk now "Contract fulfilled. Reward deposited." positive))
          None
      else st
  | None => st
  end.

(** *** Placement: the stamp written on every covered tile *)
Definition stamp (tool : BuildingType.t) (x y : Z) (old : TileData.t) : TileData.t :=
  TileData.mk (TileData.x old) (TileData.y old) tool (Some x) (Some y)
              (TileData.variant old) (TileData.height old).

Definition placeFootprint (g : Grid) (tool : BuildingType.t) (x y : Z) : option Grid :=
  let config := BUILDINGS tool in
  forFootprint (BuildingConfig.width config) (BuildingConfig.height config)
    (fun i j newGrid =>
       old <- tileAt newGrid (x + i) (y + j) ;;
       setTile newGrid (x + i) (y + j) (stamp tool x y old))
    g.

(** *** Auto-builder *)

(** The occupancy scan of [attemptAutoBuild] (no [break]). *)
Definition scanOccupied (g : Grid) (w h x y : Z) : option bool :=
  forFootprint w h
    (fun i j occupied =>
       t <- tileAt g (x + i) (y + j) ;;
       Some (if isNone (TileData.buildingType t) then occupied else true))
    false.

(** One attempt: bounds, then occupancy. *)
Definition siteValid (g : Grid) (size : Z) (config : BuildingConfig.t)
           (p : Z * Z) : option bool :=
  let '(x, y) := p in
  if ((x + BuildingConfig.width config >? size)
      || (y + BuildingConfig.height config >? size))%Z
  then Some false
  else
    occupied <- scanOccupied g (BuildingConfig.width config)
                   (BuildingConfig.height config) x y ;;
    Some (negb occupied).

(** [rnd 0] picks the kind; attempt [k] draws [rnd (1+2k)] for [x] and
    [rnd (2+2k)] for [y].  The "prioritize power" test of the script has
    two empty branches and is left out. *)
Definition autoSite (rnd : nat -> Q) (size : Z) (attempt : Z) : Z * Z :=
  (Qfloor (rnd (1 + 2 * Z.to_nat attempt)%nat * inject_Z size),
   Qfloor (rnd (2 + 2 * Z.to_nat attempt)%nat * inject_Z size)).

Definition attemptAutoBuild (rnd : nat -> Q) (st : State) : option State :=
  let currentStats := stats st in
  let currentGrid := grid st in
  let available := unlockedBuildings st in
  if Qltb (money currentStats) 500 then Some st
  else
    let candidates :=
      filter (fun b => negb (BuildingType.eqb b BuildingType.None)
                       && negb (BuildingType.eqb b BuildingType.Road))
             available in
    if (length candidates =? 0)%nat then Some st
    else
      typeToBuild <- index candidates
                       (Qfloor (rnd 0%nat * inject_Z (Z.of_nat (length candidates)))) ;;
      let config := BUILDINGS typeToBuild in
      if Qltb (money currentStats) (BuildingConfig.cost config) then Some st
      else
        found <- firstValid (range 20) (autoSite rnd (mapSize st))
                   (siteValid currentGrid (mapSize st) config) ;;
        match found with
        | Some (_, (x, y)) =>
            newGrid <- placeFootprint currentGrid typeToBuild x y ;;
            Some (setStats (setGrid st newGrid) (debit (BuildingConfig.cost config)))
        | None => Some st
        end.

(** *** Tick *)

Definition powerPenalty (a : Agg.t) : Agg.t :=
  if isLowPower a then
    Agg.mk (floor (Agg.dailyIncome a * powerRatio a))
           0
           (floor (Agg.dailyScience a * powerRatio a))
           (Agg.powerGen a) (Agg.powerDrain a)
           (Agg.bioFoodGen a) (Agg.bioO2Gen a) (Agg.bioCO2Gen a)
           (Agg.buildingCounts a) (Agg.processedRoots a)
  else a.

(** [newPop] of the [setStats] updater; [a] is the aggregate after the
    power penalty. *)
Definition newPop (a : Agg.t) (prev : CityStats) : Q :=
  let newPop := population prev + Agg.dailyPopGrowth a in
  let newPop := if Qgtb newPop (maxPop a) then maxPop a else newPop in
  if (resCount a =? 0)%Z && Qgtb (population prev) 0
  then Qmax 0 (population prev - 5)
  else newPop.

Definition newStats (a : Agg.t) (prev : CityStats) : CityStats :=
  mkStats (money prev + Agg.dailyIncome a)
          (newPop a prev)
          (day prev + 1)
          (science prev + Agg.dailyScience a)
          (Agg.powerGen a)
          (Agg.powerDrain a).

(** One run of the interval callback.  The random power alert and
    [fetchNews] only append to the news feed and are left out. *)
Definition tick (rnd : nat -> Q) (st : State) : option State :=
  let a := powerPenalty (aggregate BUILDINGS (grid st)) in
  st1 <- (if autoGrowth st then attemptAutoBuild rnd st else Some st) ;;
  let ns := newStats a (stats st1) in
  Some (setCurrentGoal (setStats st1 (fun _ => ns))
          (checkGoal (aiEnabled st1) (currentGoal st1)
             (money ns) (population ns) (science ns) (Agg.buildingCounts a))).

(** *** Tile click: demolition and placement *)

Definition cleared (x y : Z) : TileData.t :=
  TileData.mk x y BuildingType.None None None None None.

(** The clear loop of the bulldozer. *)
Definition clearFootprint (g : Grid) (size : Z) (targetConfig : BuildingConfig.t)
           (rootX rootY : Z) : option Grid :=
  forFootprint (BuildingConfig.width targetConfig) (BuildingConfig.height targetConfig)
    (fun i j newGrid =>
       if ((rootY + j <? size) && (rootX + i <? size))%Z
       then setTile newGrid (rootX + i) (rootY + j) (cleared (rootX + i) (rootY + j))
       else Some newGrid)
    g.

(** The occupancy scan of the click handler: [break] leaves the inner
    loop only. *)
Definition clickOccupied (g : Grid) (w h x y : Z) : option bool :=
  forEach (range w)
    (fun i occupied =>
       forEachBreak (range h)
         (fun j occ =>
            t <- tileAt g (x + i) (y + j) ;;
            if isNone (TileData.buildingType t) then Some (occ, false)
            else Some (true, true))
         occupied)
    false.

Definition handleTileClick (st : State) (x y : Z) (now : string) : option State :=
  if negb (gameStarted st) then Some st
  else
    let currentGrid := grid st in
    let currentStats := stats st in
    let tool := selectedTool st in
    let size := mapSize st in
    if ((x <? 0) || (x >=? size) || (y <? 0) || (y >=? size))%Z then Some st
    else
      row <- index currentGrid y ;;
      let clickedTile := index row x in
      let buildingConfig := BUILDINGS tool in
      if BuildingType.eqb tool BuildingType.None then
        clicked <- clickedTile ;;
        if negb (isNone (TileData.buildingType clicked)) then
          let demolishCost := 50 in
          if Qgeb (money currentStats) demolishCost then
            let rootX := match TileData.ownerX clicked with
                         | Some ox => ox | None => TileData.x clicked end in
            let rootY := match TileData.ownerY clicked with
                         | Some oy => oy | None => TileData.y clicked end in
            root <- tileAt currentGrid rootX rootY ;;
            let targetType := TileData.buildingType root in
            let targetConfig := BUILDINGS targetType in
            newGrid <- clearFootprint currentGrid size targetConfig rootX rootY ;;
            Some (setStats (setGrid st newGrid) (debit demolishCost))
          else
            Some (pushNews st
                    (NewsItem.mk now "Insufficient credits for demolition crews."
                                 negative))
        else Some st
      else if negb (includes (unlockedBuildings st) tool) then
        Some (pushNews st (NewsItem.mk now "Technology not yet researched." negative))
      else if ((x + BuildingConfig.width buildingConfig >? size)
               || (y + BuildingConfig.height buildingConfig >? size))%Z then
        Some (pushNews st
                (NewsItem.mk now "Cannot place here: Outside colony bounds." negative))
      else
        occupied <- clickOccupied currentGrid (BuildingConfig.width buildingConfig)
                      (BuildingConfig.height buildingConfig) x y ;;
        if occupied then
          Some (pushNews st
                  (NewsItem.mk now "Sector occupied. Demolish existing structures first."
                               negative))
        else if Qgeb (money currentStats) (BuildingConfig.cost buildingConfig) then
          newGrid <- placeFootprint currentGrid tool x y ;;
          Some (setGrid (setStats st (debit (BuildingConfig.cost buildingConfig)))
                        newGrid)
        else
          Some (pushNews st
                  (NewsItem.mk now
                     (String.append "Insufficient credits for "
                        (String.append (BuildingConfig.name buildingConfig) "."))
                     negative)).
End Engine.
End Basic.

(** * The extended variant (atmosphere, food, terrain) *)

Module Extended.

Record CityStats : Type := mkStats {
  money : Q;
  population : Q;
  day : Q;
  science : Q;
  powerSupply : Q;
  powerDemand : Q;
  oxygen : Q;
  co2 : Q;
  food : Q
}.

Inductive ViewMode : Set := standard | orbital | moon.

Record State : Type := mkState {
  gameStarted : bool;
  mapSize : Z;
  aiEnabled : bool;
  autoGrowth : bool;
  viewMode : ViewMode;
  grid : Grid;
  stats : CityStats;
  history : list CityStats;
  selectedTool : BuildingType.t;
  unlockedTechs : list string;
  currentGoal : option AIGoal.t;
  newsFeed : list NewsItem.t
}.

Definition setGrid (st : State) (g : Grid) : State :=
  mkState (gameStarted st) (mapSize st) (aiEnabled st) (autoGrowth st) (viewMode st)
          g (stats st) (history st) (selectedTool st) (unlockedTechs st)
          (currentGoal st) (newsFeed st).

Definition setStats (st : State) (f : CityStats -> CityStats) : State :=
  mkState (gameStarted st) (mapSize st) (aiEnabled st) (autoGrowth st) (viewMode st)
          (grid st) (f (stats st)) (history st) (selectedTool st) (unlockedTechs st)
          (currentGoal st) (newsFeed st).

Definition setHistory (st : State) (f : list CityStats -> list CityStats) : State :=
  mkState (gameStarted st) (mapSize st) (aiEnabled st) (autoGrowth st) (viewMode st)
          (grid st) (stats st) (f (history st)) (selectedTool st) (unlockedTechs st)
          (currentGoal st) (newsFeed st).

Definition setUnlockedTechs (st : State) (techs : list string) : State :=
  mkState (gameStarted st) (mapSize st) (aiEnabled st) (autoGrowth st) (viewMode st)
          (grid st) (stats st) (history st) (selectedTool st) techs
          (currentGoal st) (newsFeed st).

Definition setCurrentGoal (st : State) (goal : option AIGoal.t) : State :=
  mkState (gameStarted st) (mapSize st) (aiEnabled st) (autoGrowth st) (viewMode st)
          (grid st) (stats st) (history st) (selectedTool st) (unlockedTechs st)
          goal (newsFeed st).

Definition pushNews (st : State) (item : NewsItem.t) : State :=
  mkState (gameStarted st) (mapSize st) (aiEnabled st) (autoGrowth st) (viewMode st)
          (grid st) (stats st) (history st) (selectedTool st) (unlockedTechs st)
          (currentGoal st) (addNewsItem (newsFeed st) item).

(** [{ ...prev, money: prev.money - c }] *)
Definition debit (c : Q) (prev : CityStats) : CityStats :=
  mkStats (money prev - c) (population prev) (day prev) (science prev)
          (powerSupply prev) (powerDemand prev) (oxygen prev) (co2 prev) (food prev).

(** [{ ...prev, science: prev.science - c }] *)
Definition debitScience (c : Q) (prev : CityStats) : CityStats :=
  mkStats (money prev) (population prev) (day prev) (science prev - c)
          (powerSupply prev) (powerDemand prev) (oxygen prev) (co2 prev) (food prev).

(** [{ ...prev, money: prev.money + r }] *)
Definition credit (r : Q) (prev : CityStats) : CityStats :=
  mkStats (money prev + r) (population prev) (day prev) (science prev)
          (powerSupply prev) (powerDemand prev) (oxygen prev) (co2 prev) (food prev).

(** The terrain of [createInitialGrid]: a plateau of height 1 within 5
    tiles of the centre, a crater of height -1 within 4 tiles of
    (0.2 size, 0.7 size), level 0 elsewhere.  The distances are compared
    through their squares; [Math.round] of these integers changes
    nothing, and the random [seed] is not used by the script. *)
Definition terrainHeight (size x y : Z) : Z :=
  let sq (q : Q) : Q := q * q in
  let distSq := sq (inject_Z x - inject_Z size / 2)
                + sq (inject_Z y - inject_Z size / 2) in
  let height := if Qltb distSq 25 then 1%Z else 0%Z in
  let craterX := inject_Z size * 0.2 in
  let craterY := inject_Z size * 0.7 in
  let craterDistSq := sq (inject_Z x - craterX) + sq (inject_Z y - craterY) in
  if Qltb craterDistSq 16 then (-1)%Z else height.

Definition createInitialGrid (size : Z) : Grid :=
  map (fun y =>
         map (fun x => TileData.mk x y BuildingType.None None None None
                                   (Some (terrainHeight size x y)))
             (range size))
      (range size).

(** The state of [App] before the first event: [MEDIUM] is
    [MAP_SIZES.Medium]. *)
Definition initialStats (INITIAL_MONEY : Q) : CityStats :=
  mkStats INITIAL_MONEY 0 1 0 0 0 100 400 100.

Definition initialState (INITIAL_MONEY : Q) (MEDIUM : Z)
           (INITIAL_UNLOCKED_TECHS : list string) : State :=
  mkState false MEDIUM true false standard (createInitialGrid MEDIUM)
          (initialStats INITIAL_MONEY) [] BuildingType.Road
          INITIAL_UNLOCKED_TECHS None [].

(** [handleStart] *)
Definition handleStart (st : State) (enabled : bool) (size : Z) : State :=
  mkState true size enabled (autoGrowth st) (viewMode st) (createInitialGrid size)
          (stats st) (history st) (selectedTool st) (unlockedTechs st)
          (currentGoal st) (newsFeed st).

Section Engine.
Variable BUILDINGS : BuildingType.t -> BuildingConfig.t.
Variable TECH_TREE : list TechNode.t.
Variables POP_FOOD_CONSUMPTION POP_O2_CONSUMPTION POP_CO2_PRODUCTION : Q.
(** [Math.cos], [Math.sin], [Math.PI] *)
Variables cos sin : Q -> Q.
Variable PI : Q.

Definition unlockedBuildings (st : State) : list BuildingType.t :=
  unlockedBuildingsOf TECH_TREE (unlockedTechs st).

(** *** Research *)
Definition handleUnlockTech (st : State) (techId now : string) : State :=
  match findTech TECH_TREE techId with
  | None => st
  | Some tech =>
      if Qgeb (science (stats st)) (TechNode.cost tech) then
        pushNews
          (setUnlockedTechs (setStats st (debitScience (TechNode.cost tech)))
                            (unlockedTechs st ++ [techId]))
          (NewsItem.mk now (String.append "Research Completed: " (TechNode.name tech))
                       positive)
      else
        pushNews st
          (NewsItem.mk now (String.append "Insufficient Science for " (TechNode.name tech))
                       negative)
  end.

(** *** Claiming a reward ([fetchNewGoal] is asynchronous: the next
    goal arrives as a later event; the notice prints the reward, which
    the text here leaves out) *)
Definition handleClaimReward (st : State) (now : string) : State :=
  match currentGoal st with
  | Some goal =>
      if AIGoal.completed goal then
        setCurrentGoal
          (pushNews (setStats st (credit (AIGoal.reward goal)))
             (NewsItem.mk now "Contract fulfilled. Reward deposited." positive))
          None
      else st
  | None => st
  end.

(** *** Placement: the stamp written on every covered tile *)
Definition stamp (tool : BuildingType.t) (x y variant : Z) (old : TileData.t)
  : TileData.t :=
  TileData.mk (TileData.x old) (TileData.y old) tool (Some x) (Some y)
              (Some variant) (TileData.height old).

Definition placeFootprint (g : Grid) (tool : BuildingType.t) (x y variant : Z)
  : option Grid :=
  let config := BUILDINGS tool in
  forFootprint (BuildingConfig.width config) (BuildingConfig.height config)
    (fun i j newGrid =>
       old <- tileAt newGrid (x + i) (y + j) ;;
       setTile newGrid (x + i) (y + j) (stamp tool x y variant old))
    g.

(** *** Auto-builder *)

(** Residential roots, as the auto-builder counts them. *)
Definition isResidentialRoot (t : TileData.t) : bool :=
  if BuildingType.eqb (TileData.buildingType t) BuildingType.Residential
     && optZ_eqb (TileData.ownerX t) None
  then true
  else BuildingType.eqb (TileData.buildingType t) BuildingType.Residential
       && optZ_eqb (TileData.ownerX t) (Some (TileData.x t))
       && optZ_eqb (TileData.ownerY t) (Some (TileData.y t)).

Definition residentialCount (g : Grid) : Z :=
  Z.of_nat (length (filter isResidentialRoot (concat g))).

(** The priority chain.  Returns the chosen kind ([None] for [null])
    and the number of [Math.random] draws it made, starting at
    [rnd 0]. *)
Definition chooseTarget (rnd : nat -> Q) (available : list BuildingType.t)
           (currentStats : CityStats) (g : Grid) : option BuildingType.t * nat :=
  let powerRatio :=
    if Qgtb (powerSupply currentStats) 0
    then powerDemand currentStats / powerSupply currentStats
    else 1.1 in
  let foodStock := food currentStats in
  let oxygen := oxygen currentStats in
  let maxPop := inject_Z (residentialCount g) * 50 in
  let popRatio :=
    if Qgtb maxPop 0 then population currentStats / maxPop else 1.1 in
  if Qltb oxygen 80 || Qltb foodStock (population currentStats * 2) then
    if includes available BuildingType.Agriculture
    then (Some BuildingType.Agriculture, 0%nat)
    else if includes available BuildingType.Park
         then (Some BuildingType.Park, 0%nat)
         else (None, 0%nat)
  else if Qgtb powerRatio 0.85 then
    if includes available BuildingType.FusionReactor
       && Qgtb (money currentStats) 3500
    then (Some BuildingType.FusionReactor, 0%nat)
    else if includes available BuildingType.SolarPanel
         then (Some BuildingType.SolarPanel, 0%nat)
         else (None, 0%nat)
  else if Qgtb popRatio 0.9 then
    if includes available BuildingType.Residential
    then (Some BuildingType.Residential, 0%nat)
    else (None, 0%nat)
  else
    let opt (c : bool) (b : BuildingType.t) := if c then [b] else [] in
    let gate := includes available BuildingType.GreenRoad in
    let k1 := if gate then 1%nat else 0%nat in
    let ecoOptions :=
      opt (includes available BuildingType.Agriculture) BuildingType.Agriculture
      ++ opt (includes available BuildingType.Commercial) BuildingType.Commercial
      ++ opt (includes available BuildingType.Industrial) BuildingType.Industrial
      ++ opt (includes available BuildingType.Park) BuildingType.Park
      ++ opt (includes available BuildingType.ResearchLab
              && Qgtb (money currentStats) 2000) BuildingType.ResearchLab
      ++ opt (gate && Qgtb (rnd 0%nat) 0.7) BuildingType.GreenRoad in
    if (0 <? length ecoOptions)%nat then
      (index ecoOptions
             (Qfloor (rnd k1 * inject_Z (Z.of_nat (length ecoOptions)))),
       S k1)
    else (None, k1).

(** The validity check of one attempt: inside the map, footprint inside
    the map, every covered tile empty and level with the corner. *)
Definition scanOccupied (g : Grid) (w h x y : Z) (baseHeight : option Z)
  : option bool :=
  forFootprint w h
    (fun i j occupied =>
       t <- tileAt g (x + i) (y + j) ;;
       let occupied :=
         if isNone (TileData.buildingType t) then occupied else true in
       Some (if optZ_eqb (TileData.height t) baseHeight then occupied else true))
    false.

Definition siteValid (g : Grid) (size : Z) (config : BuildingConfig.t)
           (p : Z * Z) : option bool :=
  let '(x, y) := p in
  if ((x <? 0) || (y <? 0) || (x >=? size) || (y >=? size))%Z then Some false
  else if ((x + BuildingConfig.width config >? size)
           || (y + BuildingConfig.height config >? size))%Z
  then Some false
  else
    corner <- tileAt g x y ;;
    occupied <- scanOccupied g (BuildingConfig.width config)
                   (BuildingConfig.height config) x y (TileData.height corner) ;;
    Some (negb occupied).

(** Attempt [k] draws [rnd (c + 2k)] for the angle and
    [rnd (c + 2k + 1)] for the distance, [c] being the number of draws
    made before the loop. *)
Definition autoSite (rnd : nat -> Q) (c : nat) (startX startY : Q) (attempt : Z)
  : Z * Z :=
  let angle := rnd (c + 2 * Z.to_nat attempt)%nat * PI * 2 in
  let dist := 1 + rnd (c + 2 * Z.to_nat attempt + 1)%nat * 4
              + inject_Z attempt * 0.2 in
  (Qfloor (startX + cos angle * dist), Qfloor (startY + sin angle * dist)).

Definition attemptAutoBuild (rnd : nat -> Q) (st : State) : option State :=
  let currentStats := stats st in
  let currentGrid := grid st in
  let available := unlockedBuildings st in
  if Qltb (money currentStats) 300 then Some st
  else
    let '(target, c1) := chooseTarget rnd available currentStats currentGrid in
    match target with
    | None => Some st
    | Some targetType =>
        let config := BUILDINGS targetType in
        if Qltb (money currentStats) (BuildingConfig.cost config) then Some st
        else
          let hubs :=
            filter (fun t => negb (isNone (TileData.buildingType t)))
                   (concat currentGrid) in
          start <-
            (if (0 <? length hubs)%nat then
               randomHub <- index hubs
                              (Qfloor (rnd c1 * inject_Z (Z.of_nat (length hubs)))) ;;
               Some (inject_Z (TileData.x randomHub),
                     inject_Z (TileData.y randomHub), S c1)
             else
               Some (inject_Z (mapSize st) / 2, inject_Z (mapSize st) / 2, c1)) ;;
          let '(startX, startY, c2) := start in
          found <- firstValid (range 20) (autoSite rnd c2 startX startY)
                     (siteValid currentGrid (mapSize st) config) ;;
          match found with
          | Some (attempt, (x, y)) =>
              let variant :=
                Qfloor (rnd (c2 + 2 * Z.to_nat attempt + 2)%nat * 4) in
              newGrid <- placeFootprint currentGrid targetType x y variant ;;
              Some (setStats (setGrid st newGrid)
                             (debit (BuildingConfig.cost config)))
          | None => Some st
          end
    end.

(** *** Tick *)

Definition powerPenalty (a : Agg.t) : Agg.t :=
  if isLowPower a then
    Agg.mk (floor (Agg.dailyIncome a * powerRatio a))
           0
           (floor (Agg.dailyScience a * powerRatio a))
           (Agg.powerGen a) (Agg.powerDrain a)
           (floor (Agg.bioFoodGen a * powerRatio a))
           (Agg.bioO2Gen a * powerRatio a)
           (Agg.bioCO2Gen a)
           (Agg.buildingCounts a) (Agg.processedRoots a)
  else a.

(** The locals of the [setStats] updater, in source order.  [a] is the
    aggregate after the power penalty, [prev] the stats before. *)

Definition foodBalance (a : Agg.t) (prev : CityStats) : Q :=
  food prev + Agg.bioFoodGen a - population prev * POP_FOOD_CONSUMPTION.

Definition starvation (a : Agg.t) (prev : CityStats) : Q :=
  if Qltb (foodBalance a prev) 0 then Qabs (foodBalance a prev) else 0.

Definition newFood (a : Agg.t) (prev : CityStats) : Q :=
  if Qltb (foodBalance a prev) 0 then 0 else foodBalance a prev.

Definition isEmptyColony (a : Agg.t) (prev : CityStats) : bool :=
  Qeq_bool (population prev) 0 && (length (Agg.processedRoots a) =? 0)%nat.

Definition newO2 (a : Agg.t) (prev : CityStats) : Q :=
  let newO2 := oxygen prev + Agg.bioO2Gen a - population prev * POP_O2_CONSUMPTION in
  let newO2 := if isEmptyColony a prev then 100 else newO2 in
  let newO2 := if Qgtb newO2 100 then 100 else newO2 in
  if Qltb newO2 0 then 0 else newO2.

Definition newCO2 (a : Agg.t) (prev : CityStats) : Q :=
  let newCO2 := co2 prev + population prev * POP_CO2_PRODUCTION + Agg.bioCO2Gen a in
  let newCO2 := if isEmptyColony a prev then 400 else newCO2 in
  if Qltb newCO2 300 then 300 else newCO2.

(** [deathToll], on the values the updater has at that point. *)
Definition deathTollOf (starvation pop newO2 newCO2 : Q) : Q :=
  let deathToll := 0 in
  let deathToll :=
    if Qgtb starvation 0 then deathToll + floor (starvation * 0.1) else deathToll in
  let deathToll :=
    if Qltb newO2 10 then deathToll + floor (pop * 0.05)
    else if Qltb newO2 5 then deathToll + floor (pop * 0.2)
    else deathToll in
  if Qgtb newCO2 2000 then deathToll + floor (pop * 0.02) else deathToll.

Definition deathToll (a : Agg.t) (prev : CityStats) : Q :=
  deathTollOf (starvation a prev) (population prev) (newO2 a prev) (newCO2 a prev).

Definition newPop (a : Agg.t) (prev : CityStats) : Q :=
  let newPop := population prev + Agg.dailyPopGrowth a - deathToll a prev in
  let newPop := if Qgtb newPop (maxPop a) then maxPop a else newPop in
  if Qltb newPop 0 then 0 else newPop.

Definition newStats (a : Agg.t) (prev : CityStats) : CityStats :=
  mkStats (money prev + Agg.dailyIncome a)
          (newPop a prev)
          (day prev + 1)
          (science prev + Agg.dailyScience a)
          (Agg.powerGen a)
          (Agg.powerDrain a)
          (newO2 a prev)
          (newCO2 a prev)
          (newFood a prev).

(** The history ring buffer: the entry copies the nine fields of
    [newStats]. *)
Definition pushHistory (entry : CityStats) (prevHist : list CityStats)
  : list CityStats :=
  let newHist := prevHist ++ [entry] in
  if (60 <? length newHist)%nat then tl newHist else newHist.

(** One run of the interval callback.  The random alerts and
    [fetchNews] only append to the news feed and are left out. *)
Definition tick (rnd : nat -> Q) (st : State) : option State :=
  let a := powerPenalty (aggregate BUILDINGS (grid st)) in
  st1 <- (if autoGrowth st then attemptAutoBuild rnd st else Some st) ;;
  let ns := newStats a (stats st1) in
  Some (setCurrentGoal
          (setHistory (setStats st1 (fun _ => ns)) (pushHistory ns))
          (checkGoal (aiEnabled st1) (currentGoal st1)
             (money ns) (population ns) (science ns) (Agg.buildingCounts a))).

(** *** Tile click: demolition and placement *)

Definition cleared (old : TileData.t) : TileData.t :=
  TileData.mk (TileData.x old) (TileData.y old) BuildingType.None None None None
              (TileData.height old).

(** The clear loop of the bulldozer. *)
Definition clearFootprint (g : Grid) (size : Z) (targetConfig : BuildingConfig.t)
           (rootX rootY : Z) : option Grid :=
  forFootprint (BuildingConfig.width targetConfig) (BuildingConfig.height targetConfig)
    (fun i j newGrid =>
       if ((rootY + j <? size) && (rootX + i <? size))%Z
       then
         old <- tileAt newGrid (rootX + i) (rootY + j) ;;
         setTile newGrid (rootX + i) (rootY + j) (cleared old)
       else Some newGrid)
    g.

(** The occupancy and flatness scan of the click handler. *)
Definition clickOccupied (g : Grid) (tool : BuildingType.t) (w h x y : Z)
           (baseHeight : option Z) : option bool :=
  forFootprint w h
    (fun i j occupied =>
       t <- tileAt g (x + i) (y + j) ;;
       let occupied :=
         if BuildingType.eqb tool BuildingType.GreenRoad
            && BuildingType.eqb (TileData.buildingType t) BuildingType.Road
         then occupied
         else if isNone (TileData.buildingType t) then occupied else true in
       Some (if optZ_eqb (TileData.height t) baseHeight then occupied else true))
    false.

Definition isMoon (v : ViewMode) : bool :=
  match v with moon => true | _ => false end.

(** [variant] is [Math.floor(Math.random() * 4)], drawn on the success
    path only. *)
Definition handleTileClick (st : State) (x y : Z) (now : string) (variant : Z)
  : option State :=
  if negb (gameStarted st) || isMoon (viewMode st) then Some st
  else
    let currentGrid := grid st in
    let currentStats := stats st in
    let tool := selectedTool st in
    let size := mapSize st in
    if ((x <? 0) || (x >=? size) || (y <? 0) || (y >=? size))%Z then Some st
    else
      row <- index currentGrid y ;;
      let clickedTile := index row x in
      let buildingConfig := BUILDINGS tool in
      if BuildingType.eqb tool BuildingType.None then
        clicked <- clickedTile ;;
        if negb (isNone (TileData.buildingType clicked)) then
          let demolishCost := 50 in
          if Qgeb (money currentStats) demolishCost then
            let rootX := match TileData.ownerX clicked with
                         | Some ox => ox | None => TileData.x clicked end in
            let rootY := match TileData.ownerY clicked with
                         | Some oy => oy | None => TileData.y clicked end in
            root <- tileAt currentGrid rootX rootY ;;
            let targetType := TileData.buildingType root in
            let targetConfig := BUILDINGS targetType in
            newGrid <- clearFootprint currentGrid size targetConfig rootX rootY ;;
            Some (setStats (setGrid st newGrid) (debit demolishCost))
          else
            Some (pushNews st
                    (NewsItem.mk now "Insufficient credits for demolition crews."
                                 negative))
        else Some st
      else if negb (includes (unlockedBuildings st) tool) then
        Some (pushNews st (NewsItem.mk now "Technology not yet researched." negative))
      else if ((x + BuildingConfig.width buildingConfig >? size)
               || (y + BuildingConfig.height buildingConfig >? size))%Z then
        Some (pushNews st
                (NewsItem.mk now "Cannot place here: Outside colony bounds." negative))
      else
        corner <- clickedTile ;;
        occupied <- clickOccupied currentGrid tool
                      (BuildingConfig.width buildingConfig)
                      (BuildingConfig.height buildingConfig) x y
                      (TileData.height corner) ;;
        if occupied then
          Some (pushNews st
                  (NewsItem.mk now "Sector occupied or uneven terrain." negative))
        else if Qgeb (money currentStats) (BuildingConfig.cost buildingConfig) then
          newGrid <- placeFootprint currentGrid tool x y variant ;;
          Some (setGrid (setStats st (debit (BuildingConfig.cost buildingConfig)))
                        newGrid)
        else
          Some (pushNews st
                  (NewsItem.mk now
                     (String.append "Insufficient credits for "
                        (String.append (BuildingConfig.name buildingConfig) "."))
                     negative)).
End Engine.
End Extended.

(** * The event loop of the extended variant

    The application reacts to one event at a time: the interval timer, a
    tile click, a toolbar or research action, the arrival of a goal from
    the goal service. *)

Module Run.
Import Extended.

Inductive Event : Type :=
| Start (enabled : bool) (size : Z)
| Tick (rnd : nat -> Q)
| Click (x y : Z) (now : string) (variant : Z)
| SelectTool (tool : BuildingType.t)
| UnlockTech (techId now : string)
| ClaimReward (now : string)
| GoalArrives (goal : AIGoal.t)
| ToggleAutoGrowth
| SetViewMode (v : ViewMode).

Section Loop.
Variable BUILDINGS : BuildingType.t -> BuildingConfig.t.
Variable TECH_TREE : list TechNode.t.
Variables POP_FOOD_CONSUMPTION POP_O2_CONSUMPTION POP_CO2_PRODUCTION : Q.
Variables cos sin : Q -> Q.
Variable PI : Q.

Definition step (st : State) (e : Event) : option State :=
  match e with
  | Start enabled size =>
      (* the start screen is shown only while the game has not started *)
      if gameStarted st then Some st else Some (handleStart st enabled size)
  | Tick rnd =>
      if gameStarted st
      then tick BUILDINGS TECH_TREE POP_FOOD_CONSUMPTION POP_O2_CONSUMPTION
                POP_CO2_PRODUCTION cos sin PI rnd st
      else Some st
  | Click x y now variant => handleTileClick BUILDINGS TECH_TREE st x y now variant
  | SelectTool tool =>
      Some (mkState (gameStarted st) (mapSize st) (aiEnabled st) (autoGrowth st)
                    (viewMode st) (grid st) (stats st) (history st) tool
                    (unlockedTechs st) (currentGoal st) (newsFeed st))
  | UnlockTech techId now => Some (handleUnlockTech TECH_TREE st techId now)
  | ClaimReward now => Some (handleClaimReward st now)
  | GoalArrives goal =>
      (* [fetchNewGoal]: the service answered and [setCurrentGoal(newGoal)]
         ran; the call is made once the game has started and only while
         the AI is enabled *)
      if gameStarted st && aiEnabled st
      then Some (setCurrentGoal st (Some goal)) else Some st
  | ToggleAutoGrowth =>
      Some (mkState (gameStarted st) (mapSize st) (aiEnabled st)
                    (negb (autoGrowth st)) (viewMode st) (grid st) (stats st)
                    (history st) (selectedTool st) (unlockedTechs st)
                    (currentGoal st) (newsFeed st))
  | SetViewMode v =>
      Some (mkState (gameStarted st) (mapSize st) (aiEnabled st) (autoGrowth st)
                    v (grid st) (stats st) (history st) (selectedTool st)
                    (unlockedTechs st) (currentGoal st) (newsFeed st))
  end.

Fixpoint run (st : State) (events : list Event) : option State :=
  match events with
  | [] => Some st
  | e :: rest => st' <- step st e ;; run st' rest
  end.
End Loop.
End Run.

(** * The research panel ([TechModal] of the overlay)

    A node shows its Research button when it is neither unlocked nor
    locked; the button is disabled while science does not cover the cost;
    pressing it calls [onUnlock(tech.id)], which is [handleUnlockTech]. *)

Module TechModal.

(** [unlockedTechs.includes(id)] *)
Definition includesId (unlockedTechs : list string) (id : string) : bool :=
  existsb (String.eqb id) unlockedTechs.

Definition isUnlocked (unlockedTechs : list string) (tech : TechNode.t) : bool :=
  includesId unlockedTechs (TechNode.id tech).

Definition canUnlock (unlockedTechs : list string) (tech : TechNode.t) : bool :=
  negb (isUnlocked unlockedTechs tech)
  && forallb (fun pre => includesId unlockedTechs pre) (TechNode.prerequisites tech).

Definition isLocked (unlockedTechs : list string) (tech : TechNode.t) : bool :=
  negb (isUnlocked unlockedTechs tech) && negb (canUnlock unlockedTechs tech).

(** [!isUnlocked && !isLocked && <button ...>] *)
Definition buttonShown (unlockedTechs : list string) (tech : TechNode.t) : bool :=
  negb (isUnlocked unlockedTechs tech) && negb (isLocked unlockedTechs tech).

(** [disabled={science < tech.cost}] *)
Definition buttonDisabled (science : Q) (tech : TechNode.t) : bool :=
  Qltb science (TechNode.cost tech).

Section Press.
Variable TECH_TREE : list TechNode.t.

(** A press on the place of the Research button of [tech]: the handler
    runs when the button is there and enabled, nothing happens
    otherwise. *)
Definition press (st : Extended.State) (p : TechNode.t * string) : Extended.State :=
  let '(tech, now) := p in
  if buttonShown (Extended.unlockedTechs st) tech
     && negb (buttonDisabled (Extended.science (Extended.stats st)) tech)
  then Extended.handleUnlockTech TECH_TREE st (TechNode.id tech) now
  else st.
End Press.
End TechModal.

(** * The placement preview of the map ([IsoMap])

    The map tints the footprint under the pointer blue when [isValid]
    holds and red otherwise; [hoveredTile] is the tile under the pointer,
    if any. *)

Module IsoMap.
Section Preview.
Variable BUILDINGS : BuildingType.t -> BuildingConfig.t.

(** The two loops over the footprint: occupancy and height uniformity. *)
Definition previewScan (grid : Grid) (w h hx hy : Z) (baseHeight : option Z)
  : option bool :=
  forFootprint w h
    (fun i j isValid =>
       tile <- tileAt grid (hx + i) (hy + j) ;;
       let isValid :=
         if negb (isNone (TileData.buildingType tile)) then false else isValid in
       Some (if negb (optZ_eqb (TileData.height tile) baseHeight)
             then false else isValid))
    true.

Definition isValid (grid : Grid) (hoveredTool : BuildingType.t) (mapSize : Z)
           (hoveredTile : option (Z * Z)) : option bool :=
  match hoveredTile with
  | None => Some false
  | Some (hx, hy) =>
      let toolConfig := BUILDINGS hoveredTool in
      if negb (BuildingType.eqb hoveredTool BuildingType.None) then
        if ((hx + BuildingConfig.width toolConfig >? mapSize)
            || (hy + BuildingConfig.height toolConfig >? mapSize))%Z
        then Some false
        else
          base <- tileAt grid hx hy ;;
          previewScan grid (BuildingConfig.width toolConfig)
                      (BuildingConfig.height toolConfig) hx hy (TileData.height base)
      else Some true
  end.
End Preview.
End IsoMap.

(** * The goal service ([services/geminiService.ts], the version with the
    fallback system)

    The service asks a language model for the next goal and falls back on
    a table of its own.  The awaited call is an input of the function
    here: it answers with text that parses to goal data, answers without
    text, or throws; [Math.random] and [Date.now] are inputs too, and the
    module variable [apiCooldownUntil] is passed in and returned. *)

Module GoalService.

(** An entry of [FALLBACK_GOALS]. *)
Record Template : Type := mkTemplate {
  description : string;
  targetType : TargetType;
  targetValue : Q;
  buildingType : option BuildingType.t;
  reward : Q
}.

Definition FALLBACK_GOALS : list Template :=
  [ mkTemplate "Expand habitation modules to support new colonists."
               population_t 50 None 500;
    mkTemplate "Stockpile credits for emergency repairs."
               money_t 5000 None 200;
    mkTemplate "Increase Science output to unlock new tech."
               science_t 100 None 1000;
    mkTemplate "Construct additional Solar Arrays for grid stability."
               building_count_t 5 (Some BuildingType.SolarPanel) 300;
    mkTemplate "Establish a stable food supply chain."
               building_count_t 3 (Some BuildingType.Agriculture) 450;
    mkTemplate "Develop commercial district for off-world trade."
               building_count_t 2 (Some BuildingType.Commercial) 600 ]%string.


(** [v || d] on a number and on a string. *)
Definition orNum (v d : Q) : Q := if Qeq_bool v 0 then d else v.
Definition orStr (s d : string) : string := if String.eqb s "" then d else s.

(** [getFallbackGoal]; [r] is the value of [Math.random()].  [None] is the
    TypeError of reading a field of a missing template. *)
Definition getFallbackGoal (r : Q) (stats : Extended.CityStats) : option AIGoal.t :=
  template <- index FALLBACK_GOALS
                (Qfloor (r * inject_Z (Z.of_nat (length FALLBACK_GOALS)))) ;;
  let target := orNum (targetValue template) 100 in
  let target := match targetType template with
                | money_t => floor (Extended.money stats * 1.5) + 1000
                | _ => target
                end in
  let target := match targetType template with
                | population_t => floor (Extended.population stats * 1.2) + 15
                | _ => target
                end in
  let target := match targetType template with
                | science_t => floor (Extended.science stats * 1.2) + 50
                | _ => target
                end in
  Some (AIGoal.mk (orStr (description template) "Expand Colony Operations")
                  (targetType template) target (buildingType template)
                  (orNum (reward template) 500) false).








End GoalService.

(** * The guide of the overlay ([RoboGuide])

    Every three seconds the guide looks at the stats and picks the first
    message whose condition holds. *)

Module RoboGuide.

Inductive Message : Set :=
| Welcome
| PowerFailing
| OxygenDropping
| FoodShortage
| FundsLow
| Bankruptcy.

(** [stats.incomeGen]: the stats objects that [App] builds carry no such
    field, so the read yields [undefined], and a comparison of
    [undefined] with a number is false. *)
Definition incomeGen (stats : Extended.CityStats) : option Q := None.

Definition gt (v : option Q) (c : Q) : bool :=
  match v with Some q => Qgtb q c | None => false end.

Definition lt (v : option Q) (c : Q) : bool :=
  match v with Some q => Qltb q c | None => false end.

(** [checkStatus]: the message set, if any. *)
Definition checkStatus (stats : Extended.CityStats) : option Message :=
  if Qeq_bool (Extended.population stats) 0 && Qltb (Extended.day stats) 5
  then Some Welcome
  else if Qgtb (Extended.powerDemand stats) (Extended.powerSupply stats)
  then Some PowerFailing
  else if Qltb (Extended.oxygen stats) 50 then Some OxygenDropping
  else if Qltb (Extended.food stats) (Extended.population stats)
  then Some FoodShortage
  else if Qltb (Extended.money stats) 500 && gt (incomeGen stats) 0
  then Some FundsLow
  else if Qltb (Extended.money stats) 200 && lt (incomeGen stats) 0
  then Some Bankruptcy
  else None.
End RoboGuide.

(** * The charts of the dashboard ([CyberChart])

    The chart plots, for each key, one point per history entry in a box of
    100 by 50 with a padding of 2.  A history entry has the nine fields of
    the stats; a key is the field it selects.  The component draws
    nothing with fewer than two entries.  [Infinity] is [None]. *)

Module CyberChart.

Definition width : Q := 100.
Definition height : Q := 50.
Definition padding : Q := 2.

Section Chart.
Variable data : list Extended.CityStats.
Variable dataKeys : list (Extended.CityStats -> Q).
Variable maxValue : option Q.

Definition maxVal : Q :=
  match maxValue with
  | Some m => m
  | None =>
      let max :=
        fold_left
          (fun max d =>
             fold_left (fun max k => if Qgtb (k d) max then k d else max) dataKeys max)
          data 0 in
      if Qgtb max 0 then max * 1.1 else 10
  end.

Definition minVal : Q :=
  let min :=
    fold_left
      (fun min d =>
         fold_left
           (fun min k =>
              match min with
              | Some m => if Qltb (k d) m then Some (k d) else min
              | None => Some (k d)
              end)
           dataKeys min)
      data None in
  match min with
  | None => 0
  | Some m => Qmax 0 (m * 0.8)
  end.

(** [maxVal - minVal || 1] *)
Definition range : Q :=
  let r := maxVal - minVal in
  if Qeq_bool r 0 then 1 else r.

(** The pair that [getPoints] prints as [`${x},${y}`] for entry [i]. *)
Definition point (key : Extended.CityStats -> Q) (i : nat) (d : Extended.CityStats)
  : Q * Q :=
  let x := padding
           + (inject_Z (Z.of_nat i) / (inject_Z (Z.of_nat (length data)) - 1))
             * (width - padding * 2) in
  let val := key d in
  let normalizedVal := (val - minVal) / range in
  let y := height - padding - normalizedVal * (height - padding * 2) in
  (x, y).

Definition getPoints (key : Extended.CityStats -> Q) : list (Q * Q) :=
  map (fun p => point key (fst p) (snd p)) (combine (seq 0 (length data)) data).
End Chart.
End CyberChart.

(** * A sample colony for worked examples

    The constants module of the extended variant is not among the sources.
    Costs and crew or credit yields of the kinds that [constants.tsx] lists
    are those of that file; footprints, power, science and bio yields, the
    kinds it does not list, the research tree and the per-capita rates are
    sample values. *)

Module Demo.
Definition cfg (cost : Q) (name : string) (popGen incomeGen powerGen scienceGen
                foodGen oxygenGen co2Gen : Q) (w h : Z) : BuildingConfig.t :=
  BuildingConfig.mk cost name popGen incomeGen powerGen scienceGen foodGen
                    oxygenGen co2Gen w h.

Definition BUILDINGS (b : BuildingType.t) : BuildingConfig.t :=
  match b with
  | BuildingType.None => cfg 0 "Recycle" 0 0 0 0 0 0 0 1 1
  | BuildingType.Road => cfg 15 "Corridor" 0 0 0 0 0 0 0 1 1
  | BuildingType.GreenRoad => cfg 30 "Green Corridor" 0 0 0 0 0 0.5 0 1 1
  | BuildingType.Residential => cfg 150 "Habitation" 5 0 (-5) 0 0 0 0 1 1
  | BuildingType.Commercial => cfg 300 "Comms Hub" 0 15 (-10) 0 0 0 0 1 1
  | BuildingType.Industrial => cfg 500 "Reactor" 0 40 (-20) 0 0 0 10 2 2
  | BuildingType.Agriculture => cfg 200 "Hydroponics" 0 0 (-5) 0 20 2 (-5) 2 2
  | BuildingType.Park => cfg 100 "Bio-Dome" 1 0 (-2) 0 0 3 (-10) 1 1
  | BuildingType.SolarPanel => cfg 120 "Solar Array" 0 0 20 0 0 0 0 1 1
  | BuildingType.FusionReactor => cfg 2500 "Fusion Core" 0 0 200 0 0 0 0 3 3
  | BuildingType.ResearchLab => cfg 800 "Laboratory" 0 0 (-15) 5 0 0 0 2 2
  end.

Definition TECH_TREE : list TechNode.t :=
  [ TechNode.mk "basics" "Colony Basics" 0
      [BuildingType.Road; BuildingType.Residential; BuildingType.SolarPanel] [];
    TechNode.mk "commerce" "Commerce" 20
      [BuildingType.Commercial; BuildingType.Park] ["basics"];
    TechNode.mk "fusion" "Fusion Power" 100
      [BuildingType.FusionReactor] ["commerce"] ]%string.

Definition POP_FOOD_CONSUMPTION : Q := 0.1.
Definition POP_O2_CONSUMPTION : Q := 0.05.
Definition POP_CO2_PRODUCTION : Q := 0.5.

(** Stand-ins for [Math.cos], [Math.sin], [Math.PI], [Math.random]. *)
Definition cos (_ : Q) : Q := 1.
Definition sin (_ : Q) : Q := 0.
Definition PI : Q := 3.14159.
Definition rnd (_ : nat) : Q := 0.5.

Definition emptyTile (height : option Z) (x y : Z) : TileData.t :=
  TileData.mk x y BuildingType.None None None None height.

Definition emptyRow (height : option Z) (size y : Z) : list TileData.t :=
  map (fun x => emptyTile height x y) (range size).

(** A level [size] x [size] grid without buildings. *)
Definition emptyGrid (height : option Z) (size : Z) : Grid :=
  map (emptyRow height size) (range size).

Definition single (b : BuildingType.t) (height : option Z) (x y : Z) : TileData.t :=
  TileData.mk x y b (Some x) (Some y) None height.

(** Three by three, level, with a habitation module in the corner and a
    solar array next to it. *)
Definition smallBase (height : option Z) : Grid :=
  [ [single BuildingType.Residential height 0 0;
     single BuildingType.SolarPanel height 1 0;
     emptyTile height 2 0];
    emptyRow height 3 1;
    emptyRow height 3 2 ].

Definition basicStats (money population : Q) : Basic.CityStats :=
  Basic.mkStats money population 1 0 0 0.

Definition basicState (g : Grid) (size : Z) (tool : BuildingType.t)
           (s : Basic.CityStats) : Basic.State :=
  Basic.mkState true size true false g s tool ["basics"%string] None [].

Definition extStats (money population oxygen co2 food : Q) : Extended.CityStats :=
  Extended.mkStats money population 1 0 0 0 oxygen co2 food.

Definition extState (g : Grid) (size : Z) (tool : BuildingType.t)
           (s : Extended.CityStats) : Extended.State :=
  Extended.mkState true size true false Extended.standard g s [] tool
                   ["basics"%string] None [].

Definition basicTick : (nat -> Q) -> Basic.State -> option Basic.State :=
  Basic.tick BUILDINGS TECH_TREE.

Definition extTick : (nat -> Q) -> Extended.State -> option Extended.State :=
  Extended.tick BUILDINGS TECH_TREE POP_FOOD_CONSUMPTION POP_O2_CONSUMPTION
                POP_CO2_PRODUCTION cos sin PI.
End Demo.

(** * Vocabulary of the statements *)

(** The power totals and the per-kind counts of an aggregate are never
    negative. *)
Definition aggSane (a : Agg.t) : Prop :=
  0 <= Agg.powerGen a /\ 0 <= Agg.powerDrain a /\
  (forall k, (0 <= Agg.buildingCounts a k)%Z).

(** The death toll as the specification words it: three floored
    contributions, the suffocation rate being 20% below 5 and 5% from 5 up
    to 10. *)
Definition deathToll_spec (starvation pop newO2 newCO2 : Q) : Q :=
  (if Qgtb starvation 0 then floor (0.1 * starvation) else 0)
  + (if Qltb newO2 5 then floor (pop * 0.2)
     else if Qltb newO2 10 then floor (pop * 0.05)
     else 0)
  + (if Qgtb newCO2 2000 then floor (pop * 0.02) else 0).

(** The stat that a goal watches, among the new stats of a tick and the
    per-kind counts of its aggregation pass; a building-count goal without
    a kind watches nothing. *)
Definition goalMetric (goal : AIGoal.t) (money pop sci : Q)
           (counts : BuildingType.t -> Z) : option Q :=
  match AIGoal.targetType goal with
  | money_t => Some money
  | population_t => Some pop
  | science_t => Some sci
  | building_count_t =>
      option_map (fun b => inject_Z (counts b)) (AIGoal.buildingType goal)
  end.

Definition targetReached (goal : AIGoal.t) (money pop sci : Q)
           (counts : BuildingType.t -> Z) : Prop :=
  exists m, goalMetric goal money pop sci counts = Some m
            /\ AIGoal.targetValue goal <= m.

(** Oxygen within 0..100 and CO2 at 300 or more. *)
Definition atmosphereOk (s : Extended.CityStats) : Prop :=
  (0 <= Extended.oxygen s <= 100) /\ 300 <= Extended.co2 s.

(** ** Grids and footprints *)

(** A square grid of side [n]. *)
Definition wfGrid (n : Z) (g : Grid) : Prop :=
  Z.of_nat (length g) = n /\ Forall (fun row => Z.of_nat (length row) = n) g.

Definition inMap (size x y : Z) : Prop := (0 <= x < size /\ 0 <= y < size)%Z.

(** The footprint [w] x [h] anchored at [(x, y)] lies within the map. *)
Definition footprintInside (size w h x y : Z) : Prop :=
  inMap size x y /\ (x + w <= size)%Z /\ (y + h <= size)%Z.

(** Every covered tile exists and is empty. *)
Definition footprintEmpty (g : Grid) (w h x y : Z) : Prop :=
  forall i j, (0 <= i < w)%Z -> (0 <= j < h)%Z ->
    exists t, tileAt g (x + i) (y + j) = Some t
              /\ TileData.buildingType t = BuildingType.None.

(** Every covered tile has the height of the origin tile. *)
Definition footprintLevel (g : Grid) (w h x y : Z) : Prop :=
  exists corner, tileAt g x y = Some corner /\
    forall i j, (0 <= i < w)%Z -> (0 <= j < h)%Z ->
      exists t, tileAt g (x + i) (y + j) = Some t
                /\ TileData.height t = TileData.height corner.

(** What the click handler of the extended variant accepts under a
    footprint: level ground, and tiles that are empty or, when paving a
    green road, plain road. *)
Definition placeableE (g : Grid) (tool : BuildingType.t) (w h x y : Z) : Prop :=
  exists corner, tileAt g x y = Some corner /\
    forall i j, (0 <= i < w)%Z -> (0 <= j < h)%Z ->
      exists t, tileAt g (x + i) (y + j) = Some t
                /\ (TileData.buildingType t = BuildingType.None
                    \/ (tool = BuildingType.GreenRoad
                        /\ TileData.buildingType t = BuildingType.Road))
                /\ TileData.height t = TileData.height corner.

(** Membership in a list of loop counters. *)
Definition inZ (k : Z) (l : list Z) : bool := existsb (Z.eqb k) l.

(** The common shape of the write loops: under [guard], the tile at the
    offset is replaced by [paint] of what is there. *)
Definition paintBody (guard : Z -> Z -> bool)
           (paint : Z -> Z -> TileData.t -> TileData.t)
           (x y i j : Z) (s : Grid) : option Grid :=
  if guard i j then
    old <- tileAt s (x + i) (y + j) ;;
    setTile s (x + i) (y + j) (paint (x + i)%Z (y + j)%Z old)
  else Some s.

(** The tiles that a guarded write loop over [w] x [h] at [(x, y)]
    rewrites. *)
Definition paintedb (guard : Z -> Z -> bool) (w h x y x' y' : Z) : bool :=
  ((x <=? x') && (x' <? x + w) && (y <=? y') && (y' <? y + h))%Z
  && guard (x' - x)%Z (y' - y)%Z.

(** The common shape of the scans: read the tile, raise the flag if it is
    [bad]. *)
Definition scanBody (bad : TileData.t -> bool) (g : Grid) (x y i j : Z)
           (occupied : bool) : option bool :=
  t <- tileAt g (x + i) (y + j) ;; Some (occupied || bad t).

(** The reasons for which the click handler refuses a request on a tile
    of the map. *)
Definition demolitionUnaffordable (money : Q) (g : Grid) (tool : BuildingType.t)
           (x y : Z) : Prop :=
  tool = BuildingType.None
  /\ (exists t, tileAt g x y = Some t
                /\ TileData.buildingType t <> BuildingType.None)
  /\ money < 50.

Definition placementRejectedB (cfg : BuildingConfig.t)
           (unlocked : list BuildingType.t) (money : Q) (g : Grid) (size : Z)
           (tool : BuildingType.t) (x y : Z) : Prop :=
  tool <> BuildingType.None /\
  (includes unlocked tool = false
   \/ ~ ((x + BuildingConfig.width cfg <= size)%Z
         /\ (y + BuildingConfig.height cfg <= size)%Z)
   \/ ~ footprintEmpty g (BuildingConfig.width cfg) (BuildingConfig.height cfg) x y
   \/ money < BuildingConfig.cost cfg).

Definition placementRejectedE (cfg : BuildingConfig.t)
           (unlocked : list BuildingType.t) (money : Q) (g : Grid) (size : Z)
           (tool : BuildingType.t) (x y : Z) : Prop :=
  tool <> BuildingType.None /\
  (includes unlocked tool = false
   \/ ~ ((x + BuildingConfig.width cfg <= size)%Z
         /\ (y + BuildingConfig.height cfg <= size)%Z)
   \/ ~ placeableE g tool (BuildingConfig.width cfg) (BuildingConfig.height cfg) x y
   \/ money < BuildingConfig.cost cfg).

(** The tiles that the bulldozer clears for a [w] x [h] building rooted at
    [(rootX, rootY)] on a map of side [n]: the covered ones that lie on
    the map. *)
Definition clearedArea (n w h rootX rootY x' y' : Z) : Prop :=
  (rootX <= x' < rootX + w /\ rootY <= y' < rootY + h /\ x' < n /\ y' < n)%Z.

(** An empty tile without owner and variant. *)
Definition isCleared (t : TileData.t) : Prop :=
  TileData.buildingType t = BuildingType.None /\ TileData.ownerX t = None
  /\ TileData.ownerY t = None /\ TileData.variant t = None.

(** What each scan flags on a tile. *)
Definition occupiedTile (t : TileData.t) : bool :=
  negb (isNone (TileData.buildingType t)).

Definition unevenTile (baseHeight : option Z) (t : TileData.t) : bool :=
  negb (optZ_eqb (TileData.height t) baseHeight).

Definition badForAutoE (baseHeight : option Z) (t : TileData.t) : bool :=
  occupiedTile t || unevenTile baseHeight t.

Definition badForClickE (tool : BuildingType.t) (baseHeight : option Z)
           (t : TileData.t) : bool :=
  (negb (BuildingType.eqb tool BuildingType.GreenRoad
         && BuildingType.eqb (TileData.buildingType t) BuildingType.Road)
   && occupiedTile t)
  || unevenTile baseHeight t.

(** The tiles under a [w] x [h] footprint at [(x, y)]. *)
Definition covers (w h x y x' y' : Z) : Prop :=
  (x <= x' < x + w /\ y <= y' < y + h)%Z.

(** [st'] is [st] after the auto-builder placed one building: a kind that
    is unlocked and affordable, on a footprint inside the map whose tiles
    were empty (and, in the extended variant, level with the origin), which
    the click handler has no reason to reject; the covered tiles carry the
    stamp, the other tiles are as before, and the cost is taken from the
    money, which stays at 0 or more. *)
Definition builtB (BUILDINGS : BuildingType.t -> BuildingConfig.t)
           (TECH_TREE : list TechNode.t) (st st' : Basic.State) : Prop :=
  exists kind x y newGrid,
    let cfg := BUILDINGS kind in
    let w := BuildingConfig.width cfg in
    let h := BuildingConfig.height cfg in
    includes (Basic.unlockedBuildings TECH_TREE st) kind = true /\
    BuildingConfig.cost cfg <= Basic.money (Basic.stats st) /\
    footprintInside (Basic.mapSize st) w h x y /\
    footprintEmpty (Basic.grid st) w h x y /\
    ~ placementRejectedB cfg (Basic.unlockedBuildings TECH_TREE st)
        (Basic.money (Basic.stats st)) (Basic.grid st) (Basic.mapSize st)
        kind x y /\
    Basic.placeFootprint BUILDINGS (Basic.grid st) kind x y = Some newGrid /\
    wfGrid (Basic.mapSize st) newGrid /\
    (forall x' y',
        (covers w h x y x' y' ->
         tileAt newGrid x' y'
         = option_map (Basic.stamp kind x y) (tileAt (Basic.grid st) x' y')) /\
        (~ covers w h x y x' y' ->
         tileAt newGrid x' y' = tileAt (Basic.grid st) x' y')) /\
    st' = Basic.setStats (Basic.setGrid st newGrid)
                         (Basic.debit (BuildingConfig.cost cfg)) /\
    0 <= Basic.money (Basic.stats st').

Definition builtE (BUILDINGS : BuildingType.t -> BuildingConfig.t)
           (TECH_TREE : list TechNode.t) (st st' : Extended.State) : Prop :=
  exists kind x y variant newGrid,
    let cfg := BUILDINGS kind in
    let w := BuildingConfig.width cfg in
    let h := BuildingConfig.height cfg in
    includes (Extended.unlockedBuildings TECH_TREE st) kind = true /\
    BuildingConfig.cost cfg <= Extended.money (Extended.stats st) /\
    footprintInside (Extended.mapSize st) w h x y /\
    footprintEmpty (Extended.grid st) w h x y /\
    footprintLevel (Extended.grid st) w h x y /\
    ~ placementRejectedE cfg (Extended.unlockedBuildings TECH_TREE st)
        (Extended.money (Extended.stats st)) (Extended.grid st)
        (Extended.mapSize st) kind x y /\
    Extended.placeFootprint BUILDINGS (Extended.grid st) kind x y variant
    = Some newGrid /\
    wfGrid (Extended.mapSize st) newGrid /\
    (forall x' y',
        (covers w h x y x' y' ->
         tileAt newGrid x' y'
         = option_map (Extended.stamp kind x y variant)
                      (tileAt (Extended.grid st) x' y')) /\
        (~ covers w h x y x' y' ->
         tileAt newGrid x' y' = tileAt (Extended.grid st) x' y')) /\
    st' = Extended.setStats (Extended.setGrid st newGrid)
                            (Extended.debit (BuildingConfig.cost cfg)) /\
    0 <= Extended.money (Extended.stats st').

(** ** Reachable states of the extended variant *)

(** Every tile records its own position, and an owner, when set, is a
    position of the map. *)
Definition tilesOk (n : Z) (g : Grid) : Prop :=
  forall x y t, tileAt g x y = Some t ->
    TileData.x t = x /\ TileData.y t = y
    /\ (forall ox, TileData.ownerX t = Some ox -> (0 <= ox < n)%Z)
    /\ (forall oy, TileData.ownerY t = Some oy -> (0 <= oy < n)%Z).

Definition stateOk (st : Extended.State) : Prop :=
  wfGrid (Extended.mapSize st) (Extended.grid st)
  /\ tilesOk (Extended.mapSize st) (Extended.grid st)
  /\ (Extended.currentGoal st <> None ->
      Extended.aiEnabled st = true /\ Extended.gameStarted st = true).

(** What the environment guarantees about an event: [Math.random] yields
    numbers in [0,1), and the start screen offers map sizes that are not
    negative. *)
Definition eventOk (e : Run.Event) : Prop :=
  match e with
  | Run.Tick rnd => forall k, 0 <= rnd k /\ rnd k < 1
  | Run.Start _ size => (0 <= size)%Z
  | _ => True
  end.

(** The covered tiles are as [createInitialGrid] or the bulldozer leave
    them (empty, without owner and variant) and level with the origin. *)
Definition footprintFresh (g : Grid) (w h x y : Z) : Prop :=
  exists corner, tileAt g x y = Some corner /\
    forall i j, (0 <= i < w)%Z -> (0 <= j < h)%Z ->
      exists t, tileAt g (x + i) (y + j) = Some t
                /\ isCleared t
                /\ TileData.height t = TileData.height corner.

(** The root ids of the occupied tiles of a grid, in reading order, and the
    number of buildings that an aggregate has counted over all kinds. *)
Definition occupiedRoots (g : Grid) : list RootId :=
  map rootIdOf (filter occupiedTile (concat g)).

Definition totalCount (counts : BuildingType.t -> Z) : Z :=
  fold_right Z.add 0%Z (map counts BuildingType.all).

(** ** Stocks and buffers along a run *)

(** Credits and science are not negative, and neither is the reward of
    the goal in progress. *)
Definition solvent (st : Extended.State) : Prop :=
  0 <= Extended.money (Extended.stats st)
  /\ 0 <= Extended.science (Extended.stats st)
  /\ (forall goal, Extended.currentGoal st = Some goal -> 0 <= AIGoal.reward goal).

(** Crew and food are not negative. *)
Definition vitalsOk (st : Extended.State) : Prop :=
  0 <= Extended.population (Extended.stats st)
  /\ 0 <= Extended.food (Extended.stats st).

(** The goal service pays, it does not fine. *)
Definition rewardOk (e : Run.Event) : Prop :=
  match e with
  | Run.GoalArrives goal => 0 <= AIGoal.reward goal
  | _ => True
  end.


(** The ticks that a run carries out: those that arrive once the game has
    started. *)
Fixpoint ticksRun (started : bool) (events : list Run.Event) : Z :=
  match events with
  | [] => 0%Z
  | Run.Start _ _ :: rest => ticksRun true rest
  | Run.Tick _ :: rest => ((if started then 1 else 0) + ticksRun started rest)%Z
  | _ :: rest => ticksRun started rest
  end.

(** ** Research *)

(** Every researched node of the tree has its prerequisites researched. *)
Definition prereqClosed (tree : list TechNode.t) (techs : list string) : Prop :=
  forall id tech pre,
    In id techs -> findTech tree id = Some tech ->
    In pre (TechNode.prerequisites tech) -> In pre techs.

(** ** The auto-builder's needs *)

(** Priority 1 of the extended auto-builder: oxygen below 80, or less than
    two rations per head in stock. *)
Definition lifeSupportCritical (cs : Extended.CityStats) : Prop :=
  Extended.oxygen cs < 80 \/ Extended.food cs < Extended.population cs * 2.

(** ** Consecutive ticks of the basic variant *)

(** One stream of [Math.random] values per tick. *)
Fixpoint basicTicks (BUILDINGS : BuildingType.t -> BuildingConfig.t)
         (TECH_TREE : list TechNode.t) (rnds : list (nat -> Q)) (st : Basic.State)
  : option Basic.State :=
  match rnds with
  | [] => Some st
  | rnd :: rest =>
      st' <- Basic.tick BUILDINGS TECH_TREE rnd st ;;
      basicTicks BUILDINGS TECH_TREE rest st'
  end.

(** * Properties *)

(** ** Numbers *)

Lemma Qltb_lt (a b : Q) : Qltb a b = true <-> a < b.
Proof.
  unfold Qltb. rewrite negb_true_iff. split; intro H.
  - apply Qnot_le_lt. intro Hle. apply Qle_bool_iff in Hle. congruence.
  - destruct (Qle_bool b a) eqn:E; [|reflexivity].
    apply Qle_bool_iff in E. exfalso. apply (Qlt_not_le _ _ H E).
Qed.

Lemma Qltb_ge (a b : Q) : Qltb a b = false <-> b <= a.
Proof.
  unfold Qltb. rewrite negb_false_iff. apply Qle_bool_iff.
Qed.

Lemma Qgtb_gt (a b : Q) : Qgtb a b = true <-> b < a.
Proof. apply Qltb_lt. Qed.

Lemma Qgtb_le (a b : Q) : Qgtb a b = false <-> a <= b.
Proof. apply Qltb_ge. Qed.

Lemma Qgeb_ge (a b : Q) : Qgeb a b = true <-> b <= a.
Proof. apply Qle_bool_iff. Qed.

Lemma Qgeb_lt (a b : Q) : Qgeb a b = false <-> a < b.
Proof.
  unfold Qgeb. split; intro H.
  - apply Qnot_le_lt. intro Hle. apply Qle_bool_iff in Hle. congruence.
  - destruct (Qle_bool b a) eqn:E; [|reflexivity].
    apply Qle_bool_iff in E. exfalso. apply (Qlt_not_le _ _ H E).
Qed.

(** Case analysis on the comparisons of the code. *)
Ltac cmp_cases :=
  repeat match goal with
  | |- context [Qltb ?a ?b] =>
      let E := fresh "E" in
      destruct (Qltb a b) eqn:E;
      [apply Qltb_lt in E | apply Qltb_ge in E]
  | |- context [Qgtb ?a ?b] =>
      let E := fresh "E" in
      destruct (Qgtb a b) eqn:E;
      [apply Qgtb_gt in E | apply Qgtb_le in E]
  end.

Lemma floor_le (q : Q) : floor q <= q.
Proof. apply Qfloor_le. Qed.

Lemma floor_nonneg (q : Q) : 0 <= q -> 0 <= floor q.
Proof.
  intro H. unfold floor.
  change 0 with (inject_Z 0). rewrite <- Zle_Qle.
  change 0%Z with (Qfloor 0). apply Qfloor_resp_le. exact H.
Qed.

Lemma Qmin_one_range (q : Q) : 0 <= q -> 0 <= Qmin 1 q <= 1.
Proof.
  intro H. split.
  - apply Q.min_glb; [lra | exact H].
  - apply Q.le_min_l.
Qed.

(** ** The aggregation pass *)

Lemma fold_left_invariant {A B : Type} (f : A -> B -> A) (P : A -> Prop) :
  (forall a b, P a -> P (f a b)) ->
  forall l a, P a -> P (fold_left f l a).
Proof.
  intros Hstep l. induction l as [|b l IH]; intros a Ha; simpl; auto.
Qed.

Section AggregationFacts.
Variable BUILDINGS : BuildingType.t -> BuildingConfig.t.

Lemma visit_sane (a : Agg.t) (tile : TileData.t) :
  aggSane a -> aggSane (visit BUILDINGS a tile).
Proof.
  intros (Hg & Hd & Hc). unfold visit.
  destruct (BuildingType.eqb _ BuildingType.None); [repeat split; auto|].
  destruct (has _ _); [repeat split; auto|].
  unfold aggSane; simpl. repeat split.
  - cmp_cases; lra.
  - cmp_cases; [lra|].
    pose proof (Qabs_nonneg (BuildingConfig.powerGen
                               (BUILDINGS (TileData.buildingType tile)))).
    lra.
  - intro k. unfold bump. specialize (Hc k).
    destruct (BuildingType.eqb k _); lia.
Qed.

Lemma aggregate_sane (g : Grid) : aggSane (aggregate BUILDINGS g).
Proof.
  unfold aggregate. apply fold_left_invariant.
  - intros a b. apply visit_sane.
  - unfold aggSane, Agg.zero; simpl. repeat split; try lra. intros; lia.
Qed.

Lemma visit_growth_nonneg (a : Agg.t) (tile : TileData.t) :
  (forall k, 0 <= BuildingConfig.popGen (BUILDINGS k)) ->
  0 <= Agg.dailyPopGrowth a -> 0 <= Agg.dailyPopGrowth (visit BUILDINGS a tile).
Proof.
  intros Hcat Ha. unfold visit.
  destruct (BuildingType.eqb _ BuildingType.None); [exact Ha|].
  destruct (has _ _); [exact Ha|]. simpl.
  specialize (Hcat (TileData.buildingType tile)). lra.
Qed.

Lemma aggregate_growth_nonneg (g : Grid) :
  (forall k, 0 <= BuildingConfig.popGen (BUILDINGS k)) ->
  0 <= Agg.dailyPopGrowth (aggregate BUILDINGS g).
Proof.
  intro Hcat. unfold aggregate.
  apply (fold_left_invariant _ (fun a => 0 <= Agg.dailyPopGrowth a)).
  - intros a b. apply visit_growth_nonneg, Hcat.
  - simpl. lra.
Qed.
End AggregationFacts.

Lemma powerRatio_range (a : Agg.t) : aggSane a -> 0 <= powerRatio a <= 1.
Proof.
  intros (Hg & Hd & _). unfold powerRatio.
  cmp_cases; [|lra].
  apply Qmin_one_range.
  apply Qle_shift_div_l; [exact E | lra].
Qed.

Lemma maxPop_nonneg (a : Agg.t) : aggSane a -> 0 <= maxPop a.
Proof.
  intros (_ & _ & Hc). unfold maxPop, resCount.
  specialize (Hc BuildingType.Residential).
  assert (0 <= inject_Z (Agg.buildingCounts a BuildingType.Residential)).
  { change 0 with (inject_Z 0). rewrite <- Zle_Qle. exact Hc. }
  nra.
Qed.

(** ** What the auto-builder can change, and what a tick computes *)

Section BasicTickFacts.
Variable BUILDINGS : BuildingType.t -> BuildingConfig.t.
Variable TECH_TREE : list TechNode.t.

Lemma basic_autoBuild_shape (rnd : nat -> Q) (st st' : Basic.State) :
  Basic.attemptAutoBuild BUILDINGS TECH_TREE rnd st = Some st' ->
  st' = st \/
  exists g' c, st' = Basic.setStats (Basic.setGrid st g') (Basic.debit c).
Proof.
  unfold Basic.attemptAutoBuild. intro H.
  destruct (Qltb _ 500); [left; congruence|].
  destruct (_ =? 0)%nat; [left; congruence|].
  destruct (index _ _) as [typeToBuild|]; [|discriminate].
  destruct (Qltb _ _); [left; congruence|].
  destruct (firstValid _ _ _) as [[[k [x y]]|]|]; try discriminate.
  - destruct (Basic.placeFootprint _ _ _ _ _) as [g'|]; [|discriminate].
    right. exists g', (BuildingConfig.cost (BUILDINGS typeToBuild)). congruence.
  - left; congruence.
Qed.

Lemma basic_tick_stats (rnd : nat -> Q) (st st' : Basic.State) :
  Basic.tick BUILDINGS TECH_TREE rnd st = Some st' ->
  let a := Basic.powerPenalty (aggregate BUILDINGS (Basic.grid st)) in
  exists prev,
    Basic.stats st' = Basic.newStats a prev /\
    Basic.population prev = Basic.population (Basic.stats st) /\
    Basic.science prev = Basic.science (Basic.stats st) /\
    Basic.currentGoal st' =
      checkGoal (Basic.aiEnabled st) (Basic.currentGoal st)
        (Basic.money (Basic.newStats a prev))
        (Basic.population (Basic.newStats a prev))
        (Basic.science (Basic.newStats a prev))
        (Agg.buildingCounts a).
Proof.
  intros H a. unfold Basic.tick in H.
  destruct (Basic.autoGrowth st).
  - destruct (Basic.attemptAutoBuild _ _ _ _) as [st1|] eqn:E; [|discriminate].
    injection H as <-. exists (Basic.stats st1).
    apply basic_autoBuild_shape in E.
    destruct E as [->|(g' & c & ->)]; simpl; auto.
  - injection H as <-. exists (Basic.stats st). simpl; auto.
Qed.
End BasicTickFacts.

Section ExtendedTickFacts.
Variable BUILDINGS : BuildingType.t -> BuildingConfig.t.
Variable TECH_TREE : list TechNode.t.
Variables POP_FOOD_CONSUMPTION POP_O2_CONSUMPTION POP_CO2_PRODUCTION : Q.
Variables cos sin : Q -> Q.
Variable PI : Q.

Local Abbreviation attemptAutoBuild := (Extended.attemptAutoBuild BUILDINGS TECH_TREE cos sin PI).
Local Abbreviation tick :=
  (Extended.tick BUILDINGS TECH_TREE POP_FOOD_CONSUMPTION POP_O2_CONSUMPTION
                 POP_CO2_PRODUCTION cos sin PI).
Local Abbreviation newStats :=
  (Extended.newStats POP_FOOD_CONSUMPTION POP_O2_CONSUMPTION POP_CO2_PRODUCTION).

Lemma ext_autoBuild_shape (rnd : nat -> Q) (st st' : Extended.State) :
  attemptAutoBuild rnd st = Some st' ->
  st' = st \/
  exists g' c, st' = Extended.setStats (Extended.setGrid st g') (Extended.debit c).
Proof.
  unfold Extended.attemptAutoBuild. intro H.
  destruct (Qltb _ 300); [left; congruence|].
  destruct (Extended.chooseTarget _ _ _ _) as [[targetType|] c1];
    [|left; congruence].
  destruct (Qltb _ _); [left; congruence|].
  match type of H with
  | match ?e with _ => _ end = _ => destruct e as [[[startX startY] c2]|]
  end; [|discriminate].
  destruct (firstValid _ _ _) as [[[k [x y]]|]|]; try discriminate.
  - destruct (Extended.placeFootprint _ _ _ _ _ _) as [g'|]; [|discriminate].
    right. exists g', (BuildingConfig.cost (BUILDINGS targetType)). congruence.
  - left; congruence.
Qed.

Lemma ext_tick_stats (rnd : nat -> Q) (st st' : Extended.State) :
  tick rnd st = Some st' ->
  let a := Extended.powerPenalty (aggregate BUILDINGS (Extended.grid st)) in
  exists prev,
    Extended.stats st' = newStats a prev /\
    Extended.population prev = Extended.population (Extended.stats st) /\
    Extended.science prev = Extended.science (Extended.stats st) /\
    Extended.oxygen prev = Extended.oxygen (Extended.stats st) /\
    Extended.co2 prev = Extended.co2 (Extended.stats st) /\
    Extended.food prev = Extended.food (Extended.stats st) /\
    Extended.currentGoal st' =
      checkGoal (Extended.aiEnabled st) (Extended.currentGoal st)
        (Extended.money (newStats a prev))
        (Extended.population (newStats a prev))
        (Extended.science (newStats a prev))
        (Agg.buildingCounts a).
Proof.
  intros H a. unfold Extended.tick in H.
  destruct (Extended.autoGrowth st).
  - destruct (attemptAutoBuild _ _) as [st1|] eqn:E; [|discriminate].
    injection H as <-. exists (Extended.stats st1).
    apply ext_autoBuild_shape in E.
    destruct E as [->|(g' & c & ->)]; simpl; repeat split; auto.
  - injection H as <-. exists (Extended.stats st). simpl; repeat split; auto.
Qed.
End ExtendedTickFacts.

(** ** Death toll (C1) *)

Section DeathToll.
Variables starvation pop newO2 newCO2 : Q.

(** From an oxygen level of 5 upwards the code and the specification
    agree. *)
Lemma deathTollOf_agrees_from_five :
  5 <= newO2 ->
  Extended.deathTollOf starvation pop newO2 newCO2
  == deathToll_spec starvation pop newO2 newCO2.
Proof.
  intro H. unfold Extended.deathTollOf, deathToll_spec.
  assert (Hs : floor (starvation * 0.1) == floor (0.1 * starvation)).
  { unfold floor. rewrite (Qmult_comm starvation 0.1). reflexivity. }
  cmp_cases; try lra.
Qed.

(** Below 5 the first test [newO2 < 10] already holds, so the 5% rate is
    the one applied. *)
Lemma deathTollOf_below_five :
  newO2 < 5 ->
  Extended.deathTollOf starvation pop newO2 newCO2
  == (if Qgtb starvation 0 then floor (starvation * 0.1) else 0)
     + floor (pop * 0.05)
     + (if Qgtb newCO2 2000 then floor (pop * 0.02) else 0).
Proof.
  intro H. unfold Extended.deathTollOf.
  cmp_cases; try lra.
Qed.
End DeathToll.

(** C1.  The death toll is meant to be the sum of three floored
    contributions, with a suffocation rate of 20% once the new oxygen is
    below 5.  On the sample colony with a crew of 40 and oxygen 4, the new
    oxygen is 2, the code charges floor(40 x 0.05) = 2 deaths where the
    specification charges floor(40 x 0.2) = 8, and the tick leaves a crew
    of 43 instead of 37. *)
Theorem deathToll_below_five_uses_low_rate :
  let prev := Demo.extStats 2000 40 4 400 100 in
  let st := Demo.extState (Demo.smallBase (Some 0%Z)) 3 BuildingType.Road prev in
  let a := Extended.powerPenalty (aggregate Demo.BUILDINGS (Extended.grid st)) in
  let o2 := Extended.newO2 Demo.POP_O2_CONSUMPTION a prev in
  let co2 := Extended.newCO2 Demo.POP_CO2_PRODUCTION a prev in
  let starv := Extended.starvation Demo.POP_FOOD_CONSUMPTION a prev in
  o2 == 2 /\
  Extended.deathTollOf starv 40 o2 co2 == 2 /\
  deathToll_spec starv 40 o2 co2 == 8 /\
  exists st',
    Demo.extTick Demo.rnd st = Some st' /\
    Extended.population (Extended.stats st') == 43.
Proof.
  repeat split; try (vm_compute; reflexivity).
  eexists. split; [vm_compute; reflexivity|]. vm_compute. reflexivity.
Qed.

(** ** Power ratio and the low-power penalty (C2) *)

Section PowerPenalty.
Variable BUILDINGS : BuildingType.t -> BuildingConfig.t.
Variables POP_FOOD_CONSUMPTION POP_O2_CONSUMPTION POP_CO2_PRODUCTION : Q.

Local Abbreviation newStatsE :=
  (Extended.newStats POP_FOOD_CONSUMPTION POP_O2_CONSUMPTION POP_CO2_PRODUCTION).

End PowerPenalty.

(** The scenario of the specification: demand 100, supply 50, one
    building of income 10. *)
Example power_scenario_half :
  let raw := Agg.mk 10 0 0 50 100 0 0 0 (fun _ => 0%Z) [] in
  powerRatio raw == 0.5 /\
  Agg.dailyIncome (Basic.powerPenalty raw) == 5 /\
  Agg.dailyIncome (Extended.powerPenalty raw) == 5.
Proof. repeat split; vm_compute; reflexivity. Qed.


(** ** Population after a tick (C3, C4) *)

Lemma penalty_counts_basic (a : Agg.t) :
  Agg.buildingCounts (Basic.powerPenalty a) = Agg.buildingCounts a.
Proof. unfold Basic.powerPenalty. destruct (isLowPower a); reflexivity. Qed.

Lemma penalty_counts_ext (a : Agg.t) :
  Agg.buildingCounts (Extended.powerPenalty a) = Agg.buildingCounts a.
Proof. unfold Extended.powerPenalty. destruct (isLowPower a); reflexivity. Qed.

Lemma penalty_growth_basic (a : Agg.t) :
  0 <= Agg.dailyPopGrowth a -> 0 <= Agg.dailyPopGrowth (Basic.powerPenalty a).
Proof.
  unfold Basic.powerPenalty. destruct (isLowPower a); simpl; intros; lra.
Qed.

Section PopulationNumbers.
Variables POP_FOOD_CONSUMPTION POP_O2_CONSUMPTION POP_CO2_PRODUCTION : Q.

Local Abbreviation newPopE :=
  (Extended.newPop POP_FOOD_CONSUMPTION POP_O2_CONSUMPTION POP_CO2_PRODUCTION).

Lemma ext_newPop_range (a : Agg.t) (prev : Extended.CityStats) :
  0 <= maxPop a -> 0 <= newPopE a prev <= maxPop a.
Proof.
  intro Hcap. unfold Extended.newPop. cmp_cases; lra.
Qed.

Lemma basic_newPop_evacuation (a : Agg.t) (prev : Basic.CityStats) :
  resCount a = 0%Z -> 0 < Basic.population prev ->
  Basic.newPop a prev = Qmax 0 (Basic.population prev - 5).
Proof.
  intros Hres Hpop. unfold Basic.newPop. rewrite Hres.
  apply Qgtb_gt in Hpop. rewrite Hpop. reflexivity.
Qed.

Lemma basic_newPop_capped (a : Agg.t) (prev : Basic.CityStats) :
  ~ (resCount a = 0%Z /\ 0 < Basic.population prev) ->
  Basic.newPop a prev <= maxPop a.
Proof.
  intro Hno. unfold Basic.newPop.
  destruct (resCount a =? 0)%Z eqn:Eres; simpl.
  - apply Z.eqb_eq in Eres.
    destruct (Qgtb (Basic.population prev) 0) eqn:Epop.
    + apply Qgtb_gt in Epop. exfalso. apply Hno. split; assumption.
    + cmp_cases; lra.
  - cmp_cases; lra.
Qed.

Lemma basic_newPop_nonneg (a : Agg.t) (prev : Basic.CityStats) :
  0 <= maxPop a -> 0 <= Agg.dailyPopGrowth a -> 0 <= Basic.population prev ->
  0 <= Basic.newPop a prev.
Proof.
  intros Hcap Hgrow Hpop. unfold Basic.newPop.
  destruct ((resCount a =? 0)%Z && Qgtb (Basic.population prev) 0).
  - apply Q.le_max_l.
  - cmp_cases; lra.
Qed.
End PopulationNumbers.

(** C3, as stated, fails in the basic variant: with no habitation module
    and a crew of 10 the tick leaves a crew of 5, above the cap of
    0 x 50. *)
Lemma basic_population_above_cap :
  let st := Demo.basicState (Demo.emptyGrid None 3) 3 BuildingType.Road
                            (Demo.basicStats 2000 10) in
  exists st',
    Demo.basicTick Demo.rnd st = Some st' /\
    resCount (aggregate Demo.BUILDINGS (Basic.grid st)) = 0%Z /\
    ~ (Basic.population (Basic.stats st')
       <= inject_Z (resCount (aggregate Demo.BUILDINGS (Basic.grid st))) * 50).
Proof.
  eexists. split; [vm_compute; reflexivity|].
  split; [vm_compute; reflexivity|].
  vm_compute. intro H. apply H. reflexivity.
Qed.

Section PopulationBounds.
Variable BUILDINGS : BuildingType.t -> BuildingConfig.t.
Variable TECH_TREE : list TechNode.t.
Variables POP_FOOD_CONSUMPTION POP_O2_CONSUMPTION POP_CO2_PRODUCTION : Q.
Variables cos sin : Q -> Q.
Variable PI : Q.

Local Abbreviation tickE :=
  (Extended.tick BUILDINGS TECH_TREE POP_FOOD_CONSUMPTION POP_O2_CONSUMPTION
                 POP_CO2_PRODUCTION cos sin PI).
Local Abbreviation tickB := (Basic.tick BUILDINGS TECH_TREE).
Local Abbreviation cap g := (inject_Z (resCount (aggregate BUILDINGS g)) * 50).

(** C3, amended.  Extended variant: after every tick the population is
    at least 0 and at most 50 per residential root counted by the
    aggregation pass.  Basic variant, for a catalog without negative crew
    yields and a population that was not negative: after every tick the
    population is at least 0; it is at most that cap unless the tick
    found no residential root and the population was positive, in which
    case it is max(0, population - 5).  (That ticks return is
    [tick_ok] and [basic_tick_returns].) *)
Theorem population_after_tick :
  (forall rnd st st',
      tickE rnd st = Some st' ->
      0 <= Extended.population (Extended.stats st')
        <= cap (Extended.grid st)) /\
  (forall rnd st st',
      tickB rnd st = Some st' ->
      (forall k, 0 <= BuildingConfig.popGen (BUILDINGS k)) ->
      0 <= Basic.population (Basic.stats st) ->
      0 <= Basic.population (Basic.stats st') /\
      (~ (resCount (aggregate BUILDINGS (Basic.grid st)) = 0%Z
          /\ 0 < Basic.population (Basic.stats st)) ->
       Basic.population (Basic.stats st') <= cap (Basic.grid st)) /\
      (resCount (aggregate BUILDINGS (Basic.grid st)) = 0%Z ->
       0 < Basic.population (Basic.stats st) ->
       Basic.population (Basic.stats st')
       = Qmax 0 (Basic.population (Basic.stats st) - 5))).
Proof.
  split.
  - intros rnd st st' H.
    apply ext_tick_stats in H. destruct H as (prev & Hst & _).
    rewrite Hst. simpl.
    pose proof (aggregate_sane BUILDINGS (Extended.grid st)) as Hsane.
    apply maxPop_nonneg in Hsane.
    pose proof (ext_newPop_range POP_FOOD_CONSUMPTION POP_O2_CONSUMPTION
                  POP_CO2_PRODUCTION
                  (Extended.powerPenalty (aggregate BUILDINGS (Extended.grid st)))
                  prev) as Hr.
    unfold maxPop, resCount in *. rewrite penalty_counts_ext in Hr.
    apply Hr. exact Hsane.
  - intros rnd st st' H Hcat Hpop.
    apply basic_tick_stats in H. destruct H as (prev & Hst & Hp & _).
    rewrite Hst. simpl. rewrite <- Hp in *.
    pose proof (aggregate_sane BUILDINGS (Basic.grid st)) as Hsane.
    apply maxPop_nonneg in Hsane.
    set (a := Basic.powerPenalty (aggregate BUILDINGS (Basic.grid st))).
    assert (Hc : maxPop a = cap (Basic.grid st)).
    { unfold maxPop, resCount, a. rewrite penalty_counts_basic. reflexivity. }
    assert (Hrc : resCount a = resCount (aggregate BUILDINGS (Basic.grid st))).
    { unfold resCount, a. rewrite penalty_counts_basic. reflexivity. }
    split; [|split].
    + apply basic_newPop_nonneg; [rewrite Hc; exact Hsane| |exact Hpop].
      apply penalty_growth_basic, aggregate_growth_nonneg, Hcat.
    + intro Hno. rewrite <- Hc. apply basic_newPop_capped.
      rewrite Hrc. exact Hno.
    + intros Hres Hpos. apply basic_newPop_evacuation; [|exact Hpos].
      rewrite Hrc. exact Hres.
Qed.

(** C4, amended.  On a tick that finds no residential root while the
    population is positive, the basic variant sets the population to
    max(0, population - 5), whatever the growth; the extended variant has
    no such rule and its housing cap of 0 empties the colony in that one
    tick. *)
Theorem evacuation_rule :
  (forall rnd st st',
      tickB rnd st = Some st' ->
      resCount (aggregate BUILDINGS (Basic.grid st)) = 0%Z ->
      0 < Basic.population (Basic.stats st) ->
      Basic.population (Basic.stats st')
      = Qmax 0 (Basic.population (Basic.stats st) - 5)) /\
  (forall rnd st st',
      tickE rnd st = Some st' ->
      resCount (aggregate BUILDINGS (Extended.grid st)) = 0%Z ->
      0 < Extended.population (Extended.stats st) ->
      Extended.population (Extended.stats st') == 0).
Proof.
  split.
  - intros rnd st st' H Hres Hpos.
    apply basic_tick_stats in H. destruct H as (prev & Hst & Hp & _).
    rewrite Hst. simpl. rewrite <- Hp in *.
    apply basic_newPop_evacuation; [|exact Hpos].
    unfold resCount. rewrite penalty_counts_basic. exact Hres.
  - intros rnd st st' H Hres _.
    apply ext_tick_stats in H. destruct H as (prev & Hst & _).
    rewrite Hst. simpl.
    set (a := Extended.powerPenalty (aggregate BUILDINGS (Extended.grid st))).
    assert (Hc : maxPop a == 0).
    { unfold maxPop, resCount, a. rewrite penalty_counts_ext.
      unfold resCount in Hres. rewrite Hres. reflexivity. }
    pose proof (ext_newPop_range POP_FOOD_CONSUMPTION POP_O2_CONSUMPTION
                  POP_CO2_PRODUCTION a prev) as Hr.
    assert (H0 : 0 <= maxPop a) by lra.
    specialize (Hr H0). lra.
Qed.
End PopulationBounds.

Lemma population_after_tick_witness :
  let stE := Demo.extState (Demo.smallBase (Some 0%Z)) 3 BuildingType.Road
                           (Demo.extStats 2000 40 100 400 100) in
  let stB := Demo.basicState (Demo.smallBase None) 3 BuildingType.Road
                             (Demo.basicStats 2000 48) in
  (exists st', Demo.extTick Demo.rnd stE = Some st' /\
               0 <= Extended.population (Extended.stats st') <= 1 * 50) /\
  (exists st', Demo.basicTick Demo.rnd stB = Some st' /\
               0 <= Basic.population (Basic.stats st')).
Proof.
  intros stE stB.
  destruct (population_after_tick Demo.BUILDINGS Demo.TECH_TREE
              Demo.POP_FOOD_CONSUMPTION Demo.POP_O2_CONSUMPTION
              Demo.POP_CO2_PRODUCTION Demo.cos Demo.sin Demo.PI) as [HE HB].
  split.
  - destruct (Demo.extTick Demo.rnd stE) as [st'|] eqn:E;
      [|vm_compute in E; discriminate].
    exists st'. split; [reflexivity|].
    apply (HE Demo.rnd stE st' E).
  - destruct (Demo.basicTick Demo.rnd stB) as [st'|] eqn:E;
      [|vm_compute in E; discriminate].
    exists st'. split; [reflexivity|].
    apply (HB Demo.rnd stB st' E).
    + intro k. destruct k; vm_compute; discriminate.
    + vm_compute. discriminate.
Defined.

(** C4, as stated, fails in the extended variant: on the empty map a crew
    of 10 and a crew of 20 both drop to 0 in one tick, so the decrease (10,
    then 20) is no fixed amount, while the basic variant takes 5 off the
    crew of 10. *)
Lemma extended_evacuation_not_flat :
  let stE (crew : Q) :=
    Demo.extState (Demo.emptyGrid (Some 0%Z) 3) 3 BuildingType.Road
                  (Demo.extStats 2000 crew 100 400 100) in
  let stB := Demo.basicState (Demo.emptyGrid None 3) 3 BuildingType.Road
                             (Demo.basicStats 2000 10) in
  exists e10 e20 b10,
    Demo.extTick Demo.rnd (stE 10) = Some e10 /\
    Demo.extTick Demo.rnd (stE 20) = Some e20 /\
    Demo.basicTick Demo.rnd stB = Some b10 /\
    Basic.population (Basic.stats b10) == 10 - 5 /\
    ~ (Extended.population (Extended.stats e10) == 10 - 5) /\
    ~ (10 - Extended.population (Extended.stats e10)
       == 20 - Extended.population (Extended.stats e20)).
Proof.
  do 3 eexists.
  split; [vm_compute; reflexivity|].
  split; [vm_compute; reflexivity|].
  split; [vm_compute; reflexivity|].
  split; [vm_compute; reflexivity|].
  split; vm_compute; discriminate.
Qed.

Lemma evacuation_rule_witness :
  let stB := Demo.basicState (Demo.emptyGrid None 3) 3 BuildingType.Road
                             (Demo.basicStats 2000 10) in
  let stE := Demo.extState (Demo.emptyGrid (Some 0%Z) 3) 3 BuildingType.Road
                           (Demo.extStats 2000 10 100 400 100) in
  (exists st', Demo.basicTick Demo.rnd stB = Some st' /\
               Basic.population (Basic.stats st') = Qmax 0 (10 - 5)) /\
  (exists st', Demo.extTick Demo.rnd stE = Some st' /\
               Extended.population (Extended.stats st') == 0).
Proof.
  intros stB stE.
  destruct (evacuation_rule Demo.BUILDINGS Demo.TECH_TREE
              Demo.POP_FOOD_CONSUMPTION Demo.POP_O2_CONSUMPTION
              Demo.POP_CO2_PRODUCTION Demo.cos Demo.sin Demo.PI) as [HB HE].
  split.
  - destruct (Demo.basicTick Demo.rnd stB) as [st'|] eqn:E;
      [|vm_compute in E; discriminate].
    exists st'. split; [reflexivity|].
    apply (HB Demo.rnd stB st' E); vm_compute; reflexivity.
  - destruct (Demo.extTick Demo.rnd stE) as [st'|] eqn:E;
      [|vm_compute in E; discriminate].
    exists st'. split; [reflexivity|].
    apply (HE Demo.rnd stE st' E); vm_compute; reflexivity.
Defined.

(** ** Atmosphere bounds along a run (C5) *)

Section Atmosphere.
Variable BUILDINGS : BuildingType.t -> BuildingConfig.t.
Variable TECH_TREE : list TechNode.t.
Variables POP_FOOD_CONSUMPTION POP_O2_CONSUMPTION POP_CO2_PRODUCTION : Q.
Variables cos sin : Q -> Q.
Variable PI : Q.

Local Abbreviation step :=
  (Run.step BUILDINGS TECH_TREE POP_FOOD_CONSUMPTION POP_O2_CONSUMPTION
            POP_CO2_PRODUCTION cos sin PI).
Local Abbreviation run :=
  (Run.run BUILDINGS TECH_TREE POP_FOOD_CONSUMPTION POP_O2_CONSUMPTION
           POP_CO2_PRODUCTION cos sin PI).

Lemma newO2_range (a : Agg.t) (prev : Extended.CityStats) :
  0 <= Extended.newO2 POP_O2_CONSUMPTION a prev <= 100.
Proof. unfold Extended.newO2. cmp_cases; lra. Qed.

Lemma newCO2_floor (a : Agg.t) (prev : Extended.CityStats) :
  300 <= Extended.newCO2 POP_CO2_PRODUCTION a prev.
Proof. unfold Extended.newCO2. cmp_cases; lra. Qed.

Lemma tick_atmosphere (rnd : nat -> Q) (st st' : Extended.State) :
  Extended.tick BUILDINGS TECH_TREE POP_FOOD_CONSUMPTION POP_O2_CONSUMPTION
                POP_CO2_PRODUCTION cos sin PI rnd st = Some st' ->
  atmosphereOk (Extended.stats st').
Proof.
  intro H. apply ext_tick_stats in H. destruct H as (prev & Hst & _).
  rewrite Hst. split; simpl; [apply newO2_range | apply newCO2_floor].
Qed.

(** A click changes the grid, the money and the news feed at most. *)
Lemma click_keeps_air (st st' : Extended.State) (x y : Z) (now : string) (v : Z) :
  Extended.handleTileClick BUILDINGS TECH_TREE st x y now v = Some st' ->
  Extended.oxygen (Extended.stats st') = Extended.oxygen (Extended.stats st) /\
  Extended.co2 (Extended.stats st') = Extended.co2 (Extended.stats st).
Proof.
  unfold Extended.handleTileClick. intro H.
  repeat match type of H with
  | Some _ = Some _ => injection H as <-; simpl; auto
  | None = Some _ => discriminate H
  | (if ?c then _ else _) = _ => destruct c
  | match ?e with _ => _ end = _ => destruct e
  end.
Qed.

Lemma step_atmosphere (st st' : Extended.State) (e : Run.Event) :
  atmosphereOk (Extended.stats st) ->
  step st e = Some st' ->
  atmosphereOk (Extended.stats st').
Proof.
intros Hinv H. destruct e; simpl in H.
- destruct (Extended.gameStarted st); injection H as <-; exact Hinv.
- destruct (Extended.gameStarted st).
  + eapply tick_atmosphere; eassumption.
  + injection H as <-. exact Hinv.
  - apply click_keeps_air in H. destruct H as [Ho Hc].
    unfold atmosphereOk. rewrite Ho, Hc. exact Hinv.
  - injection H as <-. exact Hinv.
  - injection H as <-. unfold Extended.handleUnlockTech.
    destruct (findTech _ _); [|exact Hinv].
    destruct (Qgeb _ _); exact Hinv.
  - injection H as <-. unfold Extended.handleClaimReward.
    destruct (Extended.currentGoal st) as [goal|]; [|exact Hinv].
    destruct (AIGoal.completed goal); exact Hinv.
- destruct (Extended.gameStarted st && Extended.aiEnabled st);
    injection H as <-; exact Hinv.
- injection H as <-. exact Hinv.
- injection H as <-. exact Hinv.
Qed.

(** C5.  From stats with oxygen 100 and CO2 400, after any sequence of
    events of the extended variant (ticks, with clicks, research, claims,
    goals and toggles in between) oxygen lies in [0,100] and CO2 is at
    least 300; since every prefix of a sequence is a sequence, this holds
    after every tick of the run. *)
Theorem atmosphere_bounds_along_run (st0 : Extended.State) :
  Extended.oxygen (Extended.stats st0) == 100 ->
  Extended.co2 (Extended.stats st0) == 400 ->
  forall events st',
    run st0 events = Some st' ->
    0 <= Extended.oxygen (Extended.stats st') <= 100
    /\ 300 <= Extended.co2 (Extended.stats st').
Proof.
  intros Ho Hc events.
  assert (Hinv : atmosphereOk (Extended.stats st0)).
  { unfold atmosphereOk. rewrite Ho, Hc. repeat split; lra. }
  clear Ho Hc. revert st0 Hinv.
  induction events as [|e rest IH]; intros st Hinv st' H; simpl in H.
  - injection H as <-. exact Hinv.
  - destruct (step st e) as [st1|] eqn:E; [|discriminate].
    apply (IH st1); [|exact H].
    eapply step_atmosphere; eassumption.
Qed.
End Atmosphere.

Lemma atmosphere_bounds_along_run_witness :
  let st0 := Extended.initialState 2000 3 ["basics"%string] in
  let events := [Run.Start true 3; Run.SelectTool BuildingType.SolarPanel;
                 Run.Click 0 0 "t0" 2; Run.SelectTool BuildingType.Residential;
                 Run.Click 1 1 "t1" 0; Run.Tick Demo.rnd; Run.Tick Demo.rnd;
                 Run.ToggleAutoGrowth; Run.Tick Demo.rnd] in
  exists st',
    Run.run Demo.BUILDINGS Demo.TECH_TREE Demo.POP_FOOD_CONSUMPTION
            Demo.POP_O2_CONSUMPTION Demo.POP_CO2_PRODUCTION Demo.cos Demo.sin
            Demo.PI st0 events = Some st' /\
    Extended.population (Extended.stats st') == 15 /\
    0 <= Extended.oxygen (Extended.stats st') <= 100 /\
    300 <= Extended.co2 (Extended.stats st').
Proof.
  intros st0 events.
  destruct (Run.run Demo.BUILDINGS Demo.TECH_TREE Demo.POP_FOOD_CONSUMPTION
              Demo.POP_O2_CONSUMPTION Demo.POP_CO2_PRODUCTION Demo.cos Demo.sin
              Demo.PI st0 events) as [st'|] eqn:E;
    [|vm_compute in E; discriminate].
  exists st'. split; [reflexivity|]. split.
  - vm_compute in E. injection E as <-. vm_compute. reflexivity.
  - apply (atmosphere_bounds_along_run Demo.BUILDINGS Demo.TECH_TREE
             Demo.POP_FOOD_CONSUMPTION Demo.POP_O2_CONSUMPTION
             Demo.POP_CO2_PRODUCTION Demo.cos Demo.sin Demo.PI st0)
      with (events := events).
    + vm_compute. reflexivity.
    + vm_compute. reflexivity.
    + exact E.
Defined.

(** ** Goal completion and reward (C6) *)

Lemma isMet_reached (goal : AIGoal.t) (money pop sci : Q)
      (counts : BuildingType.t -> Z) :
  isMet goal money pop sci counts = true
  <-> targetReached goal money pop sci counts.
Proof.
  unfold isMet, targetReached, goalMetric.
  destruct (AIGoal.targetType goal); try destruct (AIGoal.buildingType goal);
    simpl; rewrite ?Qgeb_ge; split;
    try (intro H; eexists; split; [reflexivity|exact H]);
    try (intros (m & Hm & Hle); injection Hm as <-; exact Hle);
    try discriminate.
  intros (m & Hm & _). discriminate.
Qed.

Section GoalLifecycle.
Variable BUILDINGS : BuildingType.t -> BuildingConfig.t.
Variable TECH_TREE : list TechNode.t.
Variables POP_FOOD_CONSUMPTION POP_O2_CONSUMPTION POP_CO2_PRODUCTION : Q.
Variables cos sin : Q -> Q.
Variable PI : Q.

Local Abbreviation tick :=
  (Extended.tick BUILDINGS TECH_TREE POP_FOOD_CONSUMPTION POP_O2_CONSUMPTION
                 POP_CO2_PRODUCTION cos sin PI).

(** The auto-builder does not look at the goal. *)
Lemma autoBuild_ignores_goal (rnd : nat -> Q) (st : Extended.State)
      (goal : option AIGoal.t) :
  Extended.attemptAutoBuild BUILDINGS TECH_TREE cos sin PI rnd
                            (Extended.setCurrentGoal st goal)
  = option_map (fun s => Extended.setCurrentGoal s goal)
               (Extended.attemptAutoBuild BUILDINGS TECH_TREE cos sin PI rnd st).
Proof.
  unfold Extended.attemptAutoBuild, Extended.unlockedBuildings,
    Extended.setCurrentGoal.
  cbn [Extended.stats Extended.grid Extended.unlockedTechs Extended.mapSize].
  destruct (Qltb _ 300); [reflexivity|].
  destruct (Extended.chooseTarget _ _ _ _) as [[targetType|] c1]; [|reflexivity].
  destruct (Qltb _ _); [reflexivity|].
  match goal with
  | |- match ?e with _ => _ end = _ => destruct e as [[[startX startY] c2]|]
  end; [|reflexivity].
  match goal with
  | |- context [firstValid ?l ?site ?valid] =>
      destruct (firstValid l site valid) as [[[k [x y]]|]|]
  end; try reflexivity.
  destruct (Extended.placeFootprint _ _ _ _ _ _); reflexivity.
Qed.

(** The stats that a tick produces do not depend on the goal. *)
Lemma tick_stats_ignore_goal (rnd : nat -> Q) (st : Extended.State)
      (goal : option AIGoal.t) :
  option_map Extended.stats (tick rnd (Extended.setCurrentGoal st goal))
  = option_map Extended.stats (tick rnd st).
Proof.
  unfold Extended.tick. simpl.
  destruct (Extended.autoGrowth st); [|reflexivity].
  rewrite autoBuild_ignores_goal.
  destruct (Extended.attemptAutoBuild _ _ _ _ _ _ _); reflexivity.
Qed.

(** C6.  (1) On a tick with the goal system enabled and a goal that is
    not yet completed, the goal comes out completed exactly when the stat
    it watches, among the new stats and the counts of this tick's
    aggregation pass, is at least the target; otherwise it is unchanged.
    (2) The stats after the tick are those of the same tick run without
    any goal: completing credits nothing.  (3) Claiming a completed goal
    adds the reward to money, changes no other stat, clears the goal, and
    a repeated claim then does nothing.  (4) Claiming without a completed
    goal does nothing. *)
Theorem goal_completion_and_claim :
  (forall rnd st st' goal,
      tick rnd st = Some st' ->
      Extended.aiEnabled st = true ->
      Extended.currentGoal st = Some goal ->
      AIGoal.completed goal = false ->
      let s' := Extended.stats st' in
      let counts := Agg.buildingCounts (aggregate BUILDINGS (Extended.grid st)) in
      let reached :=
        targetReached goal (Extended.money s') (Extended.population s')
                      (Extended.science s') counts in
      (reached /\ Extended.currentGoal st' = Some (markCompleted goal)
       \/ ~ reached /\ Extended.currentGoal st' = Some goal)
      /\ option_map Extended.stats (tick rnd (Extended.setCurrentGoal st None))
         = Some s') /\
  (forall st now goal,
      Extended.currentGoal st = Some goal ->
      AIGoal.completed goal = true ->
      let st' := Extended.handleClaimReward st now in
    Extended.stats st'
    = Extended.credit (AIGoal.reward goal) (Extended.stats st)
    /\ Extended.money (Extended.stats st')
       = Extended.money (Extended.stats st) + AIGoal.reward goal
    /\ Extended.currentGoal st' = None
      /\ Extended.grid st' = Extended.grid st
      /\ forall now', Extended.handleClaimReward st' now' = st') /\
  (forall st now,
      (Extended.currentGoal st = None
       \/ exists goal, Extended.currentGoal st = Some goal
                       /\ AIGoal.completed goal = false) ->
      Extended.handleClaimReward st now = st).
Proof.
  split; [|split].
  - intros rnd st st' goal H Hai Hgoal Hopen s' counts reached.
    split.
    + apply ext_tick_stats in H.
      destruct H as (prev & Hst & _ & _ & _ & _ & _ & Hg).
      rewrite Hai, Hgoal in Hg. simpl in Hg. rewrite Hopen in Hg. simpl in Hg.
      rewrite penalty_counts_ext in Hg.
      subst reached s' counts. rewrite Hst.
      destruct (isMet goal _ _ _ _) eqn:E.
      * left. split; [apply isMet_reached; exact E | exact Hg].
      * right. split; [|exact Hg].
        intro Hr. apply isMet_reached in Hr.
        cbn [Extended.money Extended.population Extended.science
             Extended.newStats] in Hr.
        congruence.
    + rewrite tick_stats_ignore_goal. rewrite H. reflexivity.
  - intros st now goal Hgoal Hdone st'. subst st'.
    unfold Extended.handleClaimReward. rewrite Hgoal, Hdone. simpl.
  repeat split; reflexivity.
- intros st now [Hnone | (goal & Hgoal & Hopen)];
      unfold Extended.handleClaimReward.
    + rewrite Hnone. reflexivity.
    + rewrite Hgoal, Hopen. reflexivity.
Qed.
End GoalLifecycle.

(** The scenario of the specification: a money goal of 5000 is completed
    by the tick on which money reaches 5000 exactly. *)
Lemma goal_completion_and_claim_witness :
  let goal := AIGoal.mk "Reach 5000 credits" money_t 5000 None 250 false in
  let st := Extended.setCurrentGoal
              (Demo.extState [[Demo.single BuildingType.Commercial (Some 0%Z) 0 0]]
                             1 BuildingType.Road
                             (Demo.extStats 5000 0 100 400 100))
              (Some goal) in
  exists st',
    Demo.extTick Demo.rnd st = Some st' /\
    Extended.money (Extended.stats st') == 5000 /\
    Extended.currentGoal st' = Some (markCompleted goal) /\
  Extended.money (Extended.stats (Extended.handleClaimReward st' "t"))
  = Extended.money (Extended.stats st') + 250.
Proof.
  intros goal st.
  destruct (goal_completion_and_claim Demo.BUILDINGS Demo.TECH_TREE
              Demo.POP_FOOD_CONSUMPTION Demo.POP_O2_CONSUMPTION
              Demo.POP_CO2_PRODUCTION Demo.cos Demo.sin Demo.PI)
    as (Htick & Hclaim & _).
  destruct (Demo.extTick Demo.rnd st) as [st'|] eqn:E;
    [|vm_compute in E; discriminate].
  exists st'.
  destruct (Htick Demo.rnd st st' goal E eq_refl eq_refl eq_refl)
    as [[[Hr Hg] | [Hn Hg]] _].
  - split; [reflexivity|]. split; [|split; [exact Hg|]].
    + vm_compute in E. injection E as <-. vm_compute. reflexivity.
    + apply (Hclaim st' "t"%string (markCompleted goal) Hg eq_refl).
  - exfalso. apply Hn.
    vm_compute in E. injection E as <-.
    eexists. split; [reflexivity|]. vm_compute. discriminate.
Defined.

(** ** Research (C9) *)

Lemma eqb_refl_kind (b : BuildingType.t) : BuildingType.eqb b b = true.
Proof. unfold BuildingType.eqb. destruct (BuildingType.eq_dec b b); congruence. Qed.

Lemma eqb_eq_kind (a b : BuildingType.t) : BuildingType.eqb a b = true <-> a = b.
Proof.
  unfold BuildingType.eqb. destruct (BuildingType.eq_dec a b); split; congruence.
Qed.

Lemma includes_app (s t : list BuildingType.t) (b : BuildingType.t) :
  includes (s ++ t) b = includes s b || includes t b.
Proof. unfold includes. apply existsb_app. Qed.

Lemma setAdd_keeps (s : list BuildingType.t) (b c : BuildingType.t) :
  includes s b = true -> includes (setAdd s c) b = true.
Proof.
  intro H. unfold setAdd. destruct (includes s c); [exact H|].
  rewrite includes_app, H. reflexivity.
Qed.

Lemma setAdd_has (s : list BuildingType.t) (b : BuildingType.t) :
  includes (setAdd s b) b = true.
Proof.
  unfold setAdd. destruct (includes s b) eqn:E; [exact E|].
  rewrite includes_app. simpl. rewrite eqb_refl_kind, orb_true_r. reflexivity.
Qed.

Lemma fold_setAdd_keeps (l s : list BuildingType.t) (b : BuildingType.t) :
  includes s b = true -> includes (fold_left setAdd l s) b = true.
Proof.
  revert s. induction l as [|c l IH]; intros s H; simpl; [exact H|].
  apply IH, setAdd_keeps, H.
Qed.

Lemma fold_setAdd_has (l s : list BuildingType.t) (b : BuildingType.t) :
  In b l -> includes (fold_left setAdd l s) b = true.
Proof.
  revert s. induction l as [|c l IH]; intros s H; simpl; [contradiction|].
  destruct H as [->|H].
  - apply fold_setAdd_keeps, setAdd_has.
  - apply IH, H.
Qed.

Lemma fold_setAdd_noop (l s : list BuildingType.t) :
  (forall b, In b l -> includes s b = true) -> fold_left setAdd l s = s.
Proof.
  induction l as [|c l IH]; intro H; simpl; [reflexivity|].
  assert (Hc : setAdd s c = s).
  { unfold setAdd. rewrite (H c); [reflexivity | left; reflexivity]. }
  rewrite Hc. apply IH. intros b Hb. apply H. right. exact Hb.
Qed.

Section Research.
Variable TECH_TREE : list TechNode.t.

Let learn (acc : list BuildingType.t) (techId : string) : list BuildingType.t :=
  match findTech TECH_TREE techId with
  | Some tech => fold_left setAdd (TechNode.unlocks tech) acc
  | None => acc
  end.

Lemma learn_keeps (acc : list BuildingType.t) (techId : string)
      (b : BuildingType.t) :
  includes acc b = true -> includes (learn acc techId) b = true.
Proof.
  intro H. unfold learn. destruct (findTech _ _); [|exact H].
  apply fold_setAdd_keeps, H.
Qed.

Lemma learnt_all_keeps (techs : list string) (acc : list BuildingType.t)
      (b : BuildingType.t) :
  includes acc b = true -> includes (fold_left learn techs acc) b = true.
Proof.
  revert acc. induction techs as [|t techs IH]; intros acc H; simpl; [exact H|].
  apply IH, learn_keeps, H.
Qed.

Lemma learnt_has (techs : list string) (acc : list BuildingType.t)
      (techId : string) (tech : TechNode.t) (b : BuildingType.t) :
  In techId techs -> findTech TECH_TREE techId = Some tech ->
  In b (TechNode.unlocks tech) ->
  includes (fold_left learn techs acc) b = true.
Proof.
  revert acc. induction techs as [|t techs IH]; intros acc Hin Hf Hb; simpl;
    [contradiction|].
  destruct Hin as [->|Hin].
  - apply learnt_all_keeps. unfold learn. rewrite Hf.
    apply fold_setAdd_has, Hb.
  - apply IH; assumption.
Qed.

(** Researching a node a second time adds no building kind. *)
Lemma unlockedBuildings_repurchase (techs : list string) (techId : string) :
  In techId techs ->
  unlockedBuildingsOf TECH_TREE (techs ++ [techId])
  = unlockedBuildingsOf TECH_TREE techs.
Proof.
  intro Hin. unfold unlockedBuildingsOf. fold learn.
  rewrite fold_left_app. simpl. unfold learn at 1.
  destruct (findTech TECH_TREE techId) as [tech|] eqn:Hf; [|reflexivity].
  apply fold_setAdd_noop. intros b Hb.
  eapply learnt_has; eassumption.
Qed.

(** C9, amended.  The research action has no guard against an id that is
    already unlocked.  For a node of the tree, whether or not its id is
    already unlocked: if science covers the cost, the cost is debited
    (again), the id is appended (again) and a positive notice is pushed;
    if not, only a negative notice is pushed.  Researching an id that is
    already unlocked leaves the derived list of unlocked building kinds
    as it was. *)
Theorem research_has_no_repurchase_guard :
  (forall st techId now tech,
      findTech TECH_TREE techId = Some tech ->
      let st' := Extended.handleUnlockTech TECH_TREE st techId now in
      (TechNode.cost tech <= Extended.science (Extended.stats st) ->
       Extended.stats st'
       = Extended.debitScience (TechNode.cost tech) (Extended.stats st)
       /\ Extended.unlockedTechs st' = Extended.unlockedTechs st ++ [techId]
       /\ (In techId (Extended.unlockedTechs st) ->
           Extended.unlockedBuildings TECH_TREE st'
           = Extended.unlockedBuildings TECH_TREE st)) /\
      (Extended.science (Extended.stats st) < TechNode.cost tech ->
       exists item,
         st' = Extended.pushNews st item /\ NewsItem.type item = negative)) /\
  (forall st techId now tech,
      findTech TECH_TREE techId = Some tech ->
      let st' := Basic.handleUnlockTech TECH_TREE st techId now in
      (TechNode.cost tech <= Basic.science (Basic.stats st) ->
       Basic.stats st'
       = Basic.debitScience (TechNode.cost tech) (Basic.stats st)
       /\ Basic.unlockedTechs st' = Basic.unlockedTechs st ++ [techId]
       /\ (In techId (Basic.unlockedTechs st) ->
           Basic.unlockedBuildings TECH_TREE st'
           = Basic.unlockedBuildings TECH_TREE st)) /\
      (Basic.science (Basic.stats st) < TechNode.cost tech ->
       exists item,
         st' = Basic.pushNews st item /\ NewsItem.type item = negative)).
Proof.
  split; intros st techId now tech Hf st'; subst st'.
  - unfold Extended.handleUnlockTech. rewrite Hf. split.
    + intro Hc. apply Qgeb_ge in Hc. rewrite Hc.
      split; [reflexivity|]. split; [reflexivity|].
      intro Hin. unfold Extended.unlockedBuildings. simpl.
      apply unlockedBuildings_repurchase, Hin.
    + intro Hc. apply Qgeb_lt in Hc. rewrite Hc.
      eexists. split; reflexivity.
  - unfold Basic.handleUnlockTech. rewrite Hf. split.
    + intro Hc. apply Qgeb_ge in Hc. rewrite Hc.
      split; [reflexivity|]. split; [reflexivity|].
      intro Hin. unfold Basic.unlockedBuildings. simpl.
      apply unlockedBuildings_repurchase, Hin.
    + intro Hc. apply Qgeb_lt in Hc. rewrite Hc.
      eexists. split; reflexivity.
Qed.
End Research.

(** C9, as stated, fails: with "commerce" (cost 20) already unlocked and
    50 science, researching it again leaves 30 science and lists the id
    twice, in both variants. *)
Lemma repurchase_debits_again :
  let techs := ["basics"; "commerce"]%string in
  let stE :=
    Extended.setUnlockedTechs
      (Extended.setStats
         (Demo.extState (Demo.emptyGrid (Some 0%Z) 3) 3 BuildingType.Road
                        (Demo.extStats 2000 0 100 400 100))
         (Extended.debitScience (-50)))
      techs in
  let stB :=
    Basic.setUnlockedTechs
      (Basic.setStats
         (Demo.basicState (Demo.emptyGrid None 3) 3 BuildingType.Road
                          (Demo.basicStats 2000 0))
         (Basic.debitScience (-50)))
      techs in
  let stE' := Extended.handleUnlockTech Demo.TECH_TREE stE "commerce" "t" in
  let stB' := Basic.handleUnlockTech Demo.TECH_TREE stB "commerce" "t" in
  In "commerce"%string (Extended.unlockedTechs stE) /\
  Extended.science (Extended.stats stE) == 50 /\
  Extended.science (Extended.stats stE') == 30 /\
  Extended.unlockedTechs stE' = ["basics"; "commerce"; "commerce"]%string /\
  stE' <> stE /\
  Basic.science (Basic.stats stB) == 50 /\
  Basic.science (Basic.stats stB') == 30 /\
  Basic.unlockedTechs stB' = ["basics"; "commerce"; "commerce"]%string /\
  stB' <> stB.
Proof.
  repeat split; try (vm_compute; reflexivity).
  - vm_compute. right. left. reflexivity.
  - intro H. apply (f_equal Extended.unlockedTechs) in H.
    vm_compute in H. discriminate.
  - intro H. apply (f_equal Basic.unlockedTechs) in H.
    vm_compute in H. discriminate.
Qed.

Lemma research_has_no_repurchase_guard_witness :
  let st :=
    Extended.setUnlockedTechs
      (Extended.setStats
         (Demo.extState (Demo.emptyGrid (Some 0%Z) 3) 3 BuildingType.Road
                        (Demo.extStats 2000 0 100 400 100))
         (Extended.debitScience (-50)))
      ["basics"; "commerce"]%string in
  let st' := Extended.handleUnlockTech Demo.TECH_TREE st "commerce" "t" in
  Extended.stats st' = Extended.debitScience 20 (Extended.stats st) /\
  Extended.unlockedBuildings Demo.TECH_TREE st'
  = Extended.unlockedBuildings Demo.TECH_TREE st.
Proof.
  intros st st'.
  destruct (research_has_no_repurchase_guard Demo.TECH_TREE) as [HE _].
  destruct (HE st "commerce"%string "t"%string
               (TechNode.mk "commerce" "Commerce" 20
                  [BuildingType.Commercial; BuildingType.Park] ["basics"%string])
               eq_refl) as [Hpay _].
  destruct Hpay as (Hs & _ & Hb).
  - vm_compute. discriminate.
  - split; [exact Hs|]. apply Hb. vm_compute. right. left. reflexivity.
Defined.

(** ** Reading and writing the grid *)

Lemma index_Some_range {A : Type} (l : list A) (i : Z) (v : A) :
  index l i = Some v -> (0 <= i < Z.of_nat (length l))%Z.
Proof.
  unfold index. destruct (Z.ltb_spec i 0) as [Hneg|Hpos]; [discriminate|].
  intro Hnth. assert (Hn : (Z.to_nat i < length l)%nat).
  { apply nth_error_Some. congruence. }
  lia.
Qed.

Lemma index_total {A : Type} (l : list A) (i : Z) :
  (0 <= i < Z.of_nat (length l))%Z -> exists v, index l i = Some v.
Proof.
  intro Hi. unfold index. destruct (Z.ltb_spec i 0) as [Hneg|Hpos]; [lia|].
  destruct (nth_error l (Z.to_nat i)) as [v|] eqn:E; [eauto|].
  apply nth_error_None in E. lia.
Qed.

Lemma replaceNth_spec {A : Type} (l : list A) (n : nat) (v : A) (l' : list A) :
  replaceNth l n v = Some l' ->
  length l' = length l /\
  forall m, nth_error l' m = if (m =? n)%nat then Some v else nth_error l m.
Proof.
  revert n l'. induction l as [|a l IH]; intros n l' H; simpl in H; [discriminate|].
  destruct n as [|n].
  - injection H as <-. split; [reflexivity|].
    intros [|m]; reflexivity.
  - destruct (replaceNth l n v) as [tl'|] eqn:E; [|discriminate].
    injection H as <-. destruct (IH _ _ E) as [Hlen Hnth].
    split; [simpl; congruence|].
    intros [|m]; simpl; [reflexivity|]. apply Hnth.
Qed.

Lemma replaceNth_total {A : Type} (l : list A) (n : nat) (v : A) :
  (n < length l)%nat -> exists l', replaceNth l n v = Some l'.
Proof.
  revert n. induction l as [|a l IH]; intros n H; simpl in *; [lia|].
  destruct n as [|n]; [eauto|].
  destruct (IH n) as [tl' E]; [lia|]. rewrite E. eauto.
Qed.

Lemma replaceAt_spec {A : Type} (l : list A) (i : Z) (v : A) (l' : list A) :
  replaceAt l i v = Some l' ->
  length l' = length l /\
  forall k, index l' k = if (k =? i)%Z then Some v else index l k.
Proof.
  unfold replaceAt. destruct (Z.ltb_spec i 0) as [Hneg|Hpos]; [discriminate|].
  intro E. apply replaceNth_spec in E. destruct E as [Hlen Hnth].
  split; [exact Hlen|].
  intro k. unfold index. destruct (Z.ltb_spec k 0).
  - destruct (Z.eqb_spec k i); [lia|reflexivity].
  - rewrite Hnth. destruct (Z.eqb_spec k i).
    + subst. rewrite Nat.eqb_refl. reflexivity.
    + destruct (Nat.eqb_spec (Z.to_nat k) (Z.to_nat i)); [lia|reflexivity].
Qed.

Lemma replaceAt_total {A : Type} (l : list A) (i : Z) (v : A) :
  (0 <= i < Z.of_nat (length l))%Z -> exists l', replaceAt l i v = Some l'.
Proof.
  intro Hi. unfold replaceAt. destruct (Z.ltb_spec i 0) as [Hneg|Hpos]; [lia|].
  apply replaceNth_total. lia.
Qed.

Lemma wfGrid_row (n : Z) (g : Grid) (y : Z) (row : list TileData.t) :
  wfGrid n g -> index g y = Some row -> Z.of_nat (length row) = n.
Proof.
  intros [_ Hrows] H. unfold index in H.
  destruct (Z.ltb_spec y 0) as [Hneg|Hpos]; [discriminate|].
  apply nth_error_In in H. rewrite Forall_forall in Hrows. apply Hrows, H.
Qed.

Lemma tileAt_total (n : Z) (g : Grid) (x y : Z) :
  wfGrid n g -> inMap n x y -> exists t, tileAt g x y = Some t.
Proof.
  intros Hwf [Hx Hy]. unfold tileAt.
  destruct (index_total g y) as [row Hrow]; [destruct Hwf; lia|].
  rewrite Hrow. apply index_total.
  rewrite (wfGrid_row n g y row Hwf Hrow). exact Hx.
Qed.

Lemma tileAt_inMap (n : Z) (g : Grid) (x y : Z) (t : TileData.t) :
  wfGrid n g -> tileAt g x y = Some t -> inMap n x y.
Proof.
  intros Hwf H. unfold tileAt in H.
  destruct (index g y) as [row|] eqn:Hrow; [|discriminate].
  pose proof (index_Some_range _ _ _ Hrow) as Hy.
  pose proof (index_Some_range _ _ _ H) as Hx.
  rewrite (wfGrid_row n g y row Hwf Hrow) in Hx.
  destruct Hwf as [Hlen _]. split; lia.
Qed.

Lemma tileAt_row (g : Grid) (x y : Z) (t : TileData.t) :
  tileAt g x y = Some t ->
  exists row, index g y = Some row /\ index row x = Some t.
Proof.
  unfold tileAt. destruct (index g y) as [row|]; [eauto | discriminate].
Qed.

Lemma Forall_index_replace {A : Type} (P : A -> Prop) (l l' : list A) (i : Z) (v : A) :
  Forall P l -> P v -> replaceAt l i v = Some l' -> Forall P l'.
Proof.
  unfold replaceAt. destruct (i <? 0)%Z; [discriminate|].
  generalize (Z.to_nat i) as n. intros n Hl Hv. revert n l'.
  induction Hl as [|a l Ha Hl IH]; intros n l' H; simpl in H; [discriminate|].
  destruct n as [|n].
  - injection H as <-. constructor; assumption.
  - destruct (replaceNth l n v) as [tl'|] eqn:E; [|discriminate].
    injection H as <-. constructor; [exact Ha|]. eapply IH. exact E.
Qed.

(** Writing a tile of the map succeeds, keeps the grid square, and changes
    that tile only. *)
Lemma setTile_spec (n : Z) (g : Grid) (x y : Z) (v : TileData.t) :
  wfGrid n g -> inMap n x y ->
  exists g',
    setTile g x y v = Some g' /\ wfGrid n g' /\
    forall x' y',
      tileAt g' x' y'
      = if ((x' =? x) && (y' =? y))%Z then Some v else tileAt g x' y'.
Proof.
  intros Hwf [Hx Hy]. unfold setTile.
  destruct (index_total g y) as [row Hrow]; [destruct Hwf; lia|].
  rewrite Hrow.
  pose proof (wfGrid_row n g y row Hwf Hrow) as Hlen.
  destruct (replaceAt_total row x v) as [row' Hrow']; [lia|].
  rewrite Hrow'.
  destruct (replaceAt_total g y row') as [g' Hg']; [destruct Hwf; lia|].
  exists g'. split; [exact Hg'|].
  destruct (replaceAt_spec _ _ _ _ Hrow') as [Hl1 Hi1].
  destruct (replaceAt_spec _ _ _ _ Hg') as [Hl2 Hi2].
  split.
  - destruct Hwf as [Hn Hrows]. split; [lia|].
    eapply Forall_index_replace; [exact Hrows| |exact Hg']. lia.
  - intros x' y'. unfold tileAt. rewrite Hi2.
    destruct (Z.eqb_spec y' y) as [->|Hne].
    + rewrite Hi1, Hrow, andb_true_r. reflexivity.
    + rewrite andb_false_r. reflexivity.
Qed.

Lemma inZ_range (k n : Z) : inZ k (range n) = ((0 <=? k) && (k <? n))%Z.
Proof.
  unfold inZ, range.
  destruct ((0 <=? k) && (k <? n))%Z eqn:E.
  - apply andb_true_iff in E. destruct E as [E1 E2].
    apply Z.leb_le in E1. apply Z.ltb_lt in E2.
    apply existsb_exists. exists k. split; [|apply Z.eqb_refl].
    apply in_map_iff. exists (Z.to_nat k). split; [lia|].
    apply in_seq. lia.
  - destruct (existsb _ _) eqn:Ex; [|reflexivity].
    apply existsb_exists in Ex. destruct Ex as (k' & Hin & Heq).
    apply Z.eqb_eq in Heq. subst k'.
    apply in_map_iff in Hin. destruct Hin as (m & <- & Hm).
    apply in_seq in Hm.
    apply andb_false_iff in E. destruct E as [E|E];
      [apply Z.leb_gt in E | apply Z.ltb_ge in E]; lia.
Qed.

Lemma in_range (k n : Z) : In k (range n) <-> (0 <= k < n)%Z.
Proof.
  unfold range. rewrite in_map_iff. split.
  - intros (m & <- & Hm). apply in_seq in Hm. lia.
  - intro H. exists (Z.to_nat k). split; [lia|]. apply in_seq. lia.
Qed.

(** ** Loops over a footprint *)

Lemma forEach_ext {S : Type} (l : list Z) (b1 b2 : Z -> S -> option S) (s : S) :
  (forall i s', b1 i s' = b2 i s') -> forEach l b1 s = forEach l b2 s.
Proof.
  intro H. revert s. induction l as [|i l IH]; intro s; simpl; [reflexivity|].
  rewrite H. destruct (b2 i s); [apply IH | reflexivity].
Qed.

Lemma forFootprint_ext {S : Type} (w h : Z) (b1 b2 : Z -> Z -> S -> option S) (s : S) :
  (forall i j s', b1 i j s' = b2 i j s') ->
  forFootprint w h b1 s = forFootprint w h b2 s.
Proof.
  intro H. unfold forFootprint. apply forEach_ext. intros i s'.
  apply forEach_ext. intros j s''. apply H.
Qed.

Lemma inZ_cons (k j : Z) (l : list Z) : inZ k (j :: l) = (k =? j)%Z || inZ k l.
Proof. reflexivity. Qed.

Section PaintLoop.
Variable n : Z.
Variable guard : Z -> Z -> bool.
Variable paint : Z -> Z -> TileData.t -> TileData.t.
Variables w h x y : Z.
Variable body : Z -> Z -> Grid -> option Grid.

Hypothesis body_shape :
  forall i j s, wfGrid n s -> (0 <= i < w)%Z -> (0 <= j < h)%Z ->
                body i j s = paintBody guard paint x y i j s.
Hypothesis guard_inside :
  forall i j, (0 <= i < w)%Z -> (0 <= j < h)%Z -> guard i j = true ->
              inMap n (x + i) (y + j).
Hypothesis paint_idem :
  forall px py t, paint px py (paint px py t) = paint px py t.

Lemma paint_cell (i j : Z) (s : Grid) :
  wfGrid n s -> (0 <= i < w)%Z -> (0 <= j < h)%Z ->
  exists s',
    body i j s = Some s' /\ wfGrid n s' /\
    forall x' y',
      tileAt s' x' y'
      = if ((x' =? x + i) && (y' =? y + j))%Z && guard i j
        then option_map (paint x' y') (tileAt s x' y')
        else tileAt s x' y'.
Proof.
  intros Hwf Hi Hj. rewrite body_shape by assumption. unfold paintBody.
  destruct (guard i j) eqn:Eg.
  - pose proof (guard_inside i j Hi Hj Eg) as Hin.
    destruct (tileAt_total n s _ _ Hwf Hin) as [old Hold]. rewrite Hold.
    destruct (setTile_spec n s _ _ (paint (x + i) (y + j) old) Hwf Hin)
      as (s' & Hset & Hwf' & Hpt).
    exists s'. split; [exact Hset|]. split; [exact Hwf'|].
    intros x' y'. rewrite Hpt.
    destruct (Z.eqb_spec x' (x + i)) as [->|]; [|reflexivity].
    destruct (Z.eqb_spec y' (y + j)) as [->|]; [|reflexivity].
    simpl. rewrite Hold. reflexivity.
  - exists s. split; [reflexivity|]. split; [exact Hwf|].
    intros x' y'. rewrite andb_false_r. reflexivity.
Qed.

Lemma paint_column (i : Z) :
  (0 <= i < w)%Z ->
  forall js s,
    wfGrid n s -> (forall j, In j js -> (0 <= j < h)%Z) ->
    exists s',
      forEach js (fun j s2 => body i j s2) s = Some s' /\ wfGrid n s' /\
      forall x' y',
        tileAt s' x' y'
        = if (x' =? x + i)%Z && inZ (y' - y) js && guard i (y' - y)
          then option_map (paint x' y') (tileAt s x' y')
          else tileAt s x' y'.
Proof.
  intros Hi js. induction js as [|j js IH]; intros s Hwf Hjs.
  - exists s. split; [reflexivity|]. split; [exact Hwf|].
    intros x' y'. simpl. rewrite andb_false_r. reflexivity.
  - destruct (paint_cell i j s Hwf Hi) as (s1 & Hb & Hwf1 & Hpt1);
      [apply Hjs; left; reflexivity|].
    destruct (IH s1 Hwf1) as (s' & Hrun & Hwf' & Hpt');
      [intros k Hk; apply Hjs; right; exact Hk|].
    exists s'. cbn [forEach]. rewrite Hb.
    split; [exact Hrun|]. split; [exact Hwf'|].
    intros x' y'. rewrite Hpt', Hpt1, inZ_cons.
    destruct (Z.eqb_spec x' (x + i)) as [Hx|Hx]; cbn [andb]; [|reflexivity].
    destruct (Z.eqb_spec y' (y + j)) as [Hy|Hy];
      destruct (Z.eqb_spec (y' - y) j) as [Hd|Hd]; try lia; cbn [andb orb].
    + rewrite Hd.
      destruct (guard i j); destruct (inZ j js); cbn [andb orb];
        destruct (tileAt s x' y'); cbn [option_map];
        rewrite ?paint_idem; reflexivity.
    + destruct (inZ (y' - y) js && guard i (y' - y)); reflexivity.
Qed.

Lemma paint_rows :
  forall cols s,
    wfGrid n s -> (forall i, In i cols -> (0 <= i < w)%Z) ->
    exists s',
      forEach cols (fun i s1 => forEach (range h) (fun j s2 => body i j s2) s1) s
      = Some s' /\ wfGrid n s' /\
      forall x' y',
        tileAt s' x' y'
        = if inZ (x' - x) cols && inZ (y' - y) (range h) && guard (x' - x) (y' - y)
          then option_map (paint x' y') (tileAt s x' y')
          else tileAt s x' y'.
Proof.
  intro cols. induction cols as [|i cols IH]; intros s Hwf His.
  - exists s. split; [reflexivity|]. split; [exact Hwf|]. reflexivity.
  - assert (Hi : (0 <= i < w)%Z) by (apply His; left; reflexivity).
    destruct (paint_column i Hi (range h) s Hwf) as (s1 & Hb & Hwf1 & Hpt1);
      [intros j Hj; apply in_range; exact Hj|].
    destruct (IH s1 Hwf1) as (s' & Hrun & Hwf' & Hpt');
      [intros k Hk; apply His; right; exact Hk|].
    exists s'. cbn [forEach]. rewrite Hb.
    split; [exact Hrun|]. split; [exact Hwf'|].
    intros x' y'. rewrite Hpt', Hpt1, inZ_cons.
    destruct (Z.eqb_spec x' (x + i)) as [Hx|Hx];
      destruct (Z.eqb_spec (x' - x) i) as [Hd|Hd]; try lia; cbn [andb orb].
    + rewrite Hd.
      destruct (inZ (y' - y) (range h)); destruct (guard i (y' - y));
        destruct (inZ i cols); cbn [andb orb];
        destruct (tileAt s x' y'); cbn [option_map];
        rewrite ?paint_idem; reflexivity.
    + reflexivity.
Qed.

(** The write loop succeeds on a square grid, keeps it square, and
    rewrites exactly the covered tiles that pass the guard. *)
Lemma paint_loop (g : Grid) :
  wfGrid n g ->
  exists g',
    forFootprint w h body g = Some g' /\ wfGrid n g' /\
    forall x' y',
      tileAt g' x' y'
      = if paintedb guard w h x y x' y'
        then option_map (paint x' y') (tileAt g x' y')
        else tileAt g x' y'.
Proof.
  intro Hwf.
  destruct (paint_rows (range w) g Hwf) as (g' & Hrun & Hwf' & Hpt);
    [intros i Hi; apply in_range; exact Hi|].
  exists g'. split; [exact Hrun|]. split; [exact Hwf'|].
  intros x' y'. rewrite Hpt. rewrite !inZ_range. unfold paintedb.
  replace ((0 <=? x' - x) && (x' - x <? w) && ((0 <=? y' - y) && (y' - y <? h)))%Z
    with ((x <=? x') && (x' <? x + w) && (y <=? y') && (y' <? y + h))%Z;
    [reflexivity|].
  destruct (Z.leb_spec x x'), (Z.ltb_spec x' (x + w)), (Z.leb_spec y y'),
    (Z.ltb_spec y' (y + h)), (Z.leb_spec 0 (x' - x)), (Z.ltb_spec (x' - x) w),
    (Z.leb_spec 0 (y' - y)), (Z.ltb_spec (y' - y) h); simpl; try reflexivity; lia.
Qed.
End PaintLoop.

Section ScanLoop.
Variable bad : TileData.t -> bool.
Variable g : Grid.
Variables w h x y : Z.

Lemma scan_column_sound (i : Z) :
  forall js occ b,
    forEach js (fun j o => scanBody bad g x y i j o) occ = Some b ->
    (b = false ->
     occ = false /\
     forall j, In j js ->
       exists t, tileAt g (x + i) (y + j) = Some t /\ bad t = false) /\
    (b = true ->
     occ = true \/
     exists j, In j js /\
       exists t, tileAt g (x + i) (y + j) = Some t /\ bad t = true).
Proof.
  intro js. induction js as [|j js IH]; intros occ b H; simpl in H.
  - injection H as <-. split; intro Ho; [|left; exact Ho].
    split; [exact Ho|]. intros j [].
  - unfold scanBody at 1 in H.
    destruct (tileAt g (x + i) (y + j)) as [t|] eqn:Et; [|discriminate].
    destruct (IH _ _ H) as [Hf Ht]. split.
    + intro Hb. destruct (Hf Hb) as [Ho Hall].
      apply orb_false_iff in Ho. destruct Ho as [Ho Hbad].
      split; [exact Ho|]. intros k [<-|Hk]; [eauto | apply Hall, Hk].
    + intro Hb. destruct (Ht Hb) as [Ho|(k & Hk & Hex)].
      * apply orb_true_iff in Ho. destruct Ho as [Ho|Hbad]; [left; exact Ho|].
        right. exists j. split; [left; reflexivity|]. eauto.
      * right. exists k. split; [right; exact Hk | exact Hex].
Qed.

Lemma scan_rows_sound :
  forall cols occ b,
    forEach cols (fun i o => forEach (range h) (fun j o' => scanBody bad g x y i j o') o)
            occ = Some b ->
    (b = false ->
     occ = false /\
     forall i j, In i cols -> (0 <= j < h)%Z ->
       exists t, tileAt g (x + i) (y + j) = Some t /\ bad t = false) /\
    (b = true ->
     occ = true \/
     exists i j, In i cols /\ (0 <= j < h)%Z /\
       exists t, tileAt g (x + i) (y + j) = Some t /\ bad t = true).
Proof.
  intro cols. induction cols as [|i cols IH]; intros occ b H; simpl in H.
  - injection H as <-. split; intro Ho; [|left; exact Ho].
    split; [exact Ho|]. intros i j [].
  - destruct (forEach (range h) _ occ) as [o1|] eqn:Ecol; [|discriminate].
    destruct (scan_column_sound i _ _ _ Ecol) as [Hcf Hct].
    destruct (IH _ _ H) as [Hf Ht]. split.
    + intro Hb. destruct (Hf Hb) as [Ho1 Hall].
      destruct (Hcf Ho1) as [Ho Hcol].
      split; [exact Ho|]. intros k j [<-|Hk] Hj.
      * apply Hcol, in_range, Hj.
      * apply Hall; assumption.
    + intro Hb. destruct (Ht Hb) as [Ho1|(k & j & Hk & Hj & Hex)].
      * destruct (Hct Ho1) as [Ho|(j & Hj & Hex)]; [left; exact Ho|].
        right. exists i, j. split; [left; reflexivity|].
        split; [apply in_range, Hj | exact Hex].
      * right. exists k, j. split; [right; exact Hk|]. split; assumption.
Qed.

(** A scan that returns has read every covered tile; it returns [false]
    exactly when none of them cols [bad]. *)
Lemma scan_sound (b : bool) :
  forFootprint w h (scanBody bad g x y) false = Some b ->
  (b = false ->
   forall i j, (0 <= i < w)%Z -> (0 <= j < h)%Z ->
     exists t, tileAt g (x + i) (y + j) = Some t /\ bad t = false) /\
  (b = true ->
   exists i j, (0 <= i < w)%Z /\ (0 <= j < h)%Z /\
     exists t, tileAt g (x + i) (y + j) = Some t /\ bad t = true).
Proof.
  unfold forFootprint. intro H.
  destruct (scan_rows_sound _ _ _ H) as [Hf Ht]. split.
  - intros Hb i j Hi Hj. destruct (Hf Hb) as [_ Hall].
    apply Hall; [apply in_range, Hi | exact Hj].
  - intro Hb. destruct (Ht Hb) as [Ho|(i & j & Hi & Hj & Hex)]; [discriminate|].
    exists i, j. split; [apply in_range, Hi|]. split; assumption.
Qed.

Hypothesis tiles_exist :
  forall i j, (0 <= i < w)%Z -> (0 <= j < h)%Z ->
    exists t, tileAt g (x + i) (y + j) = Some t.

Lemma scan_column_total (i : Z) :
  (0 <= i < w)%Z ->
  forall js occ, (forall j, In j js -> (0 <= j < h)%Z) ->
    exists b, forEach js (fun j o => scanBody bad g x y i j o) occ = Some b.
Proof.
  intros Hi js. induction js as [|j js IH]; intros occ Hjs; simpl; [eauto|].
  unfold scanBody at 1.
  destruct (tiles_exist i j Hi) as [t Et]; [apply Hjs; left; reflexivity|].
  rewrite Et. apply IH. intros k Hk. apply Hjs. right. exact Hk.
Qed.

(** A scan over tiles that all exist returns. *)
Lemma scan_total :
  exists b, forFootprint w h (scanBody bad g x y) false = Some b.
Proof.
  unfold forFootprint.
  assert (Hrows : forall cols occ, (forall i, In i cols -> (0 <= i < w)%Z) ->
            exists b,
              forEach cols
                (fun i o => forEach (range h)
                              (fun j o' => scanBody bad g x y i j o') o) occ
              = Some b).
  { intro cols. induction cols as [|i cols IH]; intros occ His; simpl; [eauto|].
    destruct (scan_column_total i (His i (or_introl eq_refl)) (range h) occ)
      as [o1 E1]; [intros j Hj; apply in_range, Hj|].
    rewrite E1. apply IH. intros k Hk. apply His. right. exact Hk. }
  apply Hrows. intros i Hi. apply in_range, Hi.
Qed.
End ScanLoop.

Lemma footprint_tiles_exist (n : Z) (g : Grid) (w h x y : Z) :
  wfGrid n g -> footprintInside n w h x y ->
  forall i j, (0 <= i < w)%Z -> (0 <= j < h)%Z ->
    exists t, tileAt g (x + i) (y + j) = Some t.
Proof.
  intros Hwf ([Hx Hy] & Hw & Hh) i j Hi Hj.
  apply (tileAt_total n); [exact Hwf|]. split; lia.
Qed.

(** ** Demolition (C10) *)

Section Demolition.
Variable n : Z.
Variable g : Grid.
Variable cfg : BuildingConfig.t.
Variables rootX rootY : Z.

Let w := BuildingConfig.width cfg.
Let h := BuildingConfig.height cfg.
Let guard (i j : Z) : bool := ((rootY + j <? n) && (rootX + i <? n))%Z.

Lemma clear_painted (x' y' : Z) :
  paintedb guard w h rootX rootY x' y' = true
  <-> clearedArea n w h rootX rootY x' y'.
Proof.
  unfold paintedb, clearedArea, guard.
  replace (rootY + (y' - rootY))%Z with y' by lia.
  replace (rootX + (x' - rootX))%Z with x' by lia.
  rewrite !andb_true_iff, !Z.leb_le, !Z.ltb_lt. lia.
Qed.

Hypothesis Hwf : wfGrid n g.
Hypothesis HrootX : (0 <= rootX)%Z.
Hypothesis HrootY : (0 <= rootY)%Z.

Lemma clear_guard_inside (i j : Z) :
  (0 <= i < w)%Z -> (0 <= j < h)%Z -> guard i j = true ->
  inMap n (rootX + i) (rootY + j).
Proof.
  unfold guard. intros Hi Hj Hg. apply andb_true_iff in Hg.
  destruct Hg as [Hy Hx]. apply Z.ltb_lt in Hy. apply Z.ltb_lt in Hx.
  split; lia.
Qed.

Lemma basic_clear_spec :
  exists g',
    Basic.clearFootprint g n cfg rootX rootY = Some g' /\ wfGrid n g' /\
    forall x' y',
      tileAt g' x' y'
      = if paintedb guard w h rootX rootY x' y'
        then option_map (fun _ => Basic.cleared x' y') (tileAt g x' y')
        else tileAt g x' y'.
Proof.
  unfold Basic.clearFootprint.
  apply (paint_loop n guard (fun px py _ => Basic.cleared px py) w h rootX rootY).
  - intros i j s Hs Hi Hj. unfold paintBody. fold (guard i j).
    destruct (guard i j) eqn:Eg; [|reflexivity].
    destruct (tileAt_total n s _ _ Hs (clear_guard_inside i j Hi Hj Eg))
      as [old ->].
    reflexivity.
  - exact clear_guard_inside.
  - reflexivity.
  - exact Hwf.
Qed.

Lemma ext_clear_spec :
  exists g',
    Extended.clearFootprint g n cfg rootX rootY = Some g' /\ wfGrid n g' /\
    forall x' y',
      tileAt g' x' y'
      = if paintedb guard w h rootX rootY x' y'
        then option_map Extended.cleared (tileAt g x' y')
        else tileAt g x' y'.
Proof.
  unfold Extended.clearFootprint.
  apply (paint_loop n guard (fun _ _ old => Extended.cleared old) w h rootX rootY).
  - intros i j s Hs Hi Hj. reflexivity.
  - exact clear_guard_inside.
  - reflexivity.
  - exact Hwf.
Qed.

(** C10.  On a square grid, the clear loop run from a root at
    non-negative coordinates returns in both variants, even when the
    catalog footprint sticks out of the map: every write goes to a tile
    of the map, the tiles it changes are exactly the covered ones with
    [x < mapSize] and [y < mapSize], each of them ends up empty with
    owner and variant cleared, and every other tile is as before. *)
Theorem clear_loop_stays_on_map :
  (exists g',
      Basic.clearFootprint g n cfg rootX rootY = Some g' /\ wfGrid n g' /\
      forall x' y',
        (clearedArea n w h rootX rootY x' y' ->
         inMap n x' y' /\
         tileAt g' x' y' = Some (Basic.cleared x' y') /\
         isCleared (Basic.cleared x' y')) /\
        (~ clearedArea n w h rootX rootY x' y' ->
         tileAt g' x' y' = tileAt g x' y')) /\
  (exists g',
      Extended.clearFootprint g n cfg rootX rootY = Some g' /\ wfGrid n g' /\
      forall x' y',
        (clearedArea n w h rootX rootY x' y' ->
         inMap n x' y' /\
         exists old,
           tileAt g x' y' = Some old /\
           tileAt g' x' y' = Some (Extended.cleared old) /\
           isCleared (Extended.cleared old) /\
           TileData.height (Extended.cleared old) = TileData.height old) /\
        (~ clearedArea n w h rootX rootY x' y' ->
         tileAt g' x' y' = tileAt g x' y')).
Proof.
  assert (Hmap : forall x' y', clearedArea n w h rootX rootY x' y' -> inMap n x' y').
  { unfold clearedArea, inMap. intros; lia. }
  split.
  - destruct basic_clear_spec as (g' & Hrun & Hwf' & Hpt).
    exists g'. split; [exact Hrun|]. split; [exact Hwf'|].
    intros x' y'. split; intro Hc.
    + split; [apply Hmap, Hc|].
      rewrite Hpt. apply clear_painted in Hc. rewrite Hc.
      apply clear_painted, Hmap in Hc.
      destruct (tileAt_total n g x' y' Hwf Hc) as [old ->].
      split; [reflexivity|]. repeat split.
    + rewrite Hpt.
      destruct (paintedb guard w h rootX rootY x' y') eqn:E; [|reflexivity].
      exfalso. apply Hc, clear_painted, E.
  - destruct ext_clear_spec as (g' & Hrun & Hwf' & Hpt).
    exists g'. split; [exact Hrun|]. split; [exact Hwf'|].
    intros x' y'. split; intro Hc.
    + split; [apply Hmap, Hc|].
      rewrite Hpt. apply clear_painted in Hc. rewrite Hc.
      apply clear_painted, Hmap in Hc.
      destruct (tileAt_total n g x' y' Hwf Hc) as [old Hold].
      exists old. rewrite Hold. repeat split.
    + rewrite Hpt.
      destruct (paintedb guard w h rootX rootY x' y') eqn:E; [|reflexivity].
      exfalso. apply Hc, clear_painted, E.
Qed.
End Demolition.

Lemma clear_loop_stays_on_map_witness :
  let g := [ Demo.emptyRow (Some 0%Z) 3 0;
             Demo.emptyRow (Some 0%Z) 3 1;
             [Demo.emptyTile (Some 0%Z) 0 2; Demo.emptyTile (Some 0%Z) 1 2;
              Demo.single BuildingType.Industrial (Some 0%Z) 2 2] ] in
  let cfg := Demo.BUILDINGS BuildingType.Industrial in
  BuildingConfig.width cfg = 2%Z /\
  (exists g', Basic.clearFootprint g 3 cfg 2 2 = Some g'
              /\ tileAt g' 2 2 = Some (Basic.cleared 2 2)) /\
  (exists g', Extended.clearFootprint g 3 cfg 2 2 = Some g'
              /\ tileAt g' 2 2 = Some (Demo.emptyTile (Some 0%Z) 2 2)).
Proof.
  intros g cfg. split; [reflexivity|].
  assert (Hwf : wfGrid 3 g).
  { split; [reflexivity|]. repeat constructor. }
  destruct (clear_loop_stays_on_map 3 g cfg 2 2 Hwf) as [HB HE]; [lia|lia|].
  assert (Hc : clearedArea 3 (BuildingConfig.width cfg) (BuildingConfig.height cfg)
                           2 2 2 2).
  { vm_compute. repeat split; congruence. }
  split.
  - destruct HB as (g' & Hrun & _ & Hpt). exists g'. split; [exact Hrun|].
    apply (Hpt 2%Z 2%Z). exact Hc.
  - destruct HE as (g' & Hrun & _ & Hpt). exists g'. split; [exact Hrun|].
    destruct (proj1 (Hpt 2%Z 2%Z) Hc) as (_ & old & Hold & Hnew & _).
    vm_compute in Hold. injection Hold as <-. exact Hnew.
Defined.

(** ** The scans of the click handler and of the auto-builder *)

Lemma optZ_eqb_eq (a b : option Z) : optZ_eqb a b = true <-> a = b.
Proof.
  destruct a as [u|], b as [v|]; simpl; split; try congruence.
  - intro H. apply Z.eqb_eq in H. congruence.
  - intro H. injection H as ->. apply Z.eqb_refl.
Qed.

Lemma isNone_eq (b : BuildingType.t) : isNone b = true <-> b = BuildingType.None.
Proof. apply eqb_eq_kind. Qed.

Lemma occupiedTile_false (t : TileData.t) :
  occupiedTile t = false <-> TileData.buildingType t = BuildingType.None.
Proof.
  unfold occupiedTile. rewrite negb_false_iff. apply isNone_eq.
Qed.

Lemma unevenTile_false (base : option Z) (t : TileData.t) :
  unevenTile base t = false <-> TileData.height t = base.
Proof.
  unfold unevenTile. rewrite negb_false_iff. apply optZ_eqb_eq.
Qed.

Lemma basic_scanOccupied_scan (g : Grid) (w h x y : Z) :
  Basic.scanOccupied g w h x y = forFootprint w h (scanBody occupiedTile g x y) false.
Proof.
  unfold Basic.scanOccupied. apply forFootprint_ext. intros i j occ.
  unfold scanBody, occupiedTile. destruct (tileAt g (x + i) (y + j)) as [t|];
    [|reflexivity].
  destruct (isNone _), occ; reflexivity.
Qed.

Lemma ext_scanOccupied_scan (g : Grid) (w h x y : Z) (base : option Z) :
  Extended.scanOccupied g w h x y base
  = forFootprint w h (scanBody (badForAutoE base) g x y) false.
Proof.
  unfold Extended.scanOccupied. apply forFootprint_ext. intros i j occ.
  unfold scanBody, badForAutoE, occupiedTile, unevenTile.
  destruct (tileAt g (x + i) (y + j)) as [t|]; [|reflexivity].
  destruct (isNone _), (optZ_eqb _ _), occ; reflexivity.
Qed.

Lemma ext_clickOccupied_scan (g : Grid) (tool : BuildingType.t) (w h x y : Z)
      (base : option Z) :
  Extended.clickOccupied g tool w h x y base
  = forFootprint w h (scanBody (badForClickE tool base) g x y) false.
Proof.
  unfold Extended.clickOccupied. apply forFootprint_ext. intros i j occ.
  unfold scanBody, badForClickE, occupiedTile, unevenTile.
  destruct (tileAt g (x + i) (y + j)) as [t|]; [|reflexivity].
  destruct (BuildingType.eqb tool _), (BuildingType.eqb (TileData.buildingType t) _),
    (isNone _), (optZ_eqb _ _), occ; reflexivity.
Qed.

Lemma forEach_ext_in {S : Type} (l : list Z) (b1 b2 : Z -> S -> option S) (s : S) :
  (forall i s', In i l -> b1 i s' = b2 i s') -> forEach l b1 s = forEach l b2 s.
Proof.
  revert s. induction l as [|i l IH]; intros s H; simpl; [reflexivity|].
  rewrite (H i s (or_introl eq_refl)).
  destruct (b2 i s); [|reflexivity].
  apply IH. intros k s' Hk. apply H. right. exact Hk.
Qed.

(** Where every covered tile exists, leaving the inner loop at the first
    occupied tile gives the flag that the full scan gives. *)
Lemma basic_clickOccupied_scan (g : Grid) (w h x y : Z) :
  (forall i j, (0 <= i < w)%Z -> (0 <= j < h)%Z ->
     exists t, tileAt g (x + i) (y + j) = Some t) ->
  Basic.clickOccupied g w h x y
  = forFootprint w h (scanBody occupiedTile g x y) false.
Proof.
  intro Hex. unfold Basic.clickOccupied, forFootprint.
  apply forEach_ext_in. intros i occ Hi. apply in_range in Hi.
  assert (Hcol : forall js o,
            (forall j, In j js -> (0 <= j < h)%Z) ->
            forEachBreak js
              (fun j occ0 =>
                 t <- tileAt g (x + i) (y + j) ;;
                 if isNone (TileData.buildingType t) then Some (occ0, false)
                 else Some (true, true)) o
            = forEach js (fun j o' => scanBody occupiedTile g x y i j o') o
            /\ (o = true ->
                forEach js (fun j o' => scanBody occupiedTile g x y i j o') o
                = Some true)).
  { intro js. induction js as [|j js IH]; intros o Hjs; simpl.
    - split; [reflexivity|]. intros ->. reflexivity.
    - destruct (Hex i j Hi (Hjs j (or_introl eq_refl))) as [t Et].
      assert (Hstep : scanBody occupiedTile g x y i j o
                      = Some (o || occupiedTile t))
        by (unfold scanBody; rewrite Et; reflexivity).
      rewrite Hstep, Et.
      assert (Hjs' : forall k, In k js -> (0 <= k < h)%Z)
        by (intros k Hk; apply Hjs; right; exact Hk).
      assert (Ho : occupiedTile t = negb (isNone (TileData.buildingType t)))
        by reflexivity.
      rewrite Ho.
      destruct (isNone (TileData.buildingType t)); cbn [negb].
      + rewrite orb_false_r. apply IH, Hjs'.
      + rewrite orb_true_r.
        destruct (IH true Hjs') as [_ Htrue].
        rewrite (Htrue eq_refl). split; reflexivity. }
  apply Hcol. intros j Hj. apply in_range, Hj.
Qed.

Lemma bounds_test_false (size w h x y : Z) :
  ((x + w >? size) || (y + h >? size))%Z = false
  <-> (x + w <= size /\ y + h <= size)%Z.
Proof.
  rewrite orb_false_iff, !Z.gtb_ltb, !Z.ltb_ge. reflexivity.
Qed.

Lemma click_test_false (size x y : Z) :
  ((x <? 0) || (x >=? size) || (y <? 0) || (y >=? size))%Z = false
  <-> inMap size x y.
Proof.
  unfold inMap. rewrite !orb_false_iff, !Z.geb_leb, !Z.ltb_ge, !Z.leb_gt. lia.
Qed.

Lemma badForClickE_false (tool : BuildingType.t) (base : option Z) (t : TileData.t) :
  badForClickE tool base t = false
  <-> (TileData.buildingType t = BuildingType.None
       \/ (tool = BuildingType.GreenRoad
           /\ TileData.buildingType t = BuildingType.Road))
      /\ TileData.height t = base.
Proof.
  unfold badForClickE. rewrite orb_false_iff, unevenTile_false.
  rewrite andb_false_iff, negb_false_iff, andb_true_iff, !eqb_eq_kind,
    occupiedTile_false.
  tauto.
Qed.

Lemma badForAutoE_false (base : option Z) (t : TileData.t) :
  badForAutoE base t = false
  <-> TileData.buildingType t = BuildingType.None /\ TileData.height t = base.
Proof.
  unfold badForAutoE. rewrite orb_false_iff, unevenTile_false, occupiedTile_false.
  tauto.
Qed.

Section ScanVerdicts.
Variable n : Z.
Variable g : Grid.
Variables w h x y : Z.
Hypothesis Hwf : wfGrid n g.
Hypothesis Hin : footprintInside n w h x y.

(** A scan with flag [bad] over a footprint inside the map returns, and
    returns [false] exactly when no covered tile is [bad]. *)
Lemma scan_verdict (bad : TileData.t -> bool) :
  exists b,
    forFootprint w h (scanBody bad g x y) false = Some b /\
    (b = false <->
     forall i j, (0 <= i < w)%Z -> (0 <= j < h)%Z ->
       exists t, tileAt g (x + i) (y + j) = Some t /\ bad t = false).
Proof.
  destruct (scan_total bad g w h x y (footprint_tiles_exist n g w h x y Hwf Hin))
    as [b Hb].
  exists b. split; [exact Hb|].
  destruct (scan_sound bad g w h x y b Hb) as [Hf Ht].
  split; [exact Hf|].
  intro Hall. destruct b; [|reflexivity].
  destruct (Ht eq_refl) as (i & j & Hi & Hj & t & Et & Hbad).
  destruct (Hall i j Hi Hj) as (t' & Et' & Hok). congruence.
Qed.

Lemma basic_click_verdict :
  exists b,
    Basic.clickOccupied g w h x y = Some b /\
    (b = false <-> footprintEmpty g w h x y).
Proof.
  rewrite basic_clickOccupied_scan
    by exact (footprint_tiles_exist n g w h x y Hwf Hin).
  destruct (scan_verdict occupiedTile) as (b & Hb & Hiff).
  exists b. split; [exact Hb|]. rewrite Hiff. unfold footprintEmpty.
  split; intros H i j Hi Hj; destruct (H i j Hi Hj) as (t & Et & Ht);
    exists t; (split; [exact Et|]); apply occupiedTile_false; exact Ht.
Qed.

Lemma ext_click_verdict (tool : BuildingType.t) (corner : TileData.t) :
  tileAt g x y = Some corner ->
  exists b,
    Extended.clickOccupied g tool w h x y (TileData.height corner) = Some b /\
    (b = false <-> placeableE g tool w h x y).
Proof.
  intro Hc. rewrite ext_clickOccupied_scan.
  destruct (scan_verdict (badForClickE tool (TileData.height corner)))
    as (b & Hb & Hiff).
  exists b. split; [exact Hb|]. rewrite Hiff. unfold placeableE. split.
  - intro H. exists corner. split; [exact Hc|].
    intros i j Hi Hj. destruct (H i j Hi Hj) as (t & Et & Ht).
    exists t. split; [exact Et|]. apply badForClickE_false, Ht.
  - intros (corner' & Hc' & H) i j Hi Hj.
    assert (corner' = corner) by congruence. subst corner'.
    destruct (H i j Hi Hj) as (t & Et & Ht).
    exists t. split; [exact Et|]. apply badForClickE_false, Ht.
Qed.
End ScanVerdicts.

(** ** Rejected requests (C8) *)

Section Rejections.
Variable BUILDINGS : BuildingType.t -> BuildingConfig.t.
Variable TECH_TREE : list TechNode.t.


Lemma ext_rejection (st : Extended.State) (x y : Z) (now : string) (variant : Z) :
  Extended.gameStarted st = true ->
  Extended.viewMode st <> Extended.moon ->
  wfGrid (Extended.mapSize st) (Extended.grid st) ->
  inMap (Extended.mapSize st) x y ->
  demolitionUnaffordable (Extended.money (Extended.stats st)) (Extended.grid st)
                         (Extended.selectedTool st) x y
  \/ placementRejectedE (BUILDINGS (Extended.selectedTool st))
                        (Extended.unlockedBuildings TECH_TREE st)
                        (Extended.money (Extended.stats st)) (Extended.grid st)
                        (Extended.mapSize st) (Extended.selectedTool st) x y ->
  exists item,
    Extended.handleTileClick BUILDINGS TECH_TREE st x y now variant
    = Some (Extended.pushNews st item)
    /\ NewsItem.type item = negative.
Proof.
  intros Hstart Hview Hwf Hclick Hrej. unfold Extended.handleTileClick.
  rewrite Hstart. cbn [negb orb].
  assert (Emoon : Extended.isMoon (Extended.viewMode st) = false).
  { destruct (Extended.viewMode st); try reflexivity. contradiction. }
  rewrite Emoon.
  rewrite (proj2 (click_test_false _ _ _) Hclick).
  destruct (tileAt_total _ _ _ _ Hwf Hclick) as [corner Hcorner].
  destruct (tileAt_row _ _ _ _ Hcorner) as (row & Erow & Ecell).
  rewrite Erow.
  destruct Hrej as [(Htool & (t & Et & Hocc) & Hmoney) | (Htool & Hwhy)].
  - rewrite Htool. rewrite eqb_refl_kind. rewrite Ecell.
    assert (corner = t) by congruence. subst corner.
    assert (Eocc : isNone (TileData.buildingType t) = false).
    { destruct (isNone _) eqn:E; [|reflexivity].
      apply isNone_eq in E. contradiction. }
    rewrite Eocc. cbn [negb].
    rewrite (proj2 (Qgeb_lt _ _) Hmoney).
    eexists. split; reflexivity.
  - assert (Etool : BuildingType.eqb (Extended.selectedTool st) BuildingType.None
                    = false).
    { destruct (BuildingType.eqb _ _) eqn:E; [|reflexivity].
      apply eqb_eq_kind in E. contradiction. }
    rewrite Etool.
    destruct (includes _ _) eqn:Einc; cbn [negb];
      [|eexists; split; reflexivity].
    match goal with
    | |- context [if ?c then _ else _] => destruct c eqn:Ebounds
    end; [eexists; split; reflexivity|].
    apply bounds_test_false in Ebounds.
    rewrite Ecell.
    destruct (ext_click_verdict (Extended.mapSize st) (Extended.grid st)
                (BuildingConfig.width (BUILDINGS (Extended.selectedTool st)))
                (BuildingConfig.height (BUILDINGS (Extended.selectedTool st)))
                x y Hwf (conj Hclick Ebounds) (Extended.selectedTool st)
                corner Hcorner) as (b & Hb & Hiff).
    rewrite Hb. destruct b; [eexists; split; reflexivity|].
    assert (Hmoney : Extended.money (Extended.stats st)
                     < BuildingConfig.cost (BUILDINGS (Extended.selectedTool st))).
    { destruct Hwhy as [H|[H|[H|H]]].
      - congruence.
      - exfalso. apply H. exact Ebounds.
      - exfalso. apply H, Hiff. reflexivity.
      - exact H. }
    rewrite (proj2 (Qgeb_lt _ _) Hmoney).
    eexists. split; reflexivity.
Qed.

End Rejections.


(** ** The auto-builder (C7) *)

Lemma Qfloor_index_range (r : Q) (n : Z) :
  0 <= r -> r < 1 -> (0 < n)%Z -> (0 <= Qfloor (r * inject_Z n) < n)%Z.
Proof.
  intros H0 H1 Hn.
  assert (Hq : 0 < inject_Z n) by (change 0 with (inject_Z 0); rewrite <- Zlt_Qlt; exact Hn).
  split.
  - change 0%Z with (Qfloor 0). apply Qfloor_resp_le. nra.
  - rewrite Zlt_Qlt. apply Qle_lt_trans with (r * inject_Z n); [apply Qfloor_le|].
    nra.
Qed.

Lemma firstValid_sound {P : Type} (l : list Z) (site : Z -> P)
      (valid : P -> option bool) (k : Z) (p : P) :
  firstValid l site valid = Some (Some (k, p)) ->
  In k l /\ p = site k /\ valid p = Some true.
Proof.
  induction l as [|a l IH]; simpl; [discriminate|].
  destruct (valid (site a)) as [[|]|] eqn:E; try discriminate.
  - intro H. injection H as <- <-. auto.
  - intro H. destruct (IH H) as (Hin & Hp & Hv). auto.
Qed.

Lemma firstValid_total {P : Type} (l : list Z) (site : Z -> P)
      (valid : P -> option bool) :
  (forall k, In k l -> exists b, valid (site k) = Some b) ->
  exists r, firstValid l site valid = Some r.
Proof.
  induction l as [|a l IH]; intro H; simpl; [eauto|].
  destruct (H a (or_introl eq_refl)) as [[|] E]; rewrite E; [eauto|].
  apply IH. intros k Hk. apply H. right. exact Hk.
Qed.

Lemma always_painted (w h x y x' y' : Z) :
  paintedb (fun _ _ => true) w h x y x' y' = true
  <-> (x <= x' < x + w /\ y <= y' < y + h)%Z.
Proof.
  unfold paintedb. rewrite andb_true_r, !andb_true_iff, !Z.leb_le, !Z.ltb_lt. lia.
Qed.

Section Placement.
Variable BUILDINGS : BuildingType.t -> BuildingConfig.t.
Variable n : Z.
Variable g : Grid.
Variable tool : BuildingType.t.
Variables x y : Z.

Let w := BuildingConfig.width (BUILDINGS tool).
Let h := BuildingConfig.height (BUILDINGS tool).

Hypothesis Hwf : wfGrid n g.
Hypothesis Hin : footprintInside n w h x y.

Lemma place_guard_inside (i j : Z) :
  (0 <= i < w)%Z -> (0 <= j < h)%Z -> true = true -> inMap n (x + i) (y + j).
Proof.
  destruct Hin as ([Hx Hy] & Hw & Hh). intros Hi Hj _. split; lia.
Qed.

(** The write loop of a placement inside the map returns; it stamps the
    covered tiles and leaves the others. *)
Lemma basic_place_spec :
  exists g',
    Basic.placeFootprint BUILDINGS g tool x y = Some g' /\ wfGrid n g' /\
    forall x' y',
      tileAt g' x' y'
      = if paintedb (fun _ _ => true) w h x y x' y'
        then option_map (Basic.stamp tool x y) (tileAt g x' y')
        else tileAt g x' y'.
Proof.
  unfold Basic.placeFootprint.
  apply (paint_loop n (fun _ _ => true) (fun _ _ old => Basic.stamp tool x y old)
                    w h x y).
  - intros i j s Hs Hi Hj. reflexivity.
  - exact place_guard_inside.
  - reflexivity.
  - exact Hwf.
Qed.

Lemma ext_place_spec (variant : Z) :
  exists g',
    Extended.placeFootprint BUILDINGS g tool x y variant = Some g' /\ wfGrid n g' /\
    forall x' y',
      tileAt g' x' y'
      = if paintedb (fun _ _ => true) w h x y x' y'
        then option_map (Extended.stamp tool x y variant) (tileAt g x' y')
        else tileAt g x' y'.
Proof.
  unfold Extended.placeFootprint.
  apply (paint_loop n (fun _ _ => true)
                    (fun _ _ old => Extended.stamp tool x y variant old) w h x y).
  - intros i j s Hs Hi Hj. reflexivity.
  - exact place_guard_inside.
  - reflexivity.
  - exact Hwf.
Qed.
End Placement.

Section SiteChecks.
Variable n : Z.
Variable g : Grid.
Variable cfg : BuildingConfig.t.

Let w := BuildingConfig.width cfg.
Let h := BuildingConfig.height cfg.

Lemma basic_siteValid_sound (x y : Z) :
  Basic.siteValid g n cfg (x, y) = Some true ->
  (x + w <= n)%Z /\ (y + h <= n)%Z /\ footprintEmpty g w h x y.
Proof.
  unfold Basic.siteValid. fold w h.
  destruct ((x + w >? n) || (y + h >? n))%Z eqn:Eb; [discriminate|].
  apply bounds_test_false in Eb. rewrite basic_scanOccupied_scan.
  destruct (forFootprint _ _ _ _) as [b|] eqn:Es; [|discriminate].
  intro H. assert (b = false) by (destruct b; [discriminate|reflexivity]). subst b.
  destruct (scan_sound _ _ _ _ _ _ _ Es) as [Hf _].
  split; [apply Eb|]. split; [apply Eb|].
  intros i j Hi Hj. destruct (Hf eq_refl i j Hi Hj) as (t & Et & Ht).
  exists t. split; [exact Et|]. apply occupiedTile_false, Ht.
Qed.

Lemma ext_siteValid_sound (x y : Z) :
  Extended.siteValid g n cfg (x, y) = Some true ->
  footprintInside n w h x y /\ footprintEmpty g w h x y
  /\ footprintLevel g w h x y.
Proof.
  unfold Extended.siteValid. fold w h.
  destruct ((x <? 0) || (y <? 0) || (x >=? n) || (y >=? n))%Z eqn:Ec;
    [discriminate|].
  assert (Hmap : inMap n x y).
  { unfold inMap. rewrite !orb_false_iff, !Z.geb_leb, !Z.ltb_ge, !Z.leb_gt in Ec.
    lia. }
  destruct ((x + w >? n) || (y + h >? n))%Z eqn:Eb; [discriminate|].
  apply bounds_test_false in Eb.
  destruct (tileAt g x y) as [corner|] eqn:Ecorner; [|discriminate].
  rewrite ext_scanOccupied_scan.
  destruct (forFootprint _ _ _ _) as [b|] eqn:Es; [|discriminate].
  intro H. assert (b = false) by (destruct b; [discriminate|reflexivity]). subst b.
  destruct (scan_sound _ _ _ _ _ _ _ Es) as [Hf _].
  split; [split; [exact Hmap | exact Eb]|].
  split.
  - intros i j Hi Hj. destruct (Hf eq_refl i j Hi Hj) as (t & Et & Ht).
    exists t. split; [exact Et|]. apply badForAutoE_false in Ht. apply Ht.
  - exists corner. split; [exact Ecorner|].
    intros i j Hi Hj. destruct (Hf eq_refl i j Hi Hj) as (t & Et & Ht).
    exists t. split; [exact Et|]. apply badForAutoE_false in Ht. apply Ht.
Qed.

Hypothesis Hwf : wfGrid n g.

Lemma basic_siteValid_total (x y : Z) :
  (0 <= x)%Z -> (0 <= y)%Z -> (0 < n)%Z ->
  exists b, Basic.siteValid g n cfg (x, y) = Some b.
Proof.
  intros Hx Hy Hn. unfold Basic.siteValid. fold w h.
  destruct ((x + w >? n) || (y + h >? n))%Z eqn:Eb; [eauto|].
  apply bounds_test_false in Eb. rewrite basic_scanOccupied_scan.
  destruct (scan_total occupiedTile g w h x y) as [b Hb].
  - intros i j Hi Hj. apply (tileAt_total n); [exact Hwf|]. split; lia.
  - rewrite Hb. eauto.
Qed.

Lemma ext_siteValid_total (p : Z * Z) :
  exists b, Extended.siteValid g n cfg p = Some b.
Proof.
  destruct p as [x y]. unfold Extended.siteValid. fold w h.
  destruct ((x <? 0) || (y <? 0) || (x >=? n) || (y >=? n))%Z eqn:Ec; [eauto|].
  assert (Hmap : inMap n x y).
  { unfold inMap. rewrite !orb_false_iff, !Z.geb_leb, !Z.ltb_ge, !Z.leb_gt in Ec.
    lia. }
  destruct ((x + w >? n) || (y + h >? n))%Z eqn:Eb; [eauto|].
  apply bounds_test_false in Eb.
  destruct (tileAt_total n g x y Hwf Hmap) as [corner ->].
  rewrite ext_scanOccupied_scan.
  destruct (scan_total (badForAutoE (TileData.height corner)) g w h x y)
    as [b Hb].
  - apply (footprint_tiles_exist n); [exact Hwf|]. split; [exact Hmap|exact Eb].
  - rewrite Hb. eauto.
Qed.
End SiteChecks.

Lemma painted_covers (w h x y x' y' : Z) (A : Type) (a b : A) :
  (covers w h x y x' y' ->
   (if paintedb (fun _ _ => true) w h x y x' y' then a else b) = a) /\
  (~ covers w h x y x' y' ->
   (if paintedb (fun _ _ => true) w h x y x' y' then a else b) = b).
Proof.
  split; intro H.
  - apply always_painted in H. rewrite H. reflexivity.
  - destruct (paintedb _ _ _ _ _ _ _) eqn:E; [|reflexivity].
    exfalso. apply H, always_painted, E.
Qed.

Lemma filter_In_kind (f : BuildingType.t -> bool) (l : list BuildingType.t)
      (i : Z) (b : BuildingType.t) :
  index (filter f l) i = Some b -> includes l b = true /\ f b = true.
Proof.
  unfold index. destruct (i <? 0)%Z; [discriminate|].
  intro H. apply nth_error_In, filter_In in H. destruct H as [Hin Hf].
  split; [|exact Hf].
  unfold includes. apply existsb_exists. exists b.
  split; [exact Hin | apply eqb_refl_kind].
Qed.

Section AutoBuilderBasic.
Variable BUILDINGS : BuildingType.t -> BuildingConfig.t.
Variable TECH_TREE : list TechNode.t.

Lemma basic_autoBuild_safe (rnd : nat -> Q) (st : Basic.State) :
  wfGrid (Basic.mapSize st) (Basic.grid st) ->
  (0 < Basic.mapSize st)%Z ->
  (forall k, 0 <= rnd k /\ rnd k < 1) ->
  exists st',
    Basic.attemptAutoBuild BUILDINGS TECH_TREE rnd st = Some st'
    /\ (st' = st \/ builtB BUILDINGS TECH_TREE st st').
Proof.
  intros Hwf Hsize Hrnd. unfold Basic.attemptAutoBuild.
  destruct (Qltb _ 500); [eauto|].
  set (candidates := filter _ (Basic.unlockedBuildings TECH_TREE st)).
  destruct (Nat.eqb_spec (length candidates) 0) as [|Hlen]; [eauto|].
  destruct (index_total candidates
              (Qfloor (rnd 0%nat * inject_Z (Z.of_nat (length candidates)))))
    as [kind Hkind].
  { apply Qfloor_index_range; [apply Hrnd | apply Hrnd | lia]. }
  rewrite Hkind.
  apply filter_In_kind in Hkind. destruct Hkind as [Hunl Hfil].
  destruct (Qltb _ _) eqn:Ecost; [eauto|]. apply Qltb_ge in Ecost.
  destruct (firstValid_total (range 20) (Basic.autoSite rnd (Basic.mapSize st))
              (Basic.siteValid (Basic.grid st) (Basic.mapSize st) (BUILDINGS kind)))
    as [found Hfound].
  { intros k _. unfold Basic.autoSite.
    apply (basic_siteValid_total _ _ _ Hwf); [| |exact Hsize];
      apply Qfloor_index_range; try apply Hrnd; exact Hsize. }
  rewrite Hfound. destruct found as [[k [x y]]|]; [|eauto].
  apply firstValid_sound in Hfound. destruct Hfound as (_ & Hsite & Hvalid).
  apply basic_siteValid_sound in Hvalid. destruct Hvalid as (Hw & Hh & Hempty).
  assert (Hmap : inMap (Basic.mapSize st) x y).
  { unfold Basic.autoSite in Hsite. injection Hsite as -> ->.
    split; apply Qfloor_index_range; try apply Hrnd; exact Hsize. }
  assert (Hin : footprintInside (Basic.mapSize st)
                  (BuildingConfig.width (BUILDINGS kind))
                  (BuildingConfig.height (BUILDINGS kind)) x y)
    by (split; [exact Hmap | split; assumption]).
destruct (basic_place_spec BUILDINGS _ _ kind x y Hwf Hin)
  as (newGrid & Hplace & Hwf' & Hpt).
  rewrite Hplace. eexists. split; [reflexivity|]. right.
  exists kind, x, y, newGrid. cbv zeta.
  split; [exact Hunl|]. split; [exact Ecost|]. split; [exact Hin|].
  split; [exact Hempty|]. split.
  { intros (_ & [H|[H|[H|H]]]).
    - congruence.
    - apply H. split; assumption.
    - apply H, Hempty.
    - apply (Qlt_not_le _ _ H), Ecost. }
split; [exact Hplace|]. split; [exact Hwf'|]. split.
{ intros x' y'. rewrite Hpt. apply painted_covers. }
  split; [reflexivity|].
  simpl. lra.
Qed.
End AutoBuilderBasic.

Lemma chooseTarget_unlocked (rnd : nat -> Q) (available : list BuildingType.t)
      (cs : Extended.CityStats) (g : Grid) (kind : BuildingType.t) (c : nat) :
  Extended.chooseTarget rnd available cs g = (Some kind, c) ->
  includes available kind = true.
Proof.
  unfold Extended.chooseTarget.
  destruct (_ || _).
  { destruct (includes available BuildingType.Agriculture) eqn:E1;
      [intro H; injection H as <- _; exact E1|].
    destruct (includes available BuildingType.Park) eqn:E2;
      [intro H; injection H as <- _; exact E2 | discriminate]. }
  destruct (Qgtb _ 0.85).
  { destruct (includes available BuildingType.FusionReactor) eqn:E1; simpl.
    - destruct (Qgtb _ 3500); [intro H; injection H as <- _; exact E1|].
      destruct (includes available BuildingType.SolarPanel) eqn:E2;
        [intro H; injection H as <- _; exact E2 | discriminate].
    - destruct (includes available BuildingType.SolarPanel) eqn:E2;
        [intro H; injection H as <- _; exact E2 | discriminate]. }
  destruct (Qgtb _ 0.9).
  { destruct (includes available BuildingType.Residential) eqn:E1;
      [intro H; injection H as <- _; exact E1 | discriminate]. }
  cbv zeta.
  match goal with
  | |- (if ?c then _ else _) = _ -> _ => destruct c
  end; [|discriminate].
  intro H. injection H as H _.
  unfold index in H. destruct (_ <? 0)%Z; [discriminate|].
  apply nth_error_In in H.
  repeat (apply in_app_or in H; destruct H as [H|H]);
    match type of H with
    | In _ (if ?c then _ else _) =>
        destruct c eqn:E; [|contradiction];
        destruct H as [<-|[]]
    end;
    try exact E.
  - apply andb_true_iff in E. apply E.
  - apply andb_true_iff in E. apply E.
Qed.

Section AutoBuilderExtended.
Variable BUILDINGS : BuildingType.t -> BuildingConfig.t.
Variable TECH_TREE : list TechNode.t.
Variables cos sin : Q -> Q.
Variable PI : Q.

Lemma ext_autoBuild_safe (rnd : nat -> Q) (st : Extended.State) :
  wfGrid (Extended.mapSize st) (Extended.grid st) ->
  (forall k, 0 <= rnd k /\ rnd k < 1) ->
  exists st',
    Extended.attemptAutoBuild BUILDINGS TECH_TREE cos sin PI rnd st = Some st'
    /\ (st' = st \/ builtE BUILDINGS TECH_TREE st st').
Proof.
  intros Hwf Hrnd. unfold Extended.attemptAutoBuild.
  destruct (Qltb _ 300); [eauto|].
  destruct (Extended.chooseTarget _ _ _ _) as [[kind|] c1] eqn:Echoose; [|eauto].
  apply chooseTarget_unlocked in Echoose.
  destruct (Qltb _ _) eqn:Ecost; [eauto|]. apply Qltb_ge in Ecost.
  set (hubs := filter _ (concat (Extended.grid st))).
  assert (Hstart : exists startX startY c2,
            (if (0 <? length hubs)%nat
             then
               randomHub <- index hubs
                              (Qfloor (rnd c1 * inject_Z (Z.of_nat (length hubs)))) ;;
               Some (inject_Z (TileData.x randomHub),
                     inject_Z (TileData.y randomHub), S c1)
             else
               Some (inject_Z (Extended.mapSize st) / 2,
                     inject_Z (Extended.mapSize st) / 2, c1))
            = Some (startX, startY, c2)).
  { destruct (Nat.ltb_spec 0 (length hubs)) as [Hlen|Hlen]; [|eauto].
    destruct (index_total hubs
                (Qfloor (rnd c1 * inject_Z (Z.of_nat (length hubs)))))
      as [hub Hhub].
    { apply Qfloor_index_range; [apply Hrnd | apply Hrnd | lia]. }
    rewrite Hhub. eauto. }
  destruct Hstart as (startX & startY & c2 & Hstart). rewrite Hstart.
  destruct (firstValid_total (range 20)
              (Extended.autoSite cos sin PI rnd c2 startX startY)
              (Extended.siteValid (Extended.grid st) (Extended.mapSize st)
                                  (BUILDINGS kind)))
    as [found Hfound].
  { intros k _. apply (ext_siteValid_total _ _ _ Hwf). }
  rewrite Hfound. destruct found as [[k [x y]]|]; [|eauto].
  apply firstValid_sound in Hfound. destruct Hfound as (_ & _ & Hvalid).
  apply ext_siteValid_sound in Hvalid. destruct Hvalid as (Hin & Hempty & Hlevel).
  set (variant := Qfloor (rnd (c2 + 2 * Z.to_nat k + 2)%nat * 4)).
destruct (ext_place_spec BUILDINGS _ _ kind x y Hwf Hin variant)
  as (newGrid & Hplace & Hwf' & Hpt).
  rewrite Hplace. eexists. split; [reflexivity|]. right.
  exists kind, x, y, variant, newGrid. cbv zeta.
  split; [exact Echoose|]. split; [exact Ecost|]. split; [exact Hin|].
  split; [exact Hempty|]. split; [exact Hlevel|]. split.
  { intros (_ & [H|[H|[H|H]]]).
    - congruence.
    - apply H. apply Hin.
    - apply H. destruct Hlevel as (corner & Hc & Hlev).
      exists corner. split; [exact Hc|].
      intros i j Hi Hj.
      destruct (Hempty i j Hi Hj) as (t & Et & Hk).
      destruct (Hlev i j Hi Hj) as (t' & Et' & Hh).
      assert (t' = t) by congruence. subst t'.
      exists t. split; [exact Et|]. split; [left; exact Hk | exact Hh].
    - apply (Qlt_not_le _ _ H), Ecost. }
split; [exact Hplace|]. split; [exact Hwf'|]. split.
{ intros x' y'. rewrite Hpt. apply painted_covers. }
  split; [reflexivity|].
  simpl. lra.
Qed.
End AutoBuilderExtended.

Section AutoBuilder.
Variable BUILDINGS : BuildingType.t -> BuildingConfig.t.
Variable TECH_TREE : list TechNode.t.
Variables cos sin : Q -> Q.
Variable PI : Q.

(** C7.  On a square grid and with [Math.random] in [0,1) (and, for the
    basic variant, a map of positive side), every run of the auto-builder
    returns, and either leaves the state as it was, or has placed one
    building: the kind is unlocked, its cost is at most the money held
    (the money left is not negative), the footprint lies inside the map
    over tiles that were empty and, in the extended variant, level with
    the origin tile, the click handler has no reason to reject that
    placement, and the new grid differs from the old one by the stamp on
    the covered tiles. *)
Theorem autoBuild_places_only_valid_affordable :
  (forall rnd st,
      wfGrid (Basic.mapSize st) (Basic.grid st) ->
      (0 < Basic.mapSize st)%Z ->
      (forall k, 0 <= rnd k /\ rnd k < 1) ->
      exists st',
        Basic.attemptAutoBuild BUILDINGS TECH_TREE rnd st = Some st'
        /\ (st' = st \/ builtB BUILDINGS TECH_TREE st st')) /\
  (forall rnd st,
      wfGrid (Extended.mapSize st) (Extended.grid st) ->
      (forall k, 0 <= rnd k /\ rnd k < 1) ->
      exists st',
        Extended.attemptAutoBuild BUILDINGS TECH_TREE cos sin PI rnd st = Some st'
        /\ (st' = st \/ builtE BUILDINGS TECH_TREE st st')).
Proof.
  split.
  - intros rnd st. apply basic_autoBuild_safe.
  - intros rnd st. apply ext_autoBuild_safe.
Qed.
End AutoBuilder.

Lemma autoBuild_places_only_valid_affordable_witness :
  let stB := Demo.basicState (Demo.smallBase None) 3 BuildingType.Road
                             (Demo.basicStats 2000 0) in
  let stE := Demo.extState (Demo.smallBase (Some 0%Z)) 3 BuildingType.Road
                           (Demo.extStats 2000 0 100 400 100) in
  let still (_ : Q) : Q := 0 in
  let half (_ : Q) : Q := 0.5 in
  (exists st',
      Basic.attemptAutoBuild Demo.BUILDINGS Demo.TECH_TREE Demo.rnd stB = Some st'
      /\ (st' = stB \/ builtB Demo.BUILDINGS Demo.TECH_TREE stB st')
      /\ Basic.money (Basic.stats st') == 1880) /\
  (exists st',
      Extended.attemptAutoBuild Demo.BUILDINGS Demo.TECH_TREE still half Demo.PI
                                Demo.rnd stE = Some st'
      /\ (st' = stE \/ builtE Demo.BUILDINGS Demo.TECH_TREE stE st')
      /\ Extended.money (Extended.stats st') == 1880).
Proof.
  intros stB stE still half.
  destruct (autoBuild_places_only_valid_affordable Demo.BUILDINGS Demo.TECH_TREE
              still half Demo.PI) as [HB HE].
  assert (Hrnd : forall k, 0 <= Demo.rnd k /\ Demo.rnd k < 1).
  { intro k. split; vm_compute; [discriminate | reflexivity]. }
  split.
  - destruct (HB Demo.rnd stB) as (st' & Hrun & Hout).
    + split; [reflexivity|]. repeat constructor.
    + reflexivity.
    + exact Hrnd.
    + exists st'. split; [exact Hrun|]. split; [exact Hout|].
      vm_compute in Hrun. injection Hrun as <-. vm_compute. reflexivity.
  - destruct (HE Demo.rnd stE) as (st' & Hrun & Hout).
    + split; [reflexivity|]. repeat constructor.
    + exact Hrnd.
    + exists st'. split; [exact Hrun|]. split; [exact Hout|].
      vm_compute in Hrun. injection Hrun as <-. vm_compute. reflexivity.
Defined.

(** ** The event loop never raises *)

Lemma index_range (n i : Z) :
  index (range n) i = if ((0 <=? i) && (i <? n))%Z then Some i else None.
Proof.
  unfold index, range.
  destruct (Z.ltb_spec i 0) as [Hneg|Hpos].
  - destruct (Z.leb_spec 0 i); [lia | reflexivity].
  - destruct (Z.leb_spec 0 i) as [_|]; [|lia]. cbn [andb].
    destruct (Z.ltb_spec i n) as [Hlt|Hge].
    + rewrite nth_error_map, nth_error_seq.
      destruct (Nat.ltb_spec (Z.to_nat i) (Z.to_nat n)) as [_|]; [|lia].
      simpl. f_equal. lia.
    + destruct (nth_error _ _) eqn:E; [|reflexivity].
      assert (Hlen : (Z.to_nat i < length (map Z.of_nat (seq 0 (Z.to_nat n))))%nat)
        by (apply nth_error_Some; congruence).
      rewrite length_map, length_seq in Hlen. lia.
Qed.

Lemma index_map {A B : Type} (f : A -> B) (l : list A) (i : Z) :
  index (map f l) i = option_map f (index l i).
Proof.
  unfold index. destruct (i <? 0)%Z; [reflexivity|]. apply nth_error_map.
Qed.

Lemma range_length (n : Z) : (0 <= n)%Z -> Z.of_nat (length (range n)) = n.
Proof.
  intro H. unfold range. rewrite length_map, length_seq. lia.
Qed.

Lemma createInitialGrid_tile (size x y : Z) (t : TileData.t) :
  tileAt (Extended.createInitialGrid size) x y = Some t ->
  t = TileData.mk x y BuildingType.None None None None
                  (Some (Extended.terrainHeight size x y)).
Proof.
  unfold tileAt, Extended.createInitialGrid.
  rewrite index_map, index_range.
  destruct ((0 <=? y) && (y <? size))%Z; [|discriminate]. cbn [option_map].
  rewrite index_map, index_range.
  destruct ((0 <=? x) && (x <? size))%Z; [|discriminate]. cbn [option_map].
  congruence.
Qed.

Lemma createInitialGrid_ok (size : Z) :
  (0 <= size)%Z ->
  wfGrid size (Extended.createInitialGrid size)
  /\ tilesOk size (Extended.createInitialGrid size).
Proof.
  intro Hsize. split.
  - unfold wfGrid, Extended.createInitialGrid. split.
    + rewrite length_map. apply range_length, Hsize.
    + apply Forall_forall. intros row Hrow.
      apply in_map_iff in Hrow. destruct Hrow as (y & <- & _).
      rewrite length_map. apply range_length, Hsize.
  - intros x y t Ht. apply createInitialGrid_tile in Ht. subst t. simpl.
    repeat split; discriminate.
Qed.

Section Reachability.
Variable BUILDINGS : BuildingType.t -> BuildingConfig.t.
Variable TECH_TREE : list TechNode.t.
Variables POP_FOOD_CONSUMPTION POP_O2_CONSUMPTION POP_CO2_PRODUCTION : Q.
Variables cos sin : Q -> Q.
Variable PI : Q.

Local Abbreviation step :=
  (Run.step BUILDINGS TECH_TREE POP_FOOD_CONSUMPTION POP_O2_CONSUMPTION
            POP_CO2_PRODUCTION cos sin PI).
Local Abbreviation run :=
  (Run.run BUILDINGS TECH_TREE POP_FOOD_CONSUMPTION POP_O2_CONSUMPTION
           POP_CO2_PRODUCTION cos sin PI).

(** A grid that differs from a good one by stamps or cleared tiles is
    good. *)
Lemma tilesOk_painted (n : Z) (g g' : Grid) (painted : Z -> Z -> bool)
      (paint : TileData.t -> TileData.t) :
  tilesOk n g ->
  (forall x' y', tileAt g' x' y'
                 = if painted x' y' then option_map paint (tileAt g x' y')
                   else tileAt g x' y') ->
  (forall old, TileData.x (paint old) = TileData.x old
               /\ TileData.y (paint old) = TileData.y old
               /\ (forall ox, TileData.ownerX (paint old) = Some ox -> (0 <= ox < n)%Z)
               /\ (forall oy, TileData.ownerY (paint old) = Some oy -> (0 <= oy < n)%Z)) ->
  tilesOk n g'.
Proof.
  intros Hok Hpt Hpaint x' y' t Ht. rewrite Hpt in Ht.
  destruct (painted x' y'); [|apply Hok, Ht].
  destruct (tileAt g x' y') as [old|] eqn:Eold; [|discriminate].
  injection Ht as <-.
  destruct (Hok x' y' old Eold) as (Hx & Hy & _).
  destruct (Hpaint old) as (Hx' & Hy' & Hox & Hoy).
  rewrite Hx', Hy'. auto.
Qed.

Lemma click_ok (st : Extended.State) (x y : Z) (now : string) (variant : Z) :
  stateOk st ->
  exists st',
    Extended.handleTileClick BUILDINGS TECH_TREE st x y now variant = Some st'
    /\ stateOk st'.
Proof.
  intro Hst. pose proof Hst as (Hwf & Hok & Hai).
  unfold Extended.handleTileClick.
  destruct (_ || _); [exists st; split; [reflexivity|exact Hst]|].
  match goal with
  | |- context [if ?c then Some st else _] => destruct c eqn:Eclick
  end; [exists st; split; [reflexivity|exact Hst]|].
  apply click_test_false in Eclick.
  destruct (tileAt_total _ _ _ _ Hwf Eclick) as [clicked Hclicked].
  destruct (tileAt_row _ _ _ _ Hclicked) as (row & Erow & Ecell).
  rewrite Erow.
  destruct (BuildingType.eqb (Extended.selectedTool st) BuildingType.None).
  - rewrite Ecell.
    destruct (negb _); [|exists st; split; [reflexivity|exact Hst]].
    destruct (Qgeb _ 50); [|eexists; split; [reflexivity|exact Hst]].
    destruct (Hok x y clicked Hclicked) as (Hx & Hy & Hox & Hoy).
    set (rootX := match TileData.ownerX clicked with
                  | Some ox => ox | None => TileData.x clicked end).
    set (rootY := match TileData.ownerY clicked with
                  | Some oy => oy | None => TileData.y clicked end).
    assert (Hroot : inMap (Extended.mapSize st) rootX rootY).
    { destruct Eclick as [Hcx Hcy]. subst rootX rootY. split.
      - destruct (TileData.ownerX clicked) as [ox|]; [apply Hox; reflexivity | lia].
      - destruct (TileData.ownerY clicked) as [oy|]; [apply Hoy; reflexivity | lia]. }
    destruct (tileAt_total _ _ _ _ Hwf Hroot) as [root Eroot]. rewrite Eroot.
    destruct (ext_clear_spec (Extended.mapSize st) (Extended.grid st)
                (BUILDINGS (TileData.buildingType root)) rootX rootY Hwf)
      as (newGrid & Hclear & Hwf' & Hpt); [apply Hroot | apply Hroot|].
    rewrite Hclear. eexists. split; [reflexivity|].
    split; [exact Hwf'|]. split; [|exact Hai].
    eapply tilesOk_painted; [exact Hok | exact Hpt|].
    intro old. simpl.
    split; [reflexivity|]. split; [reflexivity|]. split; discriminate.
  - destruct (negb _); [eexists; split; [reflexivity|exact Hst]|].
    match goal with
    | |- context [if ?c then _ else _] => destruct c eqn:Ebounds
    end; [eexists; split; [reflexivity|exact Hst]|].
    apply bounds_test_false in Ebounds.
    rewrite Ecell.
    assert (Hin : footprintInside (Extended.mapSize st)
                    (BuildingConfig.width (BUILDINGS (Extended.selectedTool st)))
                    (BuildingConfig.height (BUILDINGS (Extended.selectedTool st)))
                    x y) by (split; assumption).
    destruct (ext_click_verdict _ _ _ _ _ _ Hwf Hin (Extended.selectedTool st)
                clicked Hclicked) as (b & Hb & _).
    rewrite Hb.
    destruct b; [eexists; split; [reflexivity|exact Hst]|].
    destruct (Qgeb _ _); [|eexists; split; [reflexivity|exact Hst]].
    destruct (ext_place_spec BUILDINGS _ _ (Extended.selectedTool st) x y Hwf Hin
                variant) as (newGrid & Hplace & Hwf' & Hpt).
    rewrite Hplace. eexists. split; [reflexivity|].
    split; [exact Hwf'|]. split; [|exact Hai].
    eapply tilesOk_painted; [exact Hok | exact Hpt|].
    intro old. simpl. destruct Eclick as [Hcx Hcy].
    split; [reflexivity|]. split; [reflexivity|].
    split; intros o Ho; injection Ho as <-; assumption.
Qed.

Lemma autoBuild_ok (rnd : nat -> Q) (st : Extended.State) :
  stateOk st -> (forall k, 0 <= rnd k /\ rnd k < 1) ->
  exists st',
    Extended.attemptAutoBuild BUILDINGS TECH_TREE cos sin PI rnd st = Some st'
    /\ stateOk st'
    /\ Extended.aiEnabled st' = Extended.aiEnabled st
    /\ Extended.gameStarted st' = Extended.gameStarted st
    /\ Extended.currentGoal st' = Extended.currentGoal st.
Proof.
  intros Hst Hrnd. pose proof Hst as (Hwf & Hok & Hai).
  destruct (ext_autoBuild_safe BUILDINGS TECH_TREE cos sin PI rnd st Hwf Hrnd)
    as (st' & Hrun & [->|Hbuilt]).
  - exists st. split; [exact Hrun|]. split; [exact Hst|]. repeat split.
  - exists st'. split; [exact Hrun|].
    destruct Hbuilt as (kind & x & y & variant & newGrid & _ & _ & Hin & _ & _ & _
                        & _ & Hwf' & Hpt & -> & _).
    split; [|repeat split; reflexivity].
    split; [exact Hwf'|]. split; [|exact Hai].
    intros x' y' t Ht. cbn [Extended.grid Extended.setStats Extended.setGrid] in Ht.
    cbn [Extended.mapSize Extended.setStats Extended.setGrid].
    assert (Hcases : tileAt newGrid x' y'
                     = option_map (Extended.stamp kind x y variant)
                                  (tileAt (Extended.grid st) x' y')
                     \/ tileAt newGrid x' y' = tileAt (Extended.grid st) x' y').
    { destruct (paintedb (fun _ _ => true) (BuildingConfig.width (BUILDINGS kind))
                         (BuildingConfig.height (BUILDINGS kind)) x y x' y') eqn:E.
      - left. apply Hpt, always_painted, E.
      - right. apply Hpt. intro Hc. apply always_painted in Hc. congruence. }
    destruct Hcases as [Hc|Hc]; rewrite Hc in Ht; [|apply Hok, Ht].
    destruct (tileAt (Extended.grid st) x' y') as [old|] eqn:Eold; [|discriminate].
    injection Ht as <-. destruct (Hok x' y' old Eold) as (Hx & Hy & _).
    destruct Hin as ([Hcx Hcy] & _). simpl.
    split; [exact Hx|]. split; [exact Hy|].
    split; intros o Ho; injection Ho as <-; assumption.
Qed.

Lemma checkGoal_some (ai : bool) (goal : option AIGoal.t) (m p sc : Q)
      (counts : BuildingType.t -> Z) :
  checkGoal ai goal m p sc counts <> None -> goal <> None.
Proof. destruct goal; [discriminate | intro H; exact H]. Qed.

Lemma tick_ok (rnd : nat -> Q) (st : Extended.State) :
  stateOk st -> (forall k, 0 <= rnd k /\ rnd k < 1) ->
  exists st',
    Extended.tick BUILDINGS TECH_TREE POP_FOOD_CONSUMPTION POP_O2_CONSUMPTION
                  POP_CO2_PRODUCTION cos sin PI rnd st = Some st'
    /\ stateOk st'.
Proof.
  intros Hst Hrnd. unfold Extended.tick.
  destruct (Extended.autoGrowth st).
  - destruct (autoBuild_ok rnd st Hst Hrnd)
      as (st1 & Hrun & (Hwf & Hok & _) & Ha & Hs & Hg).
    rewrite Hrun. eexists. split; [reflexivity|].
    split; [exact Hwf|]. split; [exact Hok|].
    cbn [Extended.currentGoal Extended.aiEnabled Extended.gameStarted
         Extended.setCurrentGoal Extended.setHistory Extended.setStats].
    rewrite Ha, Hs, Hg. destruct Hst as (_ & _ & Hai).
    intro Hgoal. apply Hai. eapply checkGoal_some, Hgoal.
  - eexists. split; [reflexivity|]. destruct Hst as (Hwf & Hok & Hai).
    split; [exact Hwf|]. split; [exact Hok|].
    cbn [Extended.currentGoal Extended.aiEnabled Extended.gameStarted
         Extended.setCurrentGoal Extended.setHistory Extended.setStats].
    intro Hgoal. apply Hai. eapply checkGoal_some, Hgoal.
Qed.

Lemma step_ok (st : Extended.State) (e : Run.Event) :
  stateOk st -> eventOk e ->
  exists st', step st e = Some st' /\ stateOk st'.
Proof.
  intros Hst He. pose proof Hst as (Hwf & Hok & Hai).
  destruct e; cbn [Run.step eventOk] in *.
  - destruct (Extended.gameStarted st) eqn:Es; [eauto|].
    eexists. split; [reflexivity|].
    destruct (createInitialGrid_ok size He) as [Hwf' Hok'].
    split; [exact Hwf'|]. split; [exact Hok'|].
    cbn [Extended.currentGoal Extended.handleStart]. intro Hgoal.
    destruct (Hai Hgoal) as [_ Hstarted]. congruence.
  - destruct (Extended.gameStarted st); [apply tick_ok; assumption | eauto].
  - apply click_ok, Hst.
  - eexists. split; [reflexivity|]. exact Hst.
  - eexists. split; [reflexivity|]. unfold Extended.handleUnlockTech.
    destruct (findTech _ _); [|exact Hst]. destruct (Qgeb _ _); exact Hst.
  - eexists. split; [reflexivity|]. unfold Extended.handleClaimReward.
    destruct (Extended.currentGoal st) as [goal|] eqn:Eg; [|exact Hst].
    destruct (AIGoal.completed goal); [|exact Hst].
    split; [exact Hwf|]. split; [exact Hok|]. intro H. contradiction.
  - destruct (Extended.gameStarted st && Extended.aiEnabled st) eqn:E; [|eauto].
    apply andb_true_iff in E. eexists. split; [reflexivity|].
    split; [exact Hwf|]. split; [exact Hok|]. intros _. split; apply E.
  - eexists. split; [reflexivity|]. exact Hst.
  - eexists. split; [reflexivity|]. exact Hst.
Qed.

(** From a good state, a run over events that the environment can
    produce returns, in a good state. *)
Lemma run_ok (events : list Run.Event) :
  forall st, stateOk st -> Forall eventOk events ->
             exists st', run st events = Some st' /\ stateOk st'.
Proof.
  induction events as [|e rest IH]; intros st Hst Hev; cbn [Run.run].
  - eauto.
  - inversion Hev as [|e' rest' He Hrest]; subst.
    destruct (step_ok st e Hst He) as (st1 & Hstep & Hst1).
    rewrite Hstep. apply IH; assumption.
Qed.

(** X18.  The application, started with a map size that is not negative,
    never raises a TypeError: every run from its initial state returns,
    on a square grid of side [mapSize] whose tiles know their position
    and whose owners are on the map, and with a goal in progress only
    while the game has started and the AI is enabled. *)
Lemma app_never_raises (INITIAL_MONEY : Q) (MEDIUM : Z)
      (INITIAL_UNLOCKED_TECHS : list string) (events : list Run.Event) :
  (0 <= MEDIUM)%Z -> Forall eventOk events ->
  exists st',
    run (Extended.initialState INITIAL_MONEY MEDIUM INITIAL_UNLOCKED_TECHS) events
    = Some st'
    /\ stateOk st'.
Proof.
  intros Hsize Hev. apply run_ok; [|exact Hev].
  destruct (createInitialGrid_ok MEDIUM Hsize) as [Hwf Hok].
  split; [exact Hwf|]. split; [exact Hok|]. intro H. contradiction.
Qed.
End Reachability.

(** ** Every outcome of a click *)

Section ClickOutcomes.
Variable BUILDINGS : BuildingType.t -> BuildingConfig.t.
Variable TECH_TREE : list TechNode.t.

(** A click that returns has either been ignored (no change at all: game
    not started, moon view, position off the map, bulldozer on an empty
    tile), or refused (one negative notice, nothing else), or carried out
    (new grid, money debited). *)
Lemma ext_click_outcomes (st st' : Extended.State) (x y : Z) (now : string)
      (variant : Z) :
  Extended.handleTileClick BUILDINGS TECH_TREE st x y now variant = Some st' ->
  st' = st
  \/ (exists item, st' = Extended.pushNews st item /\ NewsItem.type item = negative)
  \/ (exists newGrid c,
         st' = Extended.setStats (Extended.setGrid st newGrid) (Extended.debit c)).
Proof.
  unfold Extended.handleTileClick. intro H.
  repeat match type of H with
  | Some _ = Some _ => injection H as <-
  | None = Some _ => discriminate H
  | (if ?c then _ else _) = _ => destruct c
  | match ?e with _ => _ end = _ => destruct e
  end;
  first [ left; reflexivity
        | right; left; eexists; split; reflexivity
        | right; right; eexists; eexists; reflexivity ].
Qed.

Lemma basic_click_outcomes (st st' : Basic.State) (x y : Z) (now : string) :
  Basic.handleTileClick BUILDINGS TECH_TREE st x y now = Some st' ->
  st' = st
  \/ (exists item, st' = Basic.pushNews st item /\ NewsItem.type item = negative)
  \/ (exists newGrid c,
         st' = Basic.setStats (Basic.setGrid st newGrid) (Basic.debit c)).
Proof.
  unfold Basic.handleTileClick. intro H.
  repeat match type of H with
  | Some _ = Some _ => injection H as <-
  | None = Some _ => discriminate H
  | (if ?c then _ else _) = _ => destruct c
  | match ?e with _ => _ end = _ => destruct e
  end;
  first [ left; reflexivity
        | right; left; eexists; split; reflexivity
        | right; right; eexists; eexists; reflexivity ].
Qed.
End ClickOutcomes.

(** ** Ticks return *)

(** On a square grid of positive side and with [Math.random] in [0,1), a
    tick of the basic variant returns; for the extended variant see
    [tick_ok]. *)
Lemma basic_tick_returns (BUILDINGS : BuildingType.t -> BuildingConfig.t)
      (TECH_TREE : list TechNode.t) (rnd : nat -> Q) (st : Basic.State) :
  wfGrid (Basic.mapSize st) (Basic.grid st) ->
  (0 < Basic.mapSize st)%Z ->
  (forall k, 0 <= rnd k /\ rnd k < 1) ->
  exists st', Basic.tick BUILDINGS TECH_TREE rnd st = Some st'.
Proof.
  intros Hwf Hsize Hrnd. unfold Basic.tick.
  destruct (Basic.autoGrowth st); [|eauto].
  destruct (basic_autoBuild_safe BUILDINGS TECH_TREE rnd st Hwf Hsize Hrnd)
    as (st1 & Hrun & _).
  rewrite Hrun. eauto.
Qed.
(** ** Accepted requests *)

Lemma eqb_neq_kind (a b : BuildingType.t) : BuildingType.eqb a b = false <-> a <> b.
Proof.
  unfold BuildingType.eqb. destruct (BuildingType.eq_dec a b); split; congruence.
Qed.

Lemma isMoon_false (v : Extended.ViewMode) :
  Extended.isMoon v = false <-> v <> Extended.moon.
Proof. destruct v; simpl; split; congruence. Qed.

Section AcceptedRequests.
Variable BUILDINGS : BuildingType.t -> BuildingConfig.t.
Variable TECH_TREE : list TechNode.t.

Lemma ext_click_places (st : Extended.State) (x y : Z) (now : string) (variant : Z) :
  let tool := Extended.selectedTool st in
  let cfg := BUILDINGS tool in
  let w := BuildingConfig.width cfg in
  let h := BuildingConfig.height cfg in
  Extended.gameStarted st = true ->
  Extended.viewMode st <> Extended.moon ->
  wfGrid (Extended.mapSize st) (Extended.grid st) ->
  tool <> BuildingType.None ->
  includes (Extended.unlockedBuildings TECH_TREE st) tool = true ->
  footprintInside (Extended.mapSize st) w h x y ->
  placeableE (Extended.grid st) tool w h x y ->
  BuildingConfig.cost cfg <= Extended.money (Extended.stats st) ->
  exists newGrid,
    Extended.handleTileClick BUILDINGS TECH_TREE st x y now variant
    = Some (Extended.setGrid
              (Extended.setStats st (Extended.debit (BuildingConfig.cost cfg)))
              newGrid)
    /\ wfGrid (Extended.mapSize st) newGrid
    /\ forall x' y',
         tileAt newGrid x' y'
         = if paintedb (fun _ _ => true) w h x y x' y'
           then option_map (Extended.stamp tool x y variant)
                           (tileAt (Extended.grid st) x' y')
           else tileAt (Extended.grid st) x' y'.
Proof.
  intros tool cfg w h Hstart Hview Hwf Htool Hinc Hin Hplace Hmoney.
  subst tool cfg w h.
  unfold Extended.handleTileClick.
  rewrite Hstart, (proj2 (isMoon_false _) Hview). cbn [negb orb].
  pose proof Hin as (Hclick & Hbounds).
  rewrite (proj2 (click_test_false _ _ _) Hclick).
  destruct (tileAt_total _ _ _ _ Hwf Hclick) as [clicked Hclicked].
  destruct (tileAt_row _ _ _ _ Hclicked) as (row & Erow & Ecell).
  rewrite Erow, (proj2 (eqb_neq_kind _ _) Htool), Hinc. cbn [negb].
  rewrite (proj2 (bounds_test_false _ _ _ _ _) Hbounds), Ecell.
  destruct (ext_click_verdict _ _ _ _ _ _ Hwf Hin (Extended.selectedTool st)
              clicked Hclicked) as (b & Hb & Hiff).
  rewrite Hb. rewrite (proj2 Hiff Hplace).
  rewrite (proj2 (Qgeb_ge _ _) Hmoney).
  destruct (ext_place_spec BUILDINGS _ _ (Extended.selectedTool st) x y Hwf Hin
              variant) as (newGrid & Hp & Hwf' & Hpt).
  rewrite Hp. exists newGrid. split; [reflexivity|]. split; [exact Hwf'|exact Hpt].
Qed.

Lemma basic_click_places (st : Basic.State) (x y : Z) (now : string) :
  let tool := Basic.selectedTool st in
  let cfg := BUILDINGS tool in
  let w := BuildingConfig.width cfg in
  let h := BuildingConfig.height cfg in
  Basic.gameStarted st = true ->
  wfGrid (Basic.mapSize st) (Basic.grid st) ->
  tool <> BuildingType.None ->
  includes (Basic.unlockedBuildings TECH_TREE st) tool = true ->
  footprintInside (Basic.mapSize st) w h x y ->
  footprintEmpty (Basic.grid st) w h x y ->
  BuildingConfig.cost cfg <= Basic.money (Basic.stats st) ->
  exists newGrid,
    Basic.handleTileClick BUILDINGS TECH_TREE st x y now
    = Some (Basic.setGrid
              (Basic.setStats st (Basic.debit (BuildingConfig.cost cfg)))
              newGrid)
    /\ wfGrid (Basic.mapSize st) newGrid
    /\ forall x' y',
         tileAt newGrid x' y'
         = if paintedb (fun _ _ => true) w h x y x' y'
           then option_map (Basic.stamp tool x y) (tileAt (Basic.grid st) x' y')
           else tileAt (Basic.grid st) x' y'.
Proof.
  intros tool cfg w h Hstart Hwf Htool Hinc Hin Hempty Hmoney.
  subst tool cfg w h.
  unfold Basic.handleTileClick.
  rewrite Hstart. cbn [negb].
  pose proof Hin as (Hclick & Hbounds).
  rewrite (proj2 (click_test_false _ _ _) Hclick).
  destruct (tileAt_total _ _ _ _ Hwf Hclick) as [clicked Hclicked].
  destruct (tileAt_row _ _ _ _ Hclicked) as (row & Erow & Ecell).
  rewrite Erow, (proj2 (eqb_neq_kind _ _) Htool), Hinc. cbn [negb].
  rewrite (proj2 (bounds_test_false _ _ _ _ _) Hbounds).
  destruct (basic_click_verdict _ _ _ _ _ _ Hwf Hin) as (b & Hb & Hiff).
  rewrite Hb. rewrite (proj2 Hiff Hempty).
  rewrite (proj2 (Qgeb_ge _ _) Hmoney).
  destruct (basic_place_spec BUILDINGS _ _ (Basic.selectedTool st) x y Hwf Hin)
    as (newGrid & Hp & Hwf' & Hpt).
  rewrite Hp. exists newGrid. split; [reflexivity|]. split; [exact Hwf'|exact Hpt].
Qed.

(** X1.  An accepted placement.  On a started game (and, in the extended
    variant, outside the moon view), a click with an unlocked building tool
    whose footprint lies on the map, over tiles that the handler accepts
    (empty; in the extended variant also level with the origin, a plain
    road counting as empty for a green road), with money for the cost,
    returns: the cost is debited, every covered tile receives the stamp
    (kind, owner = origin, and the variant in the extended variant), every
    other tile and every other part of the state, the news feed included,
    is as before. *)
Theorem accepted_placement :
  (forall (st : Extended.State) (x y : Z) (now : string) (variant : Z),
      let tool := Extended.selectedTool st in
      let cfg := BUILDINGS tool in
      let w := BuildingConfig.width cfg in
      let h := BuildingConfig.height cfg in
      Extended.gameStarted st = true ->
      Extended.viewMode st <> Extended.moon ->
      wfGrid (Extended.mapSize st) (Extended.grid st) ->
      tool <> BuildingType.None ->
      includes (Extended.unlockedBuildings TECH_TREE st) tool = true ->
      footprintInside (Extended.mapSize st) w h x y ->
      placeableE (Extended.grid st) tool w h x y ->
      BuildingConfig.cost cfg <= Extended.money (Extended.stats st) ->
      exists newGrid,
        Extended.handleTileClick BUILDINGS TECH_TREE st x y now variant
        = Some (Extended.setGrid
                  (Extended.setStats st (Extended.debit (BuildingConfig.cost cfg)))
                  newGrid)
        /\ wfGrid (Extended.mapSize st) newGrid
        /\ forall x' y',
             (covers w h x y x' y' ->
              tileAt newGrid x' y'
              = option_map (Extended.stamp tool x y variant)
                           (tileAt (Extended.grid st) x' y')) /\
             (~ covers w h x y x' y' ->
              tileAt newGrid x' y' = tileAt (Extended.grid st) x' y')) /\
  (forall (st : Basic.State) (x y : Z) (now : string),
      let tool := Basic.selectedTool st in
      let cfg := BUILDINGS tool in
      let w := BuildingConfig.width cfg in
      let h := BuildingConfig.height cfg in
      Basic.gameStarted st = true ->
      wfGrid (Basic.mapSize st) (Basic.grid st) ->
      tool <> BuildingType.None ->
      includes (Basic.unlockedBuildings TECH_TREE st) tool = true ->
      footprintInside (Basic.mapSize st) w h x y ->
      footprintEmpty (Basic.grid st) w h x y ->
      BuildingConfig.cost cfg <= Basic.money (Basic.stats st) ->
      exists newGrid,
        Basic.handleTileClick BUILDINGS TECH_TREE st x y now
        = Some (Basic.setGrid
                  (Basic.setStats st (Basic.debit (BuildingConfig.cost cfg)))
                  newGrid)
        /\ wfGrid (Basic.mapSize st) newGrid
        /\ forall x' y',
             (covers w h x y x' y' ->
              tileAt newGrid x' y'
              = option_map (Basic.stamp tool x y) (tileAt (Basic.grid st) x' y')) /\
             (~ covers w h x y x' y' ->
              tileAt newGrid x' y' = tileAt (Basic.grid st) x' y')).
Proof.
  split.
  - intros st x y now variant tool cfg w h Hstart Hview Hwf Htool Hinc Hin Hpl Hm.
    destruct (ext_click_places st x y now variant Hstart Hview Hwf Htool Hinc Hin
                Hpl Hm) as (newGrid & Hrun & Hwf' & Hpt).
    exists newGrid. split; [exact Hrun|]. split; [exact Hwf'|].
    intros x' y'. rewrite Hpt. apply painted_covers.
  - intros st x y now tool cfg w h Hstart Hwf Htool Hinc Hin Hempty Hm.
    destruct (basic_click_places st x y now Hstart Hwf Htool Hinc Hin Hempty Hm)
      as (newGrid & Hrun & Hwf' & Hpt).
    exists newGrid. split; [exact Hrun|]. split; [exact Hwf'|].
    intros x' y'. rewrite Hpt. apply painted_covers.
Qed.

End AcceptedRequests.

(** A hydroponics bay (2 x 2, 200 credits) placed at (1, 1) of an empty
    level 3 x 3 map with 2000 credits: 1800 credits are left and the tile
    (2, 2) belongs to the bay rooted at (1, 1). *)
Lemma accepted_placement_witness :
  let tech := [TechNode.mk "bio" "Bio" 0 [BuildingType.Agriculture] []]%string in
  let stE := Extended.setUnlockedTechs
               (Demo.extState (Demo.emptyGrid (Some 0%Z) 3) 3 BuildingType.Agriculture
                              (Demo.extStats 2000 0 100 400 100))
               ["bio"%string] in
  let stB := Basic.setUnlockedTechs
               (Demo.basicState (Demo.emptyGrid None 3) 3 BuildingType.Agriculture
                                (Demo.basicStats 2000 0))
               ["bio"%string] in
  (exists st', Extended.handleTileClick Demo.BUILDINGS tech stE 1 1 "t" 3 = Some st'
               /\ Extended.money (Extended.stats st') == 1800
               /\ tileAt (Extended.grid st') 2 2
                  = Some (TileData.mk 2 2 BuildingType.Agriculture (Some 1%Z)
                                      (Some 1%Z) (Some 3%Z) (Some 0%Z))) /\
  (exists st', Basic.handleTileClick Demo.BUILDINGS tech stB 1 1 "t" = Some st'
               /\ Basic.money (Basic.stats st') == 1800
               /\ tileAt (Basic.grid st') 2 2
                  = Some (TileData.mk 2 2 BuildingType.Agriculture (Some 1%Z)
                                      (Some 1%Z) None None)).
Proof.
  intros tech stE stB.
  destruct (accepted_placement Demo.BUILDINGS tech) as [HE HB].
  assert (Hsmall : forall i j : Z, (0 <= i < 2)%Z -> (0 <= j < 2)%Z ->
                     (i = 0 \/ i = 1)%Z /\ (j = 0 \/ j = 1)%Z) by (intros; lia).
  split.
  - destruct (HE stE 1%Z 1%Z "t"%string 3%Z) as (newGrid & Hrun & _ & Hpt).
    + reflexivity.
    + discriminate.
    + split; [reflexivity|]. repeat constructor.
    + discriminate.
    + reflexivity.
    + vm_compute. repeat split; congruence.
    + eexists. split; [reflexivity|]. intros i j Hi Hj.
      destruct (Hsmall i j Hi Hj) as [[-> | ->] [-> | ->]];
        (eexists; split; [reflexivity|]; split; [left; reflexivity | reflexivity]).
    + vm_compute. discriminate.
    + eexists. split; [exact Hrun|]. split; [reflexivity|].
      cbn [Extended.grid Extended.setGrid].
      rewrite (proj1 (Hpt 2%Z 2%Z)); [reflexivity|].
      vm_compute. repeat split; congruence.
  - destruct (HB stB 1%Z 1%Z "t"%string) as (newGrid & Hrun & _ & Hpt).
    + reflexivity.
    + split; [reflexivity|]. repeat constructor.
    + discriminate.
    + reflexivity.
    + vm_compute. repeat split; congruence.
    + intros i j Hi Hj.
      destruct (Hsmall i j Hi Hj) as [[-> | ->] [-> | ->]];
        (eexists; split; reflexivity).
    + vm_compute. discriminate.
    + eexists. split; [exact Hrun|]. split; [reflexivity|].
      cbn [Basic.grid Basic.setGrid].
      rewrite (proj1 (Hpt 2%Z 2%Z)); [reflexivity|].
      vm_compute. repeat split; congruence.
Defined.

(** ** Demolition through the click handler *)

Lemma isNone_false (b : BuildingType.t) : isNone b = false <-> b <> BuildingType.None.
Proof. unfold isNone. apply eqb_neq_kind. Qed.

Section AcceptedDemolition.
Variable BUILDINGS : BuildingType.t -> BuildingConfig.t.
Variable TECH_TREE : list TechNode.t.

Lemma ext_click_demolishes (st : Extended.State) (x y : Z) (now : string)
      (variant : Z) (clicked : TileData.t) :
  let n := Extended.mapSize st in
  let rootX := match TileData.ownerX clicked with
               | Some ox => ox | None => TileData.x clicked end in
  let rootY := match TileData.ownerY clicked with
               | Some oy => oy | None => TileData.y clicked end in
  Extended.gameStarted st = true ->
  Extended.viewMode st <> Extended.moon ->
  wfGrid n (Extended.grid st) ->
  Extended.selectedTool st = BuildingType.None ->
  tileAt (Extended.grid st) x y = Some clicked ->
  TileData.buildingType clicked <> BuildingType.None ->
  inMap n rootX rootY ->
  50 <= Extended.money (Extended.stats st) ->
  exists root newGrid,
    tileAt (Extended.grid st) rootX rootY = Some root
    /\ Extended.handleTileClick BUILDINGS TECH_TREE st x y now variant
       = Some (Extended.setStats (Extended.setGrid st newGrid) (Extended.debit 50))
    /\ wfGrid n newGrid
    /\ forall x' y',
         let cfg := BUILDINGS (TileData.buildingType root) in
         tileAt newGrid x' y'
         = if paintedb (fun i j => ((rootY + j <? n) && (rootX + i <? n))%Z)
                       (BuildingConfig.width cfg) (BuildingConfig.height cfg)
                       rootX rootY x' y'
           then option_map Extended.cleared (tileAt (Extended.grid st) x' y')
           else tileAt (Extended.grid st) x' y'.
Proof.
  intros n rootX rootY Hstart Hview Hwf Htool Hclicked Hocc Hroot Hmoney.
  subst n rootX rootY.
  pose proof (tileAt_inMap _ _ _ _ _ Hwf Hclicked) as Hclick.
  unfold Extended.handleTileClick. cbv zeta.
  rewrite Hstart, (proj2 (isMoon_false _) Hview). cbn [negb orb].
  rewrite (proj2 (click_test_false _ _ _) Hclick).
  destruct (tileAt_row _ _ _ _ Hclicked) as (row & Erow & Ecell).
  rewrite Erow, Htool, eqb_refl_kind, Ecell.
  rewrite (proj2 (isNone_false _) Hocc). cbn [negb].
  rewrite (proj2 (Qgeb_ge _ _) Hmoney).
  destruct (tileAt_total _ _ _ _ Hwf Hroot) as [root Eroot].
  rewrite Eroot.
  destruct (ext_clear_spec _ (Extended.grid st)
              (BUILDINGS (TileData.buildingType root)) _ _ Hwf
              (proj1 (proj1 Hroot)) (proj1 (proj2 Hroot)))
    as (newGrid & Hclear & Hwf' & Hpt).
  rewrite Hclear.
  exists root, newGrid. split; [reflexivity|]. split; [reflexivity|].
  split; [exact Hwf'|]. exact Hpt.
Qed.

Lemma basic_click_demolishes (st : Basic.State) (x y : Z) (now : string)
      (clicked : TileData.t) :
  let n := Basic.mapSize st in
  let rootX := match TileData.ownerX clicked with
               | Some ox => ox | None => TileData.x clicked end in
  let rootY := match TileData.ownerY clicked with
               | Some oy => oy | None => TileData.y clicked end in
  Basic.gameStarted st = true ->
  wfGrid n (Basic.grid st) ->
  Basic.selectedTool st = BuildingType.None ->
  tileAt (Basic.grid st) x y = Some clicked ->
  TileData.buildingType clicked <> BuildingType.None ->
  inMap n rootX rootY ->
  50 <= Basic.money (Basic.stats st) ->
  exists root newGrid,
    tileAt (Basic.grid st) rootX rootY = Some root
    /\ Basic.handleTileClick BUILDINGS TECH_TREE st x y now
       = Some (Basic.setStats (Basic.setGrid st newGrid) (Basic.debit 50))
    /\ wfGrid n newGrid
    /\ forall x' y',
         let cfg := BUILDINGS (TileData.buildingType root) in
         tileAt newGrid x' y'
         = if paintedb (fun i j => ((rootY + j <? n) && (rootX + i <? n))%Z)
                       (BuildingConfig.width cfg) (BuildingConfig.height cfg)
                       rootX rootY x' y'
           then option_map (fun _ => Basic.cleared x' y') (tileAt (Basic.grid st) x' y')
           else tileAt (Basic.grid st) x' y'.
Proof.
  intros n rootX rootY Hstart Hwf Htool Hclicked Hocc Hroot Hmoney.
  subst n rootX rootY.
  pose proof (tileAt_inMap _ _ _ _ _ Hwf Hclicked) as Hclick.
  unfold Basic.handleTileClick. cbv zeta.
  rewrite Hstart. cbn [negb].
  rewrite (proj2 (click_test_false _ _ _) Hclick).
  destruct (tileAt_row _ _ _ _ Hclicked) as (row & Erow & Ecell).
  rewrite Erow, Htool, eqb_refl_kind, Ecell.
  rewrite (proj2 (isNone_false _) Hocc). cbn [negb].
  rewrite (proj2 (Qgeb_ge _ _) Hmoney).
  destruct (tileAt_total _ _ _ _ Hwf Hroot) as [root Eroot].
  rewrite Eroot.
  destruct (basic_clear_spec _ (Basic.grid st)
              (BUILDINGS (TileData.buildingType root)) _ _ Hwf
              (proj1 (proj1 Hroot)) (proj1 (proj2 Hroot)))
    as (newGrid & Hclear & Hwf' & Hpt).
  rewrite Hclear.
  exists root, newGrid. split; [reflexivity|]. split; [reflexivity|].
  split; [exact Hwf'|]. exact Hpt.
Qed.
(** X2.  An accepted demolition.  With the bulldozer selected, a click on
    any tile of a building (its root or not), with 50 credits or more,
    returns: exactly 50 credits are debited and no notice is pushed; the
    building looked up is the one at the owner position of the clicked
    tile, and the tiles cleared are those of the catalog footprint of the
    kind found there, anchored at that position and clipped to the map;
    every other tile is as before.  The extended variant keeps the height
    of a cleared tile, the basic variant resets the tile. *)
Theorem accepted_demolition :
  (forall (st : Extended.State) (x y : Z) (now : string) (variant : Z)
          (clicked : TileData.t),
      let n := Extended.mapSize st in
      let rootX := match TileData.ownerX clicked with
                   | Some ox => ox | None => TileData.x clicked end in
      let rootY := match TileData.ownerY clicked with
                   | Some oy => oy | None => TileData.y clicked end in
      Extended.gameStarted st = true ->
      Extended.viewMode st <> Extended.moon ->
      wfGrid n (Extended.grid st) ->
      Extended.selectedTool st = BuildingType.None ->
      tileAt (Extended.grid st) x y = Some clicked ->
      TileData.buildingType clicked <> BuildingType.None ->
      inMap n rootX rootY ->
      50 <= Extended.money (Extended.stats st) ->
      exists root newGrid,
        tileAt (Extended.grid st) rootX rootY = Some root
        /\ Extended.handleTileClick BUILDINGS TECH_TREE st x y now variant
           = Some (Extended.setStats (Extended.setGrid st newGrid) (Extended.debit 50))
        /\ wfGrid n newGrid
        /\ forall x' y',
             let cfg := BUILDINGS (TileData.buildingType root) in
             let w := BuildingConfig.width cfg in
             let h := BuildingConfig.height cfg in
             (clearedArea n w h rootX rootY x' y' ->
              exists old, tileAt (Extended.grid st) x' y' = Some old
                          /\ tileAt newGrid x' y' = Some (Extended.cleared old)) /\
             (~ clearedArea n w h rootX rootY x' y' ->
              tileAt newGrid x' y' = tileAt (Extended.grid st) x' y')) /\
  (forall (st : Basic.State) (x y : Z) (now : string) (clicked : TileData.t),
      let n := Basic.mapSize st in
      let rootX := match TileData.ownerX clicked with
                   | Some ox => ox | None => TileData.x clicked end in
      let rootY := match TileData.ownerY clicked with
                   | Some oy => oy | None => TileData.y clicked end in
      Basic.gameStarted st = true ->
      wfGrid n (Basic.grid st) ->
      Basic.selectedTool st = BuildingType.None ->
      tileAt (Basic.grid st) x y = Some clicked ->
      TileData.buildingType clicked <> BuildingType.None ->
      inMap n rootX rootY ->
      50 <= Basic.money (Basic.stats st) ->
      exists root newGrid,
        tileAt (Basic.grid st) rootX rootY = Some root
        /\ Basic.handleTileClick BUILDINGS TECH_TREE st x y now
           = Some (Basic.setStats (Basic.setGrid st newGrid) (Basic.debit 50))
        /\ wfGrid n newGrid
        /\ forall x' y',
             let cfg := BUILDINGS (TileData.buildingType root) in
             let w := BuildingConfig.width cfg in
             let h := BuildingConfig.height cfg in
             (clearedArea n w h rootX rootY x' y' ->
              tileAt newGrid x' y' = Some (Basic.cleared x' y')) /\
             (~ clearedArea n w h rootX rootY x' y' ->
              tileAt newGrid x' y' = tileAt (Basic.grid st) x' y')).
Proof.
  split.
  - intros st x y now variant clicked n rootX rootY Hstart Hview Hwf Htool Hcl Hocc
           Hroot Hm.
    destruct (ext_click_demolishes st x y now variant clicked Hstart Hview Hwf Htool
                Hcl Hocc Hroot Hm) as (root & newGrid & Er & Hrun & Hwf' & Hpt).
    exists root, newGrid. split; [exact Er|]. split; [exact Hrun|].
    split; [exact Hwf'|]. intros x' y' cfg w h. specialize (Hpt x' y').
    cbv zeta in Hpt. fold n rootX rootY cfg w h in Hpt. rewrite Hpt.
    pose proof (clear_painted n cfg rootX rootY x' y') as Hiff. fold w h in Hiff.
    split; intro Hc.
    + rewrite (proj2 Hiff Hc).
      assert (Hmap : inMap n x' y').
      { destruct Hroot. unfold clearedArea, inMap in *. lia. }
      destruct (tileAt_total _ _ _ _ Hwf Hmap) as [old Hold].
      exists old. rewrite Hold. split; reflexivity.
    + destruct (paintedb _ w h rootX rootY x' y'); [|reflexivity].
      exfalso. apply Hc, Hiff. reflexivity.
  - intros st x y now clicked n rootX rootY Hstart Hwf Htool Hcl Hocc Hroot Hm.
    destruct (basic_click_demolishes st x y now clicked Hstart Hwf Htool
                Hcl Hocc Hroot Hm) as (root & newGrid & Er & Hrun & Hwf' & Hpt).
    exists root, newGrid. split; [exact Er|]. split; [exact Hrun|].
    split; [exact Hwf'|]. intros x' y' cfg w h. specialize (Hpt x' y').
    cbv zeta in Hpt. fold n rootX rootY cfg w h in Hpt. rewrite Hpt.
    pose proof (clear_painted n cfg rootX rootY x' y') as Hiff. fold w h in Hiff.
    split; intro Hc.
    + rewrite (proj2 Hiff Hc).
      assert (Hmap : inMap n x' y').
      { destruct Hroot. unfold clearedArea, inMap in *. lia. }
      destruct (tileAt_total _ _ _ _ Hwf Hmap) as [old Hold].
      rewrite Hold. reflexivity.
    + destruct (paintedb _ w h rootX rootY x' y'); [|reflexivity].
      exfalso. apply Hc, Hiff. reflexivity.
Qed.
End AcceptedDemolition.

(** A reactor (2 x 2) rooted at (0, 0) of a 3 x 3 map, demolished by a
    click on its far tile (1, 1): 50 credits are taken, and the root tile
    is empty afterwards. *)
Lemma accepted_demolition_witness :
  let part (x y : Z) := TileData.mk x y BuildingType.Industrial (Some 0%Z) (Some 0%Z)
                                    (Some 2%Z) (Some 0%Z) in
  let g := [ [part 0 0; part 1 0; Demo.emptyTile (Some 0%Z) 2 0];
             [part 0 1; part 1 1; Demo.emptyTile (Some 0%Z) 2 1];
             Demo.emptyRow (Some 0%Z) 3 2 ]%Z in
  let stE := Demo.extState g 3 BuildingType.None (Demo.extStats 60 0 100 400 100) in
  let stB := Demo.basicState g 3 BuildingType.None (Demo.basicStats 60 0) in
  (exists st', Extended.handleTileClick Demo.BUILDINGS Demo.TECH_TREE stE 1 1 "t" 0
               = Some st'
               /\ Extended.money (Extended.stats st') == 10
               /\ tileAt (Extended.grid st') 0 0 = Some (Demo.emptyTile (Some 0%Z) 0 0)) /\
  (exists st', Basic.handleTileClick Demo.BUILDINGS Demo.TECH_TREE stB 1 1 "t"
               = Some st'
               /\ Basic.money (Basic.stats st') == 10
               /\ tileAt (Basic.grid st') 0 0 = Some (Demo.emptyTile None 0 0)).
Proof.
  intros part g stE stB.
  destruct (accepted_demolition Demo.BUILDINGS Demo.TECH_TREE) as [HE HB].
  assert (Hwf : wfGrid 3 g) by (split; [reflexivity | repeat constructor]).
  split.
  - destruct (HE stE 1%Z 1%Z "t"%string 0%Z (part 1 1)%Z)
      as (root & newGrid & Hroot & Hrun & _ & Hpt).
    + reflexivity.
    + discriminate.
    + exact Hwf.
    + reflexivity.
    + reflexivity.
    + discriminate.
    + vm_compute. repeat split; congruence.
    + vm_compute. discriminate.
    + vm_compute in Hroot. injection Hroot as <-.
      eexists. split; [exact Hrun|]. split; [reflexivity|].
      cbn [Extended.grid Extended.setGrid Extended.setStats].
      destruct (proj1 (Hpt 0%Z 0%Z)) as (old & Hold & Hnew).
      * vm_compute. repeat split; congruence.
      * vm_compute in Hold. injection Hold as <-. exact Hnew.
  - destruct (HB stB 1%Z 1%Z "t"%string (part 1 1)%Z)
      as (root & newGrid & Hroot & Hrun & _ & Hpt).
    + reflexivity.
    + exact Hwf.
    + reflexivity.
    + reflexivity.
    + discriminate.
    + vm_compute. repeat split; congruence.
    + vm_compute. discriminate.
    + vm_compute in Hroot. injection Hroot as <-.
      eexists. split; [exact Hrun|]. split; [reflexivity|].
      cbn [Basic.grid Basic.setGrid Basic.setStats].
      apply (proj1 (Hpt 0%Z 0%Z)).
      vm_compute. repeat split; congruence.
Defined.

(** ** Placing and demolishing again *)

Lemma index_of_nat {A : Type} (l : list A) (k : nat) :
  index l (Z.of_nat k) = nth_error l k.
Proof.
  unfold index. destruct (Z.ltb_spec (Z.of_nat k) 0) as [H|_]; [lia|].
  rewrite Nat2Z.id. reflexivity.
Qed.

Lemma grid_ext (n : Z) (g g' : Grid) :
  wfGrid n g -> wfGrid n g' ->
  (forall x y, tileAt g' x y = tileAt g x y) -> g' = g.
Proof.
  intros [Hlen Hrows] [Hlen' Hrows'] Hpt.
  apply nth_error_ext. intro k.
  destruct (nth_error g' k) as [row'|] eqn:E'; destruct (nth_error g k) as [row|] eqn:E.
  - f_equal. apply nth_error_ext. intro j.
    specialize (Hpt (Z.of_nat j) (Z.of_nat k)). unfold tileAt in Hpt.
    rewrite !index_of_nat, E, E', !index_of_nat in Hpt. exact Hpt.
  - exfalso. apply nth_error_None in E.
    assert (k < length g')%nat by (apply nth_error_Some; congruence). lia.
  - exfalso. apply nth_error_None in E'.
    assert (k < length g)%nat by (apply nth_error_Some; congruence). lia.
  - reflexivity.
Qed.

Lemma cleared_stamp_fresh (tool : BuildingType.t) (x y variant : Z) (t : TileData.t) :
  isCleared t -> Extended.cleared (Extended.stamp tool x y variant t) = t.
Proof.
  destruct t as [tx ty b ox oy v hgt]. unfold isCleared. simpl.
  intros (-> & -> & -> & ->). reflexivity.
Qed.

Section RoundTrip.
Variable BUILDINGS : BuildingType.t -> BuildingConfig.t.
Variable TECH_TREE : list TechNode.t.
Variables POP_FOOD_CONSUMPTION POP_O2_CONSUMPTION POP_CO2_PRODUCTION : Q.
Variables cos sin : Q -> Q.
Variable PI : Q.

Local Abbreviation run :=
  (Run.run BUILDINGS TECH_TREE POP_FOOD_CONSUMPTION POP_O2_CONSUMPTION
           POP_CO2_PRODUCTION cos sin PI).

(** X3.  Placing and demolishing is a round trip on the grid.  After an
    accepted placement over fresh tiles (empty, without owner or variant,
    level), the covered tiles carry the kind; selecting the bulldozer and
    clicking any of them, with 50 credits left, gives back the grid as it
    was before the placement.  The cost and the 50 credits are gone, and
    no notice has been pushed. *)
Theorem place_then_demolish_restores
        (st : Extended.State) (x y cx cy : Z) (now now' : string) (v v' : Z) :
  let tool := Extended.selectedTool st in
  let cfg := BUILDINGS tool in
  let w := BuildingConfig.width cfg in
  let h := BuildingConfig.height cfg in
  Extended.gameStarted st = true ->
  Extended.viewMode st <> Extended.moon ->
  wfGrid (Extended.mapSize st) (Extended.grid st) ->
  tool <> BuildingType.None ->
  includes (Extended.unlockedBuildings TECH_TREE st) tool = true ->
  footprintInside (Extended.mapSize st) w h x y ->
  footprintFresh (Extended.grid st) w h x y ->
  BuildingConfig.cost cfg + 50 <= Extended.money (Extended.stats st) ->
  covers w h x y cx cy ->
  exists st1 st2,
    run st [Run.Click x y now v] = Some st1
    /\ (exists t, tileAt (Extended.grid st1) cx cy = Some t
                  /\ TileData.buildingType t = tool)
    /\ run st1 [Run.SelectTool BuildingType.None; Run.Click cx cy now' v'] = Some st2
    /\ Extended.grid st2 = Extended.grid st
    /\ Extended.money (Extended.stats st2)
       = Extended.money (Extended.stats st) - BuildingConfig.cost cfg - 50
    /\ Extended.newsFeed st2 = Extended.newsFeed st.
Proof.
  intros tool cfg w h Hstart Hview Hwf Htool Hinc Hin Hfresh Hmoney Hcov.
  assert (Hplaceable : placeableE (Extended.grid st) tool w h x y).
  { destruct Hfresh as (corner & Hcorner & Hall). exists corner. split; [exact Hcorner|].
    intros i j Hi Hj. destruct (Hall i j Hi Hj) as (t & Ht & (Hk & _) & Hh).
    exists t. split; [exact Ht|]. split; [left; exact Hk | exact Hh]. }
  destruct (ext_click_places BUILDINGS TECH_TREE st x y now v Hstart Hview Hwf Htool
              Hinc Hin Hplaceable) as (g1 & Hclick1 & Hwf1 & Hpt1).
  { fold tool cfg. lra. }
  fold tool cfg w h in Hclick1, Hpt1.
  set (st1 := Extended.setGrid
                (Extended.setStats st (Extended.debit (BuildingConfig.cost cfg))) g1)
    in *.
  (* what the first click wrote under the footprint *)
  assert (Hstamped : forall x' y', covers w h x y x' y' ->
            exists old, tileAt (Extended.grid st) x' y' = Some old
                        /\ isCleared old
                        /\ tileAt g1 x' y' = Some (Extended.stamp tool x y v old)).
  { intros x' y' Hc. destruct Hfresh as (corner & _ & Hall).
    destruct (Hall (x' - x)%Z (y' - y)%Z) as (old & Hold & Hcl & _);
      [unfold covers in Hc; lia | unfold covers in Hc; lia |].
    replace (x + (x' - x))%Z with x' in Hold by lia.
    replace (y + (y' - y))%Z with y' in Hold by lia.
    exists old. split; [exact Hold|]. split; [exact Hcl|].
    rewrite Hpt1, (proj2 (always_painted _ _ _ _ _ _) Hc), Hold. reflexivity. }
  destruct (Hstamped cx cy Hcov) as (old & Hold & Hcl & Hclicked).
  assert (Hcorner : covers w h x y x y) by (unfold covers in *; lia).
  destruct (Hstamped x y Hcorner) as (oldc & Holdc & Hclc & Hrootc).
  set (st1' := Extended.mkState
                 (Extended.gameStarted st1) (Extended.mapSize st1)
                 (Extended.aiEnabled st1) (Extended.autoGrowth st1)
                 (Extended.viewMode st1) (Extended.grid st1) (Extended.stats st1)
                 (Extended.history st1) BuildingType.None
                 (Extended.unlockedTechs st1) (Extended.currentGoal st1)
                 (Extended.newsFeed st1)).
  destruct (ext_click_demolishes BUILDINGS TECH_TREE st1' cx cy now' v'
              (Extended.stamp tool x y v old))
    as (root & g2 & Hroot & Hclick2 & Hwf2 & Hpt2).
  - exact Hstart.
  - exact Hview.
  - exact Hwf1.
  - reflexivity.
  - exact Hclicked.
  - exact Htool.
  - apply Hin.
  - cbn. lra.
  - cbn [Extended.stamp TileData.ownerX TileData.ownerY] in Hroot, Hclick2, Hpt2.
    cbn [Extended.grid st1' st1 Extended.setGrid Extended.mapSize Extended.setStats]
      in Hroot, Hpt2.
    assert (root = Extended.stamp tool x y v oldc) by congruence. subst root.
    cbn [Extended.stamp TileData.buildingType] in Hpt2. fold cfg w h in Hpt2.
    exists st1, (Extended.setStats (Extended.setGrid st1' g2) (Extended.debit 50)).
    split; [cbn [Run.run Run.step]; rewrite Hclick1; reflexivity|].
    split; [exists (Extended.stamp tool x y v old); split; [exact Hclicked|reflexivity]|].
    split; [cbn [Run.run Run.step]; fold st1'; rewrite Hclick2; reflexivity|].
    split; [|split; reflexivity].
    cbn [Extended.grid Extended.setStats Extended.setGrid].
    apply (grid_ext (Extended.mapSize st)); [exact Hwf | exact Hwf2 |].
    intros x' y'. rewrite Hpt2.
    destruct (paintedb _ w h x y x' y') eqn:Ep.
    + apply (clear_painted (Extended.mapSize st) cfg) in Ep.
      assert (Hc : covers w h x y x' y') by (unfold clearedArea, covers in *; lia).
      destruct (Hstamped x' y' Hc) as (o & Ho & Hclo & Hs).
      rewrite Hs, Ho. cbn [option_map]. f_equal. apply cleared_stamp_fresh, Hclo.
    + rewrite Hpt1.
      destruct (paintedb (fun _ _ => true) w h x y x' y') eqn:Ea; [|reflexivity].
      exfalso. apply always_painted in Ea.
      assert (Hca : clearedArea (Extended.mapSize st) w h x y x' y').
      { destruct Hin as (_ & Hxw & Hyh). unfold clearedArea. lia. }
      apply (clear_painted (Extended.mapSize st) cfg) in Hca.
      fold w h in Hca. congruence.
Qed.
End RoundTrip.

(** A habitation module placed at (1, 1) of an empty level 3 x 3 map and
    demolished again: the grid is the empty one, 200 credits are gone. *)
Lemma place_then_demolish_restores_witness :
  let st := Demo.extState (Demo.emptyGrid (Some 0%Z) 3) 3 BuildingType.Residential
                          (Demo.extStats 2000 0 100 400 100) in
  exists st1 st2,
    Run.run Demo.BUILDINGS Demo.TECH_TREE Demo.POP_FOOD_CONSUMPTION
            Demo.POP_O2_CONSUMPTION Demo.POP_CO2_PRODUCTION Demo.cos Demo.sin
            Demo.PI st [Run.Click 1 1 "t0" 2] = Some st1
    /\ Run.run Demo.BUILDINGS Demo.TECH_TREE Demo.POP_FOOD_CONSUMPTION
               Demo.POP_O2_CONSUMPTION Demo.POP_CO2_PRODUCTION Demo.cos Demo.sin
               Demo.PI st1 [Run.SelectTool BuildingType.None; Run.Click 1 1 "t1" 0]
       = Some st2
    /\ Extended.grid st2 = Demo.emptyGrid (Some 0%Z) 3
    /\ Extended.money (Extended.stats st2) == 1800.
Proof.
  intro st.
  destruct (place_then_demolish_restores Demo.BUILDINGS Demo.TECH_TREE
              Demo.POP_FOOD_CONSUMPTION Demo.POP_O2_CONSUMPTION
              Demo.POP_CO2_PRODUCTION Demo.cos Demo.sin Demo.PI
              st 1%Z 1%Z 1%Z 1%Z "t0"%string "t1"%string 2%Z 0%Z)
    as (st1 & st2 & H1 & _ & H2 & Hg & Hm & _).
  - reflexivity.
  - discriminate.
  - split; [reflexivity|]. repeat constructor.
  - discriminate.
  - reflexivity.
  - vm_compute. repeat split; congruence.
  - eexists. split; [reflexivity|]. intros i j Hi Hj.
    assert (i = 0%Z) by (change (0 <= i < 1)%Z in Hi; lia).
    assert (j = 0%Z) by (change (0 <= j < 1)%Z in Hj; lia). subst i j.
    eexists. split; [reflexivity|]. split; [repeat split | reflexivity].
  - vm_compute. discriminate.
  - vm_compute. repeat split; congruence.
  - exists st1, st2. split; [exact H1|]. split; [exact H2|].
    split; [exact Hg|]. rewrite Hm. vm_compute. reflexivity.
Defined.

(** ** Every building is counted once *)

Lemma rootId_eqb_eq (a b : RootId) : rootId_eqb a b = true <-> a = b.
Proof.
  destruct a as [ax ay], b as [bx by']. unfold rootId_eqb. simpl.
  rewrite andb_true_iff, Z.eqb_eq, optZ_eqb_eq. split.
  - intros [-> ->]. reflexivity.
  - intro H. injection H as -> ->. split; reflexivity.
Qed.

Lemma has_In (s : list RootId) (r : RootId) : has s r = true <-> In r s.
Proof.
  unfold has. rewrite existsb_exists. split.
  - intros (r' & Hin & Heq). apply rootId_eqb_eq in Heq. subst. exact Hin.
  - intro Hin. exists r. split; [exact Hin | apply rootId_eqb_eq; reflexivity].
Qed.

Lemma totalCount_bump (counts : BuildingType.t -> Z) (k : BuildingType.t) :
  totalCount (bump counts k) = (totalCount counts + 1)%Z.
Proof.
  unfold totalCount, bump, BuildingType.all. destruct k; simpl; lia.
Qed.

Section CountedOnce.
Variable BUILDINGS : BuildingType.t -> BuildingConfig.t.

Let countedOnce (a : Agg.t) (seen : list TileData.t) : Prop :=
  NoDup (Agg.processedRoots a)
  /\ (forall r, In r (Agg.processedRoots a)
                <-> In r (map rootIdOf (filter occupiedTile seen)))
  /\ totalCount (Agg.buildingCounts a) = Z.of_nat (length (Agg.processedRoots a)).

Lemma visit_countedOnce (a : Agg.t) (seen : list TileData.t) (tile : TileData.t) :
  countedOnce a seen -> countedOnce (visit BUILDINGS a tile) (seen ++ [tile]).
Proof.
  intros (Hnd & Hmem & Htot). unfold countedOnce, visit.
  rewrite filter_app, map_app.
  assert (Hone : filter occupiedTile [tile]
                 = if isNone (TileData.buildingType tile) then [] else [tile]).
  { cbn [filter]. unfold occupiedTile.
    destruct (isNone (TileData.buildingType tile)); reflexivity. }
  rewrite Hone. fold (isNone (TileData.buildingType tile)).
  destruct (isNone (TileData.buildingType tile)) eqn:Ek; cbn [map].
  - rewrite app_nil_r. split; [exact Hnd|]. split; [exact Hmem | exact Htot].
  - destruct (has (Agg.processedRoots a) (rootIdOf tile)) eqn:Eh.
    + apply has_In in Eh. split; [exact Hnd|]. split; [|exact Htot].
      intro r. rewrite in_app_iff, <- Hmem. cbn [In]. split.
      * intro H. left. exact H.
      * intros [H|[<-|[]]]; assumption.
    + assert (Hnew : ~ In (rootIdOf tile) (Agg.processedRoots a)).
      { intro H. apply has_In in H. congruence. }
      cbn [Agg.processedRoots Agg.buildingCounts]. split.
      * constructor; assumption.
      * split.
        -- intro r. rewrite in_app_iff, <- Hmem. cbn [In]. tauto.
        -- rewrite totalCount_bump, Htot. cbn [length]. lia.
Qed.

Lemma fold_visit_countedOnce (l : list TileData.t) :
  forall a seen, countedOnce a seen ->
                 countedOnce (fold_left (visit BUILDINGS) l a) (seen ++ l).
Proof.
  induction l as [|tile l IH]; intros a seen H; cbn [fold_left].
  - rewrite app_nil_r. exact H.
  - replace (seen ++ tile :: l) with ((seen ++ [tile]) ++ l)
      by (rewrite <- app_assoc; reflexivity).
    apply IH, visit_countedOnce, H.
Qed.

(** X4.  The aggregation pass of the tick counts every building once,
    whatever its footprint: the root ids it has processed are exactly the
    root ids of the occupied tiles of the grid, without repetition, and
    the per-kind counts add up to their number. *)
Theorem aggregate_counts_each_root_once (g : Grid) :
  let a := aggregate BUILDINGS g in
  NoDup (Agg.processedRoots a)
  /\ (forall r, In r (Agg.processedRoots a) <-> In r (occupiedRoots g))
  /\ totalCount (Agg.buildingCounts a) = Z.of_nat (length (Agg.processedRoots a)).
Proof.
  apply (fold_visit_countedOnce (concat g) Agg.zero []).
  split; [constructor|]. split; [reflexivity | reflexivity].
Qed.
End CountedOnce.

(** ** What a run keeps: stocks, buffers, the day counter *)


Section RunInvariants.
Variable BUILDINGS : BuildingType.t -> BuildingConfig.t.
Variable TECH_TREE : list TechNode.t.
Variables POP_FOOD_CONSUMPTION POP_O2_CONSUMPTION POP_CO2_PRODUCTION : Q.
Variables cos sin : Q -> Q.
Variable PI : Q.

Local Abbreviation step :=
  (Run.step BUILDINGS TECH_TREE POP_FOOD_CONSUMPTION POP_O2_CONSUMPTION
            POP_CO2_PRODUCTION cos sin PI).
Local Abbreviation run :=
  (Run.run BUILDINGS TECH_TREE POP_FOOD_CONSUMPTION POP_O2_CONSUMPTION
           POP_CO2_PRODUCTION cos sin PI).
Local Abbreviation tick :=
  (Extended.tick BUILDINGS TECH_TREE POP_FOOD_CONSUMPTION POP_O2_CONSUMPTION
                 POP_CO2_PRODUCTION cos sin PI).
Local Abbreviation newStats :=
  (Extended.newStats POP_FOOD_CONSUMPTION POP_O2_CONSUMPTION POP_CO2_PRODUCTION).

(** The auto-builder pays what it can afford. *)
Lemma ext_autoBuild_pays (rnd : nat -> Q) (st st' : Extended.State) :
  Extended.attemptAutoBuild BUILDINGS TECH_TREE cos sin PI rnd st = Some st' ->
  st' = st \/
  exists g' c, c <= Extended.money (Extended.stats st)
               /\ st' = Extended.setStats (Extended.setGrid st g') (Extended.debit c).
Proof.
  unfold Extended.attemptAutoBuild. intro H.
  destruct (Qltb _ 300); [left; congruence|].
  destruct (Extended.chooseTarget _ _ _ _) as [[targetType|] c1];
    [|left; congruence].
  destruct (Qltb _ _) eqn:Ec; [left; congruence|]. apply Qltb_ge in Ec.
  match type of H with
  | match ?e with _ => _ end = _ => destruct e as [[[startX startY] c2]|]
  end; [|discriminate].
  destruct (firstValid _ _ _) as [[[k [x y]]|]|]; try discriminate.
  - destruct (Extended.placeFootprint _ _ _ _ _ _) as [g'|]; [|discriminate].
    right. exists g', (BuildingConfig.cost (BUILDINGS targetType)).
    split; [exact Ec | congruence].
  - left; congruence.
Qed.

(** A tick: the auto-builder first (when switched on), then the new stats,
    the history entry and the goal check. *)
Lemma ext_tick_shape (rnd : nat -> Q) (st st' : Extended.State) :
  tick rnd st = Some st' ->
  exists st1,
    (st1 = st \/
     exists g' c, c <= Extended.money (Extended.stats st)
                  /\ st1 = Extended.setStats (Extended.setGrid st g') (Extended.debit c))
    /\ let a := Extended.powerPenalty (aggregate BUILDINGS (Extended.grid st)) in
       let ns := newStats a (Extended.stats st1) in
       st' = Extended.setCurrentGoal
               (Extended.setHistory (Extended.setStats st1 (fun _ => ns))
                                    (Extended.pushHistory ns))
               (checkGoal (Extended.aiEnabled st1) (Extended.currentGoal st1)
                  (Extended.money ns) (Extended.population ns) (Extended.science ns)
                  (Agg.buildingCounts a)).
Proof.
  unfold Extended.tick. intro H.
  destruct (Extended.autoGrowth st).
  - destruct (Extended.attemptAutoBuild _ _ _ _ _ _ _) as [st1|] eqn:E; [|discriminate].
    exists st1. split; [apply (ext_autoBuild_pays rnd), E|].
    injection H as <-. reflexivity.
  - exists st. split; [left; reflexivity|]. injection H as <-. reflexivity.
Qed.

(** A click: ignored, refused with a notice, or carried out and paid from
    money that covers the price. *)
Lemma ext_click_shape (st st' : Extended.State) (x y : Z) (now : string)
      (variant : Z) :
  Extended.handleTileClick BUILDINGS TECH_TREE st x y now variant = Some st' ->
  st' = st
  \/ (exists item, st' = Extended.pushNews st item)
  \/ (exists newGrid c,
         c <= Extended.money (Extended.stats st)
         /\ st' = Extended.setStats (Extended.setGrid st newGrid) (Extended.debit c)).
Proof.
  unfold Extended.handleTileClick. intro H.
  repeat match type of H with
  | Some _ = Some _ => injection H as <-
  | None = Some _ => discriminate H
  | (if ?c then _ else _) = _ => destruct c eqn:?
  | match ?e with _ => _ end = _ => destruct e eqn:?
  end;
  first [ left; reflexivity
        | right; left; eexists; reflexivity
        | right; right; eexists; eexists; split;
          [apply Qgeb_ge; eassumption | reflexivity] ].
Qed.

Lemma checkGoal_reward (ai : bool) (goal : option AIGoal.t) (m p sc : Q)
      (counts : BuildingType.t -> Z) (g' : AIGoal.t) :
  checkGoal ai goal m p sc counts = Some g' ->
  exists g, goal = Some g /\ AIGoal.reward g' = AIGoal.reward g.
Proof.
  unfold checkGoal. destruct goal as [g|]; [|discriminate].
  intro H. exists g. split; [reflexivity|].
  destruct (ai && negb (AIGoal.completed g)); [|congruence].
  destruct (isMet g m p sc counts); injection H as <-; reflexivity.
Qed.

Lemma visit_yields_nonneg (a : Agg.t) (tile : TileData.t) :
  (forall k, 0 <= BuildingConfig.incomeGen (BUILDINGS k)
             /\ 0 <= BuildingConfig.scienceGen (BUILDINGS k)) ->
  0 <= Agg.dailyIncome a /\ 0 <= Agg.dailyScience a ->
  0 <= Agg.dailyIncome (visit BUILDINGS a tile)
  /\ 0 <= Agg.dailyScience (visit BUILDINGS a tile).
Proof.
  intros Hcat Ha. unfold visit.
  destruct (BuildingType.eqb _ BuildingType.None); [exact Ha|].
  destruct (has _ _); [exact Ha|]. simpl.
  specialize (Hcat (TileData.buildingType tile)). split; lra.
Qed.

Lemma penalised_yields_nonneg (g : Grid) :
  (forall k, 0 <= BuildingConfig.incomeGen (BUILDINGS k)
             /\ 0 <= BuildingConfig.scienceGen (BUILDINGS k)) ->
  let a := Extended.powerPenalty (aggregate BUILDINGS g) in
  0 <= Agg.dailyIncome a /\ 0 <= Agg.dailyScience a.
Proof.
  intros Hcat a.
  assert (Hraw : 0 <= Agg.dailyIncome (aggregate BUILDINGS g)
                 /\ 0 <= Agg.dailyScience (aggregate BUILDINGS g)).
  { unfold aggregate.
    apply (fold_left_invariant _
             (fun a => 0 <= Agg.dailyIncome a /\ 0 <= Agg.dailyScience a)).
    - intros a0 b. apply visit_yields_nonneg, Hcat.
    - simpl. split; lra. }
  pose proof (powerRatio_range _ (aggregate_sane BUILDINGS g)) as Hr.
  subst a. unfold Extended.powerPenalty.
  destruct (isLowPower _); [|exact Hraw]. simpl.
  split; apply floor_nonneg; nra.
Qed.

(** An invariant of the steps is an invariant of the runs, which return. *)
Lemma run_invariant (evOk : Run.Event -> Prop) (P : Extended.State -> Prop) :
  (forall e, evOk e -> eventOk e) ->
  (forall st e st', stateOk st -> evOk e -> P st -> step st e = Some st' -> P st') ->
  forall events st,
    stateOk st -> P st -> Forall evOk events ->
    exists st', run st events = Some st' /\ stateOk st' /\ P st'.
Proof.
  intros Hev Hstep events.
  induction events as [|e rest IH]; intros st Hst HP Hall; cbn [Run.run].
  - exists st. split; [reflexivity|]. split; assumption.
  - inversion Hall as [|e' rest' He Hrest]; subst.
    destruct (step_ok BUILDINGS TECH_TREE POP_FOOD_CONSUMPTION POP_O2_CONSUMPTION
                POP_CO2_PRODUCTION cos sin PI st e Hst (Hev e He))
      as (st1 & Hs & Hst1).
    rewrite Hs. apply IH; [exact Hst1 | | exact Hrest].
    exact (Hstep st e st1 Hst He HP Hs).
Qed.

Lemma step_vitals (st st' : Extended.State) (e : Run.Event) :
  vitalsOk st -> step st e = Some st' -> vitalsOk st'.
Proof.
  intros Hinv H. destruct e; cbn [Run.step] in H.
  - destruct (Extended.gameStarted st); injection H as <-; exact Hinv.
  - destruct (Extended.gameStarted st); [|injection H as <-; exact Hinv].
    apply ext_tick_shape in H. destruct H as (st1 & _ & ->).
    unfold vitalsOk. cbn. split.
    + unfold Extended.newPop. cmp_cases; lra.
    + unfold Extended.newFood. cmp_cases; lra.
  - apply ext_click_shape in H.
    destruct H as [->|[(item & ->)|(g' & c & _ & ->)]]; exact Hinv.
  - injection H as <-. exact Hinv.
  - injection H as <-. unfold Extended.handleUnlockTech.
    destruct (findTech _ _); [|exact Hinv].
    destruct (Qgeb _ _); exact Hinv.
  - injection H as <-. unfold Extended.handleClaimReward.
    destruct (Extended.currentGoal st) as [goal|]; [|exact Hinv].
    destruct (AIGoal.completed goal); exact Hinv.
  - destruct (Extended.gameStarted st && Extended.aiEnabled st);
      injection H as <-; exact Hinv.
  - injection H as <-. exact Hinv.
  - injection H as <-. exact Hinv.
Qed.

Lemma step_solvent (st st' : Extended.State) (e : Run.Event) :
  (forall k, 0 <= BuildingConfig.incomeGen (BUILDINGS k)
             /\ 0 <= BuildingConfig.scienceGen (BUILDINGS k)) ->
  rewardOk e -> solvent st -> step st e = Some st' -> solvent st'.
Proof.
  intros Hcat He (Hm & Hs & Hg) H. destruct e; cbn [Run.step rewardOk] in H, He.
  - destruct (Extended.gameStarted st); injection H as <-; repeat split; assumption.
  - destruct (Extended.gameStarted st);
      [|injection H as <-; repeat split; assumption].
    apply ext_tick_shape in H. destruct H as (st1 & Hst1 & ->).
    destruct (penalised_yields_nonneg (Extended.grid st) Hcat) as [Hinc Hsci].
    assert (H1 : 0 <= Extended.money (Extended.stats st1)
                 /\ Extended.science (Extended.stats st1)
                    = Extended.science (Extended.stats st)
                 /\ Extended.currentGoal st1 = Extended.currentGoal st).
    { destruct Hst1 as [->|(g' & c & Hc & ->)]; cbn.
      - repeat split; assumption.
      - split; [lra|]. split; reflexivity. }
    destruct H1 as (Hm1 & Hs1 & Hg1).
    unfold solvent. cbn. split; [lra|]. split; [rewrite Hs1; lra|].
    intros goal Hgoal. apply checkGoal_reward in Hgoal.
    destruct Hgoal as (g0 & Hg0 & ->). apply Hg. congruence.
  - apply ext_click_shape in H.
    destruct H as [->|[(item & ->)|(g' & c & Hc & ->)]].
    + repeat split; assumption.
    + repeat split; assumption.
    + unfold solvent. cbn. split; [lra|]. split; assumption.
  - injection H as <-. repeat split; assumption.
  - injection H as <-. unfold Extended.handleUnlockTech.
    destruct (findTech _ _) as [tech|]; [|repeat split; assumption].
    destruct (Qgeb _ _) eqn:Ec; [|repeat split; assumption].
    apply Qgeb_ge in Ec. unfold solvent. cbn. split; [exact Hm|].
    split; [lra | exact Hg].
  - injection H as <-. unfold Extended.handleClaimReward.
    destruct (Extended.currentGoal st) as [goal|] eqn:Egoal.
    + destruct (AIGoal.completed goal).
      * specialize (Hg goal eq_refl). unfold solvent. cbn.
        split; [lra|]. split; [exact Hs|]. discriminate.
      * split; [exact Hm|]. split; [exact Hs|]. rewrite Egoal. exact Hg.
    + split; [exact Hm|]. split; [exact Hs|]. rewrite Egoal. exact Hg.
  - destruct (Extended.gameStarted st && Extended.aiEnabled st);
      injection H as <-; [|repeat split; assumption].
    unfold solvent. cbn. split; [exact Hm|]. split; [exact Hs|].
    intros g0 Hg0. injection Hg0 as <-. exact He.
  - injection H as <-. repeat split; assumption.
  - injection H as <-. repeat split; assumption.
Qed.

(** X5.  No stock is ever negative.  From a state of the extended variant
    whose grid is in order, every run over events that the environment
    can produce returns, with crew and food at 0 or more if they were.
    If moreover no kind of the catalog has a negative credit or science
    yield and no goal carries a negative reward, credits and science stay
    at 0 or more too: placement, demolition, the auto-builder and
    research never overdraw. *)
Theorem stocks_never_negative (st : Extended.State) (events : list Run.Event) :
  stateOk st -> vitalsOk st -> Forall eventOk events ->
  exists st',
    run st events = Some st'
    /\ vitalsOk st'
    /\ ((forall k, 0 <= BuildingConfig.incomeGen (BUILDINGS k)
                   /\ 0 <= BuildingConfig.scienceGen (BUILDINGS k)) ->
        Forall rewardOk events -> solvent st -> solvent st').
Proof.
  intros Hst Hv Hev.
  destruct (run_invariant eventOk vitalsOk (fun e H => H)
              (fun s e s' _ _ => step_vitals s s' e) events st Hst Hv Hev)
    as (st' & Hrun & _ & Hv').
  exists st'. split; [exact Hrun|]. split; [exact Hv'|].
  intros Hcat Hrew Hsol.
  destruct (run_invariant (fun e => eventOk e /\ rewardOk e) solvent
              (fun e H => proj1 H)
              (fun s e s' _ He => step_solvent s s' e Hcat (proj2 He))
              events st Hst Hsol) as (st'' & Hrun' & _ & Hsol').
  - apply Forall_forall. intros e Hin. split.
    + exact (proj1 (Forall_forall _ _) Hev e Hin).
    + exact (proj1 (Forall_forall _ _) Hrew e Hin).
  - congruence.
Qed.



Lemma step_day (st st' : Extended.State) (e : Run.Event) :
  step st e = Some st' ->
  Extended.day (Extended.stats st')
  == Extended.day (Extended.stats st)
     + inject_Z (ticksRun (Extended.gameStarted st) [e])
  /\ Extended.gameStarted st'
     = match e with
       | Run.Start _ _ => true
       | _ => Extended.gameStarted st
       end.
Proof.
  intro H.
  destruct e; cbn [Run.step ticksRun] in *.
  - destruct (Extended.gameStarted st) eqn:Es; injection H as <-;
      (split; [cbn; cbv [inject_Z]; lra | first [reflexivity | assumption]]).
  - destruct (Extended.gameStarted st) eqn:Es.
    + apply ext_tick_shape in H. destruct H as (st1 & Hst1 & ->).
      destruct Hst1 as [->|(g' & c & _ & ->)]; cbn; cbv [inject_Z];
        (split; [lra | first [reflexivity | assumption]]).
    + injection H as <-. split; [cbn; cbv [inject_Z]; lra | first [reflexivity | assumption]].
  - apply ext_click_shape in H.
    destruct H as [->|[(item & ->)|(g' & c & _ & ->)]];
      (split; [cbn; cbv [inject_Z]; lra | first [reflexivity | assumption]]).
  - injection H as <-. split; [cbn; cbv [inject_Z]; lra | first [reflexivity | assumption]].
  - injection H as <-. unfold Extended.handleUnlockTech.
    destruct (findTech _ _); [|split; [cbn; cbv [inject_Z]; lra | first [reflexivity | assumption]]].
    destruct (Qgeb _ _); (split; [cbn; cbv [inject_Z]; lra | first [reflexivity | assumption]]).
  - injection H as <-. unfold Extended.handleClaimReward.
    destruct (Extended.currentGoal st) as [goal|]; [|split; [cbn; cbv [inject_Z]; lra | first [reflexivity | assumption]]].
    destruct (AIGoal.completed goal); (split; [cbn; cbv [inject_Z]; lra | first [reflexivity | assumption]]).
  - destruct (Extended.gameStarted st && Extended.aiEnabled st);
      injection H as <-; (split; [cbn; cbv [inject_Z]; lra | first [reflexivity | assumption]]).
  - injection H as <-. split; [cbn; cbv [inject_Z]; lra | first [reflexivity | assumption]].
  - injection H as <-. split; [cbn; cbv [inject_Z]; lra | first [reflexivity | assumption]].
Qed.

Lemma ticksRun_cons (started : bool) (e : Run.Event) (rest : list Run.Event) :
  ticksRun started (e :: rest)
  = (ticksRun started [e]
     + ticksRun (match e with Run.Start _ _ => true | _ => started end) rest)%Z.
Proof. destruct e; cbn [ticksRun]; lia. Qed.

(** X7.  The day counter counts the ticks.  From a state whose grid is in
    order, every run over events that the environment can produce returns,
    and the day has advanced by the number of ticks that arrived after
    the game was started; no other event moves it. *)
Theorem day_counts_ticks (events : list Run.Event) :
  forall st,
    stateOk st -> Forall eventOk events ->
    exists st',
      run st events = Some st'
      /\ Extended.day (Extended.stats st')
         == Extended.day (Extended.stats st)
            + inject_Z (ticksRun (Extended.gameStarted st) events).
Proof.
  induction events as [|e rest IH]; intros st Hst Hev.
  - exists st. split; [reflexivity|]. cbn. cbv [inject_Z]. lra.
  - inversion Hev as [|e' rest' He Hrest]; subst.
    destruct (step_ok BUILDINGS TECH_TREE POP_FOOD_CONSUMPTION POP_O2_CONSUMPTION
                POP_CO2_PRODUCTION cos sin PI st e Hst He) as (st1 & Hs & Hst1).
    destruct (IH st1 Hst1 Hrest) as (st' & Hrun & Hday).
    exists st'. cbn [Run.run]. rewrite Hs. split; [exact Hrun|].
    destruct (step_day st st1 e Hs) as [Hd Hg].
    rewrite Hday, Hd, Hg, (ticksRun_cons _ e rest), inject_Z_plus. lra.
Qed.
End RunInvariants.

Lemma initialState_ok (INITIAL_MONEY : Q) (MEDIUM : Z)
      (INITIAL_UNLOCKED_TECHS : list string) :
  (0 <= MEDIUM)%Z ->
  stateOk (Extended.initialState INITIAL_MONEY MEDIUM INITIAL_UNLOCKED_TECHS).
Proof.
  intro Hsize. destruct (createInitialGrid_ok MEDIUM Hsize) as [Hwf Hok].
  split; [exact Hwf|]. split; [exact Hok|]. intro H. contradiction.
Qed.

(** Events are checked one by one. *)
Ltac events_ok :=
  repeat (apply Forall_cons;
          [first [ exact I
                 | cbn; lia
                 | cbn; lra
                 | intro k; unfold Demo.rnd; split; lra ] |]);
  apply Forall_nil.

(** A colony of 2000 credits on a 3 x 3 map: a solar array, a habitation
    module, a goal worth 500 credits, two ticks, the claim, a research. *)
Lemma stocks_never_negative_witness :
  let st0 := Extended.initialState 2000 3 ["basics"%string] in
  let goal := AIGoal.mk "Grow" population_t 5 None 500 false in
  let events := [Run.Start true 3; Run.SelectTool BuildingType.SolarPanel;
                 Run.Click 0 0 "t0" 2; Run.SelectTool BuildingType.Residential;
                 Run.Click 1 1 "t1" 0; Run.GoalArrives goal; Run.Tick Demo.rnd;
                 Run.Tick Demo.rnd; Run.ClaimReward "t2";
                 Run.UnlockTech "commerce" "t3"] in
  exists st',
    Run.run Demo.BUILDINGS Demo.TECH_TREE Demo.POP_FOOD_CONSUMPTION
            Demo.POP_O2_CONSUMPTION Demo.POP_CO2_PRODUCTION Demo.cos Demo.sin
            Demo.PI st0 events = Some st'
    /\ vitalsOk st' /\ solvent st'.
Proof.
  intros st0 goal events.
  destruct (stocks_never_negative Demo.BUILDINGS Demo.TECH_TREE
              Demo.POP_FOOD_CONSUMPTION Demo.POP_O2_CONSUMPTION
              Demo.POP_CO2_PRODUCTION Demo.cos Demo.sin Demo.PI st0 events)
    as (st' & Hrun & Hv & Hsol).
  - apply initialState_ok. lia.
  - split; cbn; lra.
  - events_ok.
  - exists st'. split; [exact Hrun|]. split; [exact Hv|]. apply Hsol.
    + intro k. destruct k; cbn; split; lra.
    + events_ok.
    + split; [cbn; lra|]. split; [cbn; lra|]. intros g Hg. discriminate.
Defined.


(** Three ticks, one of them before the start: the day goes from 1 to 3. *)
Lemma day_counts_ticks_witness :
  let st0 := Extended.initialState 2000 3 ["basics"%string] in
  let events := [Run.Tick Demo.rnd; Run.Start true 3; Run.Tick Demo.rnd;
                 Run.SelectTool BuildingType.Residential; Run.Click 1 1 "t1" 0;
                 Run.Tick Demo.rnd] in
  exists st',
    Run.run Demo.BUILDINGS Demo.TECH_TREE Demo.POP_FOOD_CONSUMPTION
            Demo.POP_O2_CONSUMPTION Demo.POP_CO2_PRODUCTION Demo.cos Demo.sin
            Demo.PI st0 events = Some st'
    /\ Extended.day (Extended.stats st') == 3.
Proof.
  intros st0 events.
  destruct (day_counts_ticks Demo.BUILDINGS Demo.TECH_TREE
              Demo.POP_FOOD_CONSUMPTION Demo.POP_O2_CONSUMPTION
              Demo.POP_CO2_PRODUCTION Demo.cos Demo.sin Demo.PI events st0)
    as (st' & Hrun & Hday).
  - apply initialState_ok. lia.
  - events_ok.
  - exists st'. split; [exact Hrun|]. rewrite Hday. vm_compute. reflexivity.
Defined.

(** ** Research: what is unlocked, and the panel *)

Lemma includes_In (l : list BuildingType.t) (b : BuildingType.t) :
  includes l b = true <-> In b l.
Proof.
  unfold includes. rewrite existsb_exists. split.
  - intros (c & Hin & Heq). apply eqb_eq_kind in Heq. subst. exact Hin.
  - intro Hin. exists b. split; [exact Hin | apply eqb_refl_kind].
Qed.

Lemma includes_false (l : list BuildingType.t) (b : BuildingType.t) :
  includes l b = false <-> ~ In b l.
Proof.
  rewrite <- includes_In. destruct (includes l b); split; congruence.
Qed.

Lemma setAdd_In (s : list BuildingType.t) (b c : BuildingType.t) :
  In c (setAdd s b) <-> In c s \/ c = b.
Proof.
  unfold setAdd. destruct (includes s b) eqn:E.
  - apply includes_In in E. split; [tauto|]. intros [H| ->]; assumption.
  - rewrite in_app_iff. cbn [In]. split; [intros [H|[H|[]]]; auto | intros [H|H]; auto].
Qed.

Lemma setAdd_NoDup (s : list BuildingType.t) (b : BuildingType.t) :
  NoDup s -> NoDup (setAdd s b).
Proof.
  intro H. unfold setAdd. destruct (includes s b) eqn:E; [exact H|].
  apply includes_false in E.
  apply NoDup_app; [exact H | repeat constructor; intros [] |].
  intros c Hc [<-|[]]. exact (E Hc).
Qed.

Lemma fold_setAdd_In (l s : list BuildingType.t) (c : BuildingType.t) :
  In c (fold_left setAdd l s) <-> In c s \/ In c l.
Proof.
  revert s. induction l as [|b l IH]; intro s; cbn [fold_left In]; [tauto|].
  rewrite IH, setAdd_In. intuition congruence.
Qed.

Lemma fold_setAdd_NoDup (l s : list BuildingType.t) :
  NoDup s -> NoDup (fold_left setAdd l s).
Proof.
  revert s. induction l as [|b l IH]; intros s H; cbn [fold_left]; [exact H|].
  apply IH, setAdd_NoDup, H.
Qed.

Section Unlocked.
Variable TECH_TREE : list TechNode.t.

Lemma learnt_In (techs : list string) :
  forall acc b,
    In b (fold_left
            (fun acc techId =>
               match findTech TECH_TREE techId with
               | Some tech => fold_left setAdd (TechNode.unlocks tech) acc
               | None => acc
               end) techs acc)
    <-> In b acc
        \/ exists techId tech, In techId techs
                               /\ findTech TECH_TREE techId = Some tech
                               /\ In b (TechNode.unlocks tech).
Proof.
  induction techs as [|t techs IH]; intros acc b; cbn [fold_left].
  - split; [tauto|]. intros [H|(i & tech & [] & _)]. exact H.
  - rewrite IH. destruct (findTech TECH_TREE t) as [tech|] eqn:Ef.
    + rewrite fold_setAdd_In. split.
      * intros [[H|H]|(i & tc & Hi & Hf & Hb)].
        -- left. exact H.
        -- right. exists t, tech. cbn [In]. auto.
        -- right. exists i, tc. cbn [In]. auto.
      * intros [H|(i & tc & [->|Hi] & Hf & Hb)].
        -- left. left. exact H.
        -- left. right. congruence.
        -- right. exists i, tc. auto.
    + split.
      * intros [H|(i & tc & Hi & Hf & Hb)]; [left; exact H|].
        right. exists i, tc. cbn [In]. auto.
      * intros [H|(i & tc & [->|Hi] & Hf & Hb)]; [left; exact H | congruence |].
        right. exists i, tc. auto.
Qed.

Lemma learnt_NoDup (techs : list string) :
  forall acc,
    NoDup acc ->
    NoDup (fold_left
             (fun acc techId =>
                match findTech TECH_TREE techId with
                | Some tech => fold_left setAdd (TechNode.unlocks tech) acc
                | None => acc
                end) techs acc).
Proof.
  induction techs as [|t techs IH]; intros acc H; cbn [fold_left]; [exact H|].
  apply IH. destruct (findTech TECH_TREE t); [apply fold_setAdd_NoDup, H | exact H].
Qed.

(** X8.  What is unlocked.  The kinds that the toolbar offers and the
    click handler accepts are the bulldozer and the kinds listed by a
    researched id that names a node of the tree, each once; an id that
    names no node unlocks nothing, and no research ever removes a kind. *)
Theorem unlocked_kinds_characterised (techs : list string) :
  NoDup (unlockedBuildingsOf TECH_TREE techs)
  /\ (forall b,
        In b (unlockedBuildingsOf TECH_TREE techs)
        <-> b = BuildingType.None
            \/ exists techId tech, In techId techs
                                   /\ findTech TECH_TREE techId = Some tech
                                   /\ In b (TechNode.unlocks tech))
  /\ (forall more b,
        In b (unlockedBuildingsOf TECH_TREE techs) ->
        In b (unlockedBuildingsOf TECH_TREE (techs ++ more))).
Proof.
  unfold unlockedBuildingsOf. split; [|split].
  - apply learnt_NoDup. repeat constructor. intros [].
  - intro b. rewrite learnt_In. cbn [In]. intuition congruence.
  - intros more b. rewrite !learnt_In. intros [H|(i & tc & Hi & Hf & Hb)].
    + left. exact H.
    + right. exists i, tc. rewrite in_app_iff. auto.
Qed.
End Unlocked.

Lemma includesId_In (techs : list string) (id : string) :
  TechModal.includesId techs id = true <-> In id techs.
Proof.
  unfold TechModal.includesId. rewrite existsb_exists. split.
  - intros (i & Hin & Heq). apply String.eqb_eq in Heq. subst. exact Hin.
  - intro Hin. exists id. split; [exact Hin | apply String.eqb_refl].
Qed.

Lemma buttonShown_iff (techs : list string) (tech : TechNode.t) :
  TechModal.buttonShown techs tech = true
  <-> ~ In (TechNode.id tech) techs
      /\ forall pre, In pre (TechNode.prerequisites tech) -> In pre techs.
Proof.
  unfold TechModal.buttonShown, TechModal.isLocked, TechModal.canUnlock,
    TechModal.isUnlocked.
  destruct (TechModal.includesId techs (TechNode.id tech)) eqn:E; cbn [negb andb].
  - apply includesId_In in E. split; [discriminate | tauto].
  - rewrite negb_involutive, forallb_forall.
    assert (Hno : ~ In (TechNode.id tech) techs).
    { intro H. apply includesId_In in H. congruence. }
    split.
    + intro H. split; [exact Hno|]. intros pre Hpre. apply includesId_In, H, Hpre.
    + intros [_ H] pre Hpre. apply includesId_In, H, Hpre.
Qed.

Section Panel.
Variable TECH_TREE : list TechNode.t.

Lemma press_pressed (st : Extended.State) (tech : TechNode.t) (now : string) :
  findTech TECH_TREE (TechNode.id tech) = Some tech ->
  TechModal.buttonShown (Extended.unlockedTechs st) tech = true ->
  TechModal.buttonDisabled (Extended.science (Extended.stats st)) tech = false ->
  TechModal.press TECH_TREE st (tech, now)
  = Extended.pushNews
      (Extended.setUnlockedTechs
         (Extended.setStats st (Extended.debitScience (TechNode.cost tech)))
         (Extended.unlockedTechs st ++ [TechNode.id tech]))
      (NewsItem.mk now (String.append "Research Completed: " (TechNode.name tech))
                   positive)
  /\ TechNode.cost tech <= Extended.science (Extended.stats st).
Proof.
  intros Hf Hshown Hen. unfold TechModal.press. rewrite Hshown, Hen. cbn [negb andb].
  unfold TechModal.buttonDisabled in Hen. apply Qltb_ge in Hen.
  unfold Extended.handleUnlockTech. rewrite Hf, (proj2 (Qgeb_ge _ _) Hen).
  split; [reflexivity | exact Hen].
Qed.

Lemma press_keeps (st : Extended.State) (p : TechNode.t * string) :
  findTech TECH_TREE (TechNode.id (fst p)) = Some (fst p) ->
  NoDup (Extended.unlockedTechs st) ->
  prereqClosed TECH_TREE (Extended.unlockedTechs st) ->
  0 <= Extended.science (Extended.stats st) ->
  let st' := TechModal.press TECH_TREE st p in
  NoDup (Extended.unlockedTechs st')
  /\ prereqClosed TECH_TREE (Extended.unlockedTechs st')
  /\ 0 <= Extended.science (Extended.stats st')
  /\ (forall id, In id (Extended.unlockedTechs st) -> In id (Extended.unlockedTechs st')).
Proof.
  destruct p as [tech now]. cbn [fst]. intros Hf Hnd Hcl Hsci.
  destruct (TechModal.buttonShown (Extended.unlockedTechs st) tech
            && negb (TechModal.buttonDisabled (Extended.science (Extended.stats st)) tech))
    eqn:Epress.
  - apply andb_true_iff in Epress. destruct Epress as [Hshown Hen].
    apply negb_true_iff in Hen.
    destruct (press_pressed st tech now Hf Hshown Hen) as [Hst' Hcost].
    rewrite Hst'. cbn.
    apply buttonShown_iff in Hshown. destruct Hshown as [Hnew Hpre].
    split; [|split; [|split]].
    + apply NoDup_app; [exact Hnd | repeat constructor; intros [] |].
      intros i Hi [<-|[]]. exact (Hnew Hi).
    + intros id tc pre Hid Hfid Hp. rewrite in_app_iff in *. left.
      destruct Hid as [Hid|[<-|[]]].
      * eapply Hcl; eassumption.
      * assert (tc = tech) by congruence. subst tc. apply Hpre, Hp.
    + lra.
    + intros id Hid. rewrite in_app_iff. left. exact Hid.
  - unfold TechModal.press. rewrite Epress. auto.
Qed.

(** X9.  Research through the panel is orderly.  The press of a Research
    button that is shown and enabled always succeeds: the cost is debited
    from science that covers it, the id is appended, the notice is
    positive, and the button of that node is gone.  Over any sequence of
    presses, on nodes that [find] retrieves by their id, no id is
    researched twice, no node is researched before its prerequisites,
    science is never overdrawn, and nothing researched is lost. *)
Theorem panel_research_is_orderly :
  (forall (st : Extended.State) (tech : TechNode.t) (now : string),
      findTech TECH_TREE (TechNode.id tech) = Some tech ->
      TechModal.buttonShown (Extended.unlockedTechs st) tech = true ->
      TechModal.buttonDisabled (Extended.science (Extended.stats st)) tech = false ->
      let st' := TechModal.press TECH_TREE st (tech, now) in
      Extended.unlockedTechs st' = Extended.unlockedTechs st ++ [TechNode.id tech]
      /\ Extended.stats st'
         = Extended.debitScience (TechNode.cost tech) (Extended.stats st)
      /\ 0 <= Extended.science (Extended.stats st')
      /\ TechModal.buttonShown (Extended.unlockedTechs st') tech = false
      /\ exists item, Extended.newsFeed st' = addNewsItem (Extended.newsFeed st) item
                      /\ NewsItem.type item = positive) /\
  (forall (presses : list (TechNode.t * string)) (st : Extended.State),
      (forall p, In p presses ->
                 findTech TECH_TREE (TechNode.id (fst p)) = Some (fst p)) ->
      NoDup (Extended.unlockedTechs st) ->
      prereqClosed TECH_TREE (Extended.unlockedTechs st) ->
      0 <= Extended.science (Extended.stats st) ->
      let st' := fold_left (TechModal.press TECH_TREE) presses st in
      NoDup (Extended.unlockedTechs st')
      /\ prereqClosed TECH_TREE (Extended.unlockedTechs st')
      /\ 0 <= Extended.science (Extended.stats st')
      /\ (forall id, In id (Extended.unlockedTechs st) ->
                     In id (Extended.unlockedTechs st'))).
Proof.
  split.
  - intros st tech now Hf Hshown Hen st'.
    destruct (press_pressed st tech now Hf Hshown Hen) as [Hst' Hcost].
    subst st'. rewrite Hst'. cbn.
    split; [reflexivity|]. split; [reflexivity|]. split; [lra|]. split.
    + destruct (TechModal.buttonShown
                  (Extended.unlockedTechs st ++ [TechNode.id tech]) tech) eqn:E;
        [|reflexivity].
      apply buttonShown_iff in E. exfalso. apply (proj1 E).
      rewrite in_app_iff. right. left. reflexivity.
    + eexists. split; reflexivity.
  - induction presses as [|p presses IH]; intros st Hall Hnd Hcl Hsci; cbn [fold_left].
    + repeat split; auto.
    + destruct (press_keeps st p (Hall p (or_introl eq_refl)) Hnd Hcl Hsci)
        as (Hnd1 & Hcl1 & Hsci1 & Hmono1).
      destruct (IH (TechModal.press TECH_TREE st p)
                  (fun q Hq => Hall q (or_intror Hq)) Hnd1 Hcl1 Hsci1)
        as (Hnd' & Hcl' & Hsci' & Hmono').
      repeat split; auto.
Qed.
End Panel.

(** With "basics" researched and 50 science, "commerce" (20) is researched
    once: a second press, and a press on "fusion" (100), do nothing. *)
Lemma panel_research_is_orderly_witness :
  let basics := TechNode.mk "basics" "Colony Basics" 0
                  [BuildingType.Road; BuildingType.Residential; BuildingType.SolarPanel]
                  [] in
  let commerce := TechNode.mk "commerce" "Commerce" 20
                    [BuildingType.Commercial; BuildingType.Park] ["basics"%string] in
  let fusion := TechNode.mk "fusion" "Fusion Power" 100
                  [BuildingType.FusionReactor] ["commerce"%string] in
  let st := Extended.setStats
              (Demo.extState (Demo.emptyGrid (Some 0%Z) 3) 3 BuildingType.Road
                             (Demo.extStats 2000 0 100 400 100))
              (Extended.debitScience (-50)) in
  let st' := fold_left (TechModal.press Demo.TECH_TREE)
               [(commerce, "t1"); (commerce, "t2"); (fusion, "t3")]%string st in
  Extended.unlockedTechs st' = ["basics"; "commerce"]%string
  /\ Extended.science (Extended.stats st') == 30
  /\ NoDup (Extended.unlockedTechs st')
  /\ prereqClosed Demo.TECH_TREE (Extended.unlockedTechs st').
Proof.
  intros basics commerce fusion st st'.
  split; [reflexivity|]. split; [vm_compute; reflexivity|].
  destruct (panel_research_is_orderly Demo.TECH_TREE) as [_ Hseq].
  destruct (Hseq [(commerce, "t1"); (commerce, "t2"); (fusion, "t3")]%string st)
    as (Hnd & Hcl & _ & _).
  - intros p [<-|[<-|[<-|[]]]]; reflexivity.
  - repeat constructor. intros [].
  - intros id tech pre [<-|[]] Hf Hpre. vm_compute in Hf. injection Hf as <-.
    destruct Hpre.
  - vm_compute. discriminate.
  - split; assumption.
Defined.

(** ** What the extended auto-builder chooses *)

Ltac priorities_done Hnc :=
  repeat match goal with |- _ /\ _ => split end;
  try discriminate;
  try (let Hc := fresh "Hc" in intro Hc; exfalso; exact (Hnc Hc)).

Lemma chooseTarget_priorities (rnd : nat -> Q) (available : list BuildingType.t)
      (cs : Extended.CityStats) (g : Grid) (kind : BuildingType.t) (c : nat) :
  Extended.chooseTarget rnd available cs g = (Some kind, c) ->
  kind <> BuildingType.None /\ kind <> BuildingType.Road
  /\ (lifeSupportCritical cs ->
      kind = BuildingType.Agriculture
      \/ (kind = BuildingType.Park
          /\ includes available BuildingType.Agriculture = false))
  /\ (kind = BuildingType.FusionReactor -> 3500 < Extended.money cs)
  /\ (kind = BuildingType.ResearchLab -> 2000 < Extended.money cs)
  /\ (kind = BuildingType.GreenRoad -> 0.7 < rnd 0%nat).
Proof.
  unfold Extended.chooseTarget.
  destruct (Qltb (Extended.oxygen cs) 80
            || Qltb (Extended.food cs) (Extended.population cs * 2)) eqn:Ecrit.
  { destruct (includes available BuildingType.Agriculture) eqn:E1.
    - intro H; injection H as <- _.
      repeat match goal with |- _ /\ _ => split end; try discriminate.
      intros _. left. reflexivity.
    - destruct (includes available BuildingType.Park) eqn:E2; [|discriminate].
      intro H; injection H as <- _.
      repeat match goal with |- _ /\ _ => split end; try discriminate.
      intros _. right. split; reflexivity. }
  assert (Hnc : ~ lifeSupportCritical cs).
  { apply orb_false_iff in Ecrit. destruct Ecrit as [Eo Ef].
    apply Qltb_ge in Eo. apply Qltb_ge in Ef.
    intros [Hq|Hq]; lra. }
  destruct (Qgtb _ 0.85).
  { destruct (includes available BuildingType.FusionReactor) eqn:E1; cbn [andb].
    - destruct (Qgtb (Extended.money cs) 3500) eqn:Em.
      + intro H; injection H as <- _. priorities_done Hnc.
        intros _. apply Qgtb_gt, Em.
      + destruct (includes available BuildingType.SolarPanel); [|discriminate].
        intro H; injection H as <- _. priorities_done Hnc.
    - destruct (includes available BuildingType.SolarPanel); [|discriminate].
      intro H; injection H as <- _. priorities_done Hnc. }
  destruct (Qgtb _ 0.9).
  { destruct (includes available BuildingType.Residential); [|discriminate].
    intro H; injection H as <- _. priorities_done Hnc. }
  cbv zeta.
  match goal with
  | |- (if ?c then _ else _) = _ -> _ => destruct c
  end; [|discriminate].
  intro H. injection H as H _.
  unfold index in H. destruct (_ <? 0)%Z; [discriminate|].
  apply nth_error_In in H.
  repeat (apply in_app_or in H; destruct H as [H|H]);
    match type of H with
    | In _ (if ?c then _ else _) =>
        destruct c eqn:E; [|contradiction];
        destruct H as [<-|[]]
    end;
    priorities_done Hnc.
  - intros _. apply andb_true_iff in E. apply Qgtb_gt, E.
  - intros _. apply andb_true_iff in E. apply Qgtb_gt, E.
Qed.

Section AutoBuilderChoice.
Variable BUILDINGS : BuildingType.t -> BuildingConfig.t.
Variable TECH_TREE : list TechNode.t.
Variables cos sin : Q -> Q.
Variable PI : Q.

Lemma ext_autoBuild_choice (rnd : nat -> Q) (st st' : Extended.State) :
  Extended.attemptAutoBuild BUILDINGS TECH_TREE cos sin PI rnd st = Some st' ->
  st' <> st ->
  exists kind x y variant newGrid,
    Extended.placeFootprint BUILDINGS (Extended.grid st) kind x y variant
    = Some newGrid
    /\ st' = Extended.setStats (Extended.setGrid st newGrid)
                               (Extended.debit (BuildingConfig.cost (BUILDINGS kind)))
    /\ 300 <= Extended.money (Extended.stats st)
    /\ BuildingConfig.cost (BUILDINGS kind) <= Extended.money (Extended.stats st)
    /\ includes (Extended.unlockedBuildings TECH_TREE st) kind = true
    /\ kind <> BuildingType.None /\ kind <> BuildingType.Road
    /\ (lifeSupportCritical (Extended.stats st) ->
        kind = BuildingType.Agriculture
        \/ (kind = BuildingType.Park
            /\ includes (Extended.unlockedBuildings TECH_TREE st)
                        BuildingType.Agriculture = false))
    /\ (kind = BuildingType.FusionReactor -> 3500 < Extended.money (Extended.stats st))
    /\ (kind = BuildingType.ResearchLab -> 2000 < Extended.money (Extended.stats st)).
Proof.
  unfold Extended.attemptAutoBuild. intros H Hneq.
  destruct (Qltb _ 300) eqn:Ebuf; [congruence|]. apply Qltb_ge in Ebuf.
  destruct (Extended.chooseTarget _ _ _ _) as [[kind|] c1] eqn:Ect; [|congruence].
  destruct (Qltb _ _) eqn:Ec; [congruence|]. apply Qltb_ge in Ec.
  match type of H with
  | match ?e with _ => _ end = _ => destruct e as [[[startX startY] c2]|]
  end; [|discriminate].
  destruct (firstValid _ _ _) as [[[k [x y]]|]|]; try discriminate; [|congruence].
  destruct (Extended.placeFootprint _ _ _ _ _ _) as [g'|] eqn:Ep; [|discriminate].
  injection H as <-.
  pose proof (chooseTarget_unlocked _ _ _ _ _ _ Ect) as Hinc.
  destruct (chooseTarget_priorities _ _ _ _ _ _ Ect)
    as (Hk1 & Hk2 & Hcrit & Hfus & Hlab & _).
  exists kind, x, y, (Qfloor (rnd (c2 + 2 * Z.to_nat k + 2)%nat * 4)), g'.
  repeat match goal with |- _ /\ _ => split end; auto.
Qed.

Lemma basic_autoBuild_choice (rnd : nat -> Q) (st st' : Basic.State) :
  Basic.attemptAutoBuild BUILDINGS TECH_TREE rnd st = Some st' ->
  st' <> st ->
  exists kind x y newGrid,
    Basic.placeFootprint BUILDINGS (Basic.grid st) kind x y = Some newGrid
    /\ st' = Basic.setStats (Basic.setGrid st newGrid)
                            (Basic.debit (BuildingConfig.cost (BUILDINGS kind)))
    /\ 500 <= Basic.money (Basic.stats st)
    /\ BuildingConfig.cost (BUILDINGS kind) <= Basic.money (Basic.stats st)
    /\ includes (Basic.unlockedBuildings TECH_TREE st) kind = true
    /\ kind <> BuildingType.None /\ kind <> BuildingType.Road.
Proof.
  unfold Basic.attemptAutoBuild. intros H Hneq.
  destruct (Qltb _ 500) eqn:Ebuf; [congruence|]. apply Qltb_ge in Ebuf.
  destruct (_ =? 0)%nat; [congruence|].
  destruct (index _ _) as [kind|] eqn:Ek; [|discriminate].
  destruct (Qltb _ _) eqn:Ec; [congruence|]. apply Qltb_ge in Ec.
  destruct (firstValid _ _ _) as [[[k [x y]]|]|]; try discriminate; [|congruence].
  destruct (Basic.placeFootprint _ _ _ _ _) as [g'|] eqn:Ep; [|discriminate].
  injection H as <-.
  apply filter_In_kind in Ek. destruct Ek as [Hinc Hf].
  apply andb_true_iff in Hf. destruct Hf as [Hf1 Hf2].
  apply negb_true_iff in Hf1. apply negb_true_iff in Hf2.
  exists kind, x, y, g'.
  split; [exact Ep|]. split; [reflexivity|]. split; [exact Ebuf|].
  split; [exact Ec|]. split; [exact Hinc|].
  split; intro Hk; subst kind; cbn in *; discriminate.
Qed.

(** X10.  What the auto-builder builds.  Whenever a call changes the
    state, it has placed one building and paid its cost, from a purse
    that holds the reserve (300 credits in the extended variant, 500 in
    the basic one) and covers the cost; the kind is unlocked and is never
    the bulldozer or a plain corridor.  In the extended variant, while
    life support is critical (oxygen below 80, or food below two rations
    per head) the kind is hydroponics, or a bio-dome when hydroponics is
    not unlocked; a fusion reactor is built only with more than 3500
    credits and a laboratory only with more than 2000. *)
Theorem auto_builder_priorities :
  (forall (rnd : nat -> Q) (st st' : Extended.State),
      Extended.attemptAutoBuild BUILDINGS TECH_TREE cos sin PI rnd st = Some st' ->
      st' <> st ->
      exists kind x y variant newGrid,
        Extended.placeFootprint BUILDINGS (Extended.grid st) kind x y variant
        = Some newGrid
        /\ st' = Extended.setStats (Extended.setGrid st newGrid)
                   (Extended.debit (BuildingConfig.cost (BUILDINGS kind)))
        /\ 300 <= Extended.money (Extended.stats st)
        /\ BuildingConfig.cost (BUILDINGS kind) <= Extended.money (Extended.stats st)
        /\ includes (Extended.unlockedBuildings TECH_TREE st) kind = true
        /\ kind <> BuildingType.None /\ kind <> BuildingType.Road
        /\ (lifeSupportCritical (Extended.stats st) ->
            kind = BuildingType.Agriculture
            \/ (kind = BuildingType.Park
                /\ includes (Extended.unlockedBuildings TECH_TREE st)
                            BuildingType.Agriculture = false))
        /\ (kind = BuildingType.FusionReactor ->
            3500 < Extended.money (Extended.stats st))
        /\ (kind = BuildingType.ResearchLab ->
            2000 < Extended.money (Extended.stats st))) /\
  (forall (rnd : nat -> Q) (st st' : Basic.State),
      Basic.attemptAutoBuild BUILDINGS TECH_TREE rnd st = Some st' ->
      st' <> st ->
      exists kind x y newGrid,
        Basic.placeFootprint BUILDINGS (Basic.grid st) kind x y = Some newGrid
        /\ st' = Basic.setStats (Basic.setGrid st newGrid)
                                (Basic.debit (BuildingConfig.cost (BUILDINGS kind)))
        /\ 500 <= Basic.money (Basic.stats st)
        /\ BuildingConfig.cost (BUILDINGS kind) <= Basic.money (Basic.stats st)
        /\ includes (Basic.unlockedBuildings TECH_TREE st) kind = true
        /\ kind <> BuildingType.None /\ kind <> BuildingType.Road).
Proof.
  split.
  - intros rnd st st'. apply ext_autoBuild_choice.
  - intros rnd st st'. apply basic_autoBuild_choice.
Qed.
End AutoBuilderChoice.

(** With oxygen at 50 and hydroponics unlocked, on an empty level 5 x 5
    map with 2000 credits: a hydroponics bay (200 credits) is built. *)
Lemma auto_builder_priorities_witness :
  let tech := [TechNode.mk "bio" "Bio" 0
                 [BuildingType.Agriculture; BuildingType.Park;
                  BuildingType.Commercial] []]%string in
  let st := Extended.setUnlockedTechs
              (Demo.extState (Demo.emptyGrid (Some 0%Z) 5) 5 BuildingType.Road
                             (Demo.extStats 2000 0 50 400 100))
              ["bio"%string] in
  let rnd := fun _ : nat => 0 in
  exists st',
    Extended.attemptAutoBuild Demo.BUILDINGS tech Demo.cos Demo.sin Demo.PI rnd st
    = Some st'
    /\ Extended.money (Extended.stats st') == 1800
    /\ exists x y t, tileAt (Extended.grid st') x y = Some t
                     /\ TileData.buildingType t = BuildingType.Agriculture.
Proof.
  intros tech st rnd.
  destruct (Extended.attemptAutoBuild Demo.BUILDINGS tech Demo.cos Demo.sin Demo.PI
              rnd st) as [st'|] eqn:E; [|vm_compute in E; discriminate].
  exists st'. split; [reflexivity|].
  destruct (auto_builder_priorities Demo.BUILDINGS tech Demo.cos Demo.sin Demo.PI)
    as [HE _].
  destruct (HE rnd st st' E) as (kind & x & y & v & g' & Hp & Hst' & _ & _ & _ & _
                                 & _ & Hcrit & _).
  - vm_compute in E. injection E as <-. intro H.
    apply (f_equal (fun s => Qnum (Extended.money (Extended.stats s)))) in H.
    vm_compute in H. discriminate.
  - destruct Hcrit as [Hk|[_ Hk]].
    + left. vm_compute. reflexivity.
    + split.
      * vm_compute in E. injection E as <-. vm_compute. reflexivity.
      * vm_compute in E. injection E as <-.
        exists 3%Z, 2%Z. eexists. split; [vm_compute; reflexivity | reflexivity].
    + vm_compute in Hk. discriminate.
Defined.

(** ** The placement preview and the click handler *)

Lemma forEach_negb (l : list Z) (body body' : Z -> bool -> option bool) :
  (forall i s, body' i (negb s) = option_map negb (body i s)) ->
  forall s, forEach l body' (negb s) = option_map negb (forEach l body s).
Proof.
  intro Hb. induction l as [|i l IH]; intro s; cbn [forEach]; [reflexivity|].
  rewrite Hb. destruct (body i s) as [s1|]; cbn [option_map]; [apply IH | reflexivity].
Qed.

Lemma previewScan_scan (g : Grid) (w h x y : Z) (base : option Z) :
  IsoMap.previewScan g w h x y base
  = option_map negb (forFootprint w h (scanBody (badForAutoE base) g x y) false).
Proof.
  unfold IsoMap.previewScan, forFootprint. change true with (negb false).
  apply forEach_negb. intros i s. apply forEach_negb. intros j s'.
  unfold scanBody, badForAutoE, occupiedTile, unevenTile.
  destruct (tileAt g (x + i) (y + j)) as [t|]; [|reflexivity]. cbn [option_map].
  destruct s', (isNone (TileData.buildingType t)),
    (optZ_eqb (TileData.height t) base); reflexivity.
Qed.

Section Preview.
Variable BUILDINGS : BuildingType.t -> BuildingConfig.t.
Variable TECH_TREE : list TechNode.t.

Lemma preview_verdict (n : Z) (g : Grid) (tool : BuildingType.t) (x y : Z) :
  let w := BuildingConfig.width (BUILDINGS tool) in
  let h := BuildingConfig.height (BUILDINGS tool) in
  wfGrid n g -> inMap n x y -> tool <> BuildingType.None ->
  exists b,
    IsoMap.isValid BUILDINGS g tool n (Some (x, y)) = Some b
    /\ Extended.siteValid g n (BUILDINGS tool) (x, y) = Some b
    /\ (b = true <->
        (x + w <= n)%Z /\ (y + h <= n)%Z
        /\ footprintEmpty g w h x y /\ footprintLevel g w h x y).
Proof.
  intros w h Hwf Hmap Htool.
  unfold IsoMap.isValid, Extended.siteValid. cbv zeta. fold w h.
  rewrite (proj2 (eqb_neq_kind _ _) Htool). cbn [negb].
  assert (Hin0 : ((x <? 0) || (y <? 0) || (x >=? n) || (y >=? n))%Z = false).
  { destruct Hmap as [Hx Hy].
    rewrite !Z.geb_leb, !orb_false_iff, !Z.ltb_ge, !Z.leb_gt. lia. }
  rewrite Hin0.
  destruct ((x + w >? n) || (y + h >? n))%Z eqn:Eb.
  - exists false. split; [reflexivity|]. split; [reflexivity|].
    split; [discriminate|]. intros (Hx & Hy & _).
    assert (Hf : ((x + w >? n) || (y + h >? n))%Z = false)
      by (apply bounds_test_false; split; assumption).
    congruence.
  - apply bounds_test_false in Eb.
    assert (Hin : footprintInside n w h x y) by (split; assumption).
    destruct (tileAt_total _ _ _ _ Hwf Hmap) as [corner Hcorner].
    rewrite Hcorner, previewScan_scan, ext_scanOccupied_scan.
    destruct (scan_verdict n g w h x y Hwf Hin (badForAutoE (TileData.height corner)))
      as (b & Hb & Hiff).
    rewrite Hb. cbn [option_map]. exists (negb b).
    split; [reflexivity|]. split; [reflexivity|].
    rewrite negb_true_iff, Hiff. split.
    + intro Hall. split; [apply Eb|]. split; [apply Eb|]. split.
      * intros i j Hi Hj. destruct (Hall i j Hi Hj) as (t & Ht & Hbad).
        apply badForAutoE_false in Hbad. exists t. split; [exact Ht | apply Hbad].
      * exists corner. split; [exact Hcorner|].
        intros i j Hi Hj. destruct (Hall i j Hi Hj) as (t & Ht & Hbad).
        apply badForAutoE_false in Hbad. exists t. split; [exact Ht | apply Hbad].
    + intros (_ & _ & Hempty & (corner' & Hc' & Hlevel)) i j Hi Hj.
      assert (corner' = corner) by congruence. subst corner'.
      destruct (Hempty i j Hi Hj) as (t & Ht & Hk).
      destruct (Hlevel i j Hi Hj) as (t' & Ht' & Hh).
      assert (t' = t) by congruence. subst t'.
      exists t. split; [exact Ht|]. apply badForAutoE_false. split; assumption.
Qed.

(** X11.  The placement preview.  For a building tool over a tile of the
    map, the preview of [IsoMap] returns, with the verdict of the site
    check of the auto-builder: valid exactly when the footprint lies on
    the map over tiles that are empty and level with the hovered one.
    What it shows as valid the click handler carries out, for an unlocked
    tool and money that covers the cost. *)
Theorem preview_sound_for_click :
  (forall (n : Z) (g : Grid) (tool : BuildingType.t) (x y : Z),
      let w := BuildingConfig.width (BUILDINGS tool) in
      let h := BuildingConfig.height (BUILDINGS tool) in
      wfGrid n g -> inMap n x y -> tool <> BuildingType.None ->
      exists b,
        IsoMap.isValid BUILDINGS g tool n (Some (x, y)) = Some b
        /\ Extended.siteValid g n (BUILDINGS tool) (x, y) = Some b
        /\ (b = true <->
            (x + w <= n)%Z /\ (y + h <= n)%Z
            /\ footprintEmpty g w h x y /\ footprintLevel g w h x y)) /\
  (forall (st : Extended.State) (x y : Z) (now : string) (variant : Z),
      let tool := Extended.selectedTool st in
      let cfg := BUILDINGS tool in
      Extended.gameStarted st = true ->
      Extended.viewMode st <> Extended.moon ->
      wfGrid (Extended.mapSize st) (Extended.grid st) ->
      inMap (Extended.mapSize st) x y ->
      tool <> BuildingType.None ->
      IsoMap.isValid BUILDINGS (Extended.grid st) tool (Extended.mapSize st)
                     (Some (x, y)) = Some true ->
      includes (Extended.unlockedBuildings TECH_TREE st) tool = true ->
      BuildingConfig.cost cfg <= Extended.money (Extended.stats st) ->
      exists newGrid,
        Extended.handleTileClick BUILDINGS TECH_TREE st x y now variant
        = Some (Extended.setGrid
                  (Extended.setStats st (Extended.debit (BuildingConfig.cost cfg)))
                  newGrid)).
Proof.
  split.
  - intros n g tool x y w h. apply preview_verdict.
  - intros st x y now variant tool cfg Hstart Hview Hwf Hmap Htool Hvalid Hinc Hm.
    destruct (preview_verdict (Extended.mapSize st) (Extended.grid st) tool x y
                Hwf Hmap Htool) as (b & Hb & _ & Hiff).
    assert (b = true) by congruence. subst b.
    destruct (proj1 Hiff eq_refl) as (Hx & Hy & Hempty & (corner & Hcorner & Hlevel)).
    destruct (ext_click_places BUILDINGS TECH_TREE st x y now variant Hstart Hview
                Hwf Htool Hinc) as (newGrid & Hrun & _).
    + split; [exact Hmap|]. split; assumption.
    + exists corner. split; [exact Hcorner|]. intros i j Hi Hj.
      destruct (Hempty i j Hi Hj) as (t & Ht & Hk).
      destruct (Hlevel i j Hi Hj) as (t' & Ht' & Hh).
      assert (t' = t) by congruence. subst t'.
      exists t. split; [exact Ht|]. split; [left; exact Hk | exact Hh].
    + exact Hm.
    + exists newGrid. exact Hrun.
Qed.
End Preview.

(** A solar array (120 credits) hovered over the free tile (2, 0) of the
    small base is shown as valid, and the click builds it; over the
    habitation module at (0, 0) it is shown as invalid. *)
Lemma preview_sound_for_click_witness :
  let st := Demo.extState (Demo.smallBase (Some 0%Z)) 3 BuildingType.SolarPanel
                          (Demo.extStats 2000 0 100 400 100) in
  IsoMap.isValid Demo.BUILDINGS (Extended.grid st) BuildingType.SolarPanel 3
                 (Some (0, 0)%Z) = Some false
  /\ IsoMap.isValid Demo.BUILDINGS (Extended.grid st) BuildingType.SolarPanel 3
                    (Some (2, 0)%Z) = Some true
  /\ exists newGrid,
       Extended.handleTileClick Demo.BUILDINGS Demo.TECH_TREE st 2 0 "t" 1
       = Some (Extended.setGrid (Extended.setStats st (Extended.debit 120)) newGrid).
Proof.
  intro st. split; [reflexivity|]. split; [reflexivity|].
  destruct (preview_sound_for_click Demo.BUILDINGS Demo.TECH_TREE) as [_ Hclick].
  apply (Hclick st 2%Z 0%Z "t"%string 1%Z).
  - reflexivity.
  - discriminate.
  - split; [reflexivity|]. repeat constructor.
  - vm_compute. repeat split; congruence.
  - discriminate.
  - reflexivity.
  - reflexivity.
  - vm_compute. discriminate.
Defined.

(** ** The goal service *)

Lemma floor_gt (q : Q) : q - 1 < floor q.
Proof.
  unfold floor. pose proof (Qlt_floor q) as H.
  rewrite inject_Z_plus in H. change (inject_Z 1) with 1 in H. lra.
Qed.

(** X12.  The fallback goals.  With [Math.random] in [0,1), the table
    lookup of [getFallbackGoal] succeeds; the goal it returns is open (not
    completed), pays a positive reward, and can be checked by the tick: a
    building-count goal names its kind.  A goal on credits, crew or
    science is scaled to the current stats and, for stats that are not
    negative, lies strictly above them: the tick's check does not hold on
    the stats it was made from. *)
Theorem fallback_goal_is_sound (r : Q) (stats : Extended.CityStats) :
  0 <= r -> r < 1 ->
  exists goal,
    GoalService.getFallbackGoal r stats = Some goal
    /\ AIGoal.completed goal = false
    /\ 0 < AIGoal.reward goal
    /\ (forall money pop sci counts,
          goalMetric goal money pop sci counts <> None)
    /\ (0 <= Extended.money stats -> 0 <= Extended.population stats ->
        0 <= Extended.science stats ->
        AIGoal.targetType goal <> building_count_t ->
        forall counts,
          isMet goal (Extended.money stats) (Extended.population stats)
                (Extended.science stats) counts = false).
Proof.
  intros Hr0 Hr1. unfold GoalService.getFallbackGoal.
  pose proof (Qfloor_index_range r 6 Hr0 Hr1 ltac:(lia)) as Hk.
  change (inject_Z (Z.of_nat (length GoalService.FALLBACK_GOALS)))
    with (inject_Z 6).
  pose proof (floor_gt (Extended.money stats * 1.5)) as Hm.
  pose proof (floor_gt (Extended.population stats * 1.2)) as Hp.
  pose proof (floor_gt (Extended.science stats * 1.2)) as Hs.
  assert (Hcases : (Qfloor (r * inject_Z 6) = 0 \/ Qfloor (r * inject_Z 6) = 1
                    \/ Qfloor (r * inject_Z 6) = 2 \/ Qfloor (r * inject_Z 6) = 3
                    \/ Qfloor (r * inject_Z 6) = 4 \/ Qfloor (r * inject_Z 6) = 5)%Z)
    by lia.
  destruct Hcases as [E|[E|[E|[E|[E|E]]]]]; rewrite E; cbn;
    (eexists; split; [reflexivity|]; cbn;
     split; [reflexivity|]; split; [reflexivity|];
     split; [intros; discriminate|];
     intros H0 H1 H2 Hty counts;
     try (exfalso; apply Hty; reflexivity);
     unfold isMet; cbn; apply Qgeb_lt; lra).
Qed.

Lemma fallback_goal_is_sound_witness :
  exists goal,
    GoalService.getFallbackGoal 0.2 (Demo.extStats 2000 10 100 400 100) = Some goal
    /\ AIGoal.targetValue goal == 4000
    /\ isMet goal 2000 10 0 (fun _ => 0%Z) = false.
Proof.
  destruct (fallback_goal_is_sound 0.2 (Demo.extStats 2000 10 100 400 100))
    as (goal & Hg & _ & _ & _ & Hopen); [lra | lra |].
  exists goal. split; [exact Hg|].
  vm_compute in Hg. injection Hg as <-. split; [vm_compute; reflexivity|].
  apply (Hopen ltac:(cbn; lra) ltac:(cbn; lra) ltac:(cbn; lra) ltac:(discriminate)).
Defined.




(** ** Buildings are never overwritten *)

Section NeverOverwritten.
Variable BUILDINGS : BuildingType.t -> BuildingConfig.t.
Variable TECH_TREE : list TechNode.t.
Variables POP_FOOD_CONSUMPTION POP_O2_CONSUMPTION POP_CO2_PRODUCTION : Q.
Variables cos sin : Q -> Q.
Variable PI : Q.

Local Abbreviation step :=
  (Run.step BUILDINGS TECH_TREE POP_FOOD_CONSUMPTION POP_O2_CONSUMPTION
            POP_CO2_PRODUCTION cos sin PI).

(** What may happen to an occupied tile. *)
Let kept (old new : TileData.t) : Prop :=
  new = old
  \/ TileData.buildingType new = BuildingType.None
  \/ (TileData.buildingType old = BuildingType.Road
      /\ TileData.buildingType new = BuildingType.GreenRoad).

Lemma click_keeps_buildings (st st' : Extended.State) (x y : Z) (now : string)
      (variant : Z) :
  stateOk st ->
  Extended.handleTileClick BUILDINGS TECH_TREE st x y now variant = Some st' ->
  forall x' y' old new,
    tileAt (Extended.grid st) x' y' = Some old ->
    tileAt (Extended.grid st') x' y' = Some new ->
    TileData.buildingType old <> BuildingType.None ->
    kept old new.
Proof.
  intros (Hwf & Hok & _) H x' y' old new Hold Hnew Hocc.
  assert (Hsame : Extended.grid st' = Extended.grid st -> kept old new).
  { intro Hg. rewrite Hg in Hnew. left. congruence. }
  destruct (Extended.gameStarted st) eqn:Hstart;
    [|unfold Extended.handleTileClick in H; rewrite Hstart in H;
      injection H as <-; apply Hsame; reflexivity].
  destruct (Extended.isMoon (Extended.viewMode st)) eqn:Hview;
    [unfold Extended.handleTileClick in H; rewrite Hstart, Hview in H;
     injection H as <-; apply Hsame; reflexivity|].
  apply isMoon_false in Hview.
  destruct ((x <? 0) || (x >=? Extended.mapSize st) || (y <? 0)
            || (y >=? Extended.mapSize st))%Z eqn:Eclick.
  { unfold Extended.handleTileClick in H.
    rewrite Hstart, (proj2 (isMoon_false _) Hview) in H. cbn [negb orb] in H.
    cbv zeta in H. rewrite Eclick in H. injection H as <-. apply Hsame; reflexivity. }
  apply click_test_false in Eclick.
  destruct (tileAt_total _ _ _ _ Hwf Eclick) as [clicked Hclicked].
  destruct (BuildingType.eq_dec (Extended.selectedTool st) BuildingType.None)
    as [Htool|Htool].
  - (* bulldozer *)
    destruct (BuildingType.eq_dec (TileData.buildingType clicked) BuildingType.None)
      as [Hempty|Hbuilt].
    + unfold Extended.handleTileClick in H.
      rewrite Hstart, (proj2 (isMoon_false _) Hview) in H. cbn [negb orb] in H.
      cbv zeta in H. rewrite (proj2 (click_test_false _ _ _) Eclick) in H.
      destruct (tileAt_row _ _ _ _ Hclicked) as (row & Erow & Ecell).
      rewrite Erow, Htool, eqb_refl_kind, Ecell in H.
      rewrite (proj2 (isNone_eq _) Hempty) in H. cbn [negb] in H.
      injection H as <-. apply Hsame; reflexivity.
    + destruct (Qlt_le_dec (Extended.money (Extended.stats st)) 50) as [Hpoor|Hrich].
      * destruct (ext_rejection BUILDINGS TECH_TREE st x y now variant Hstart Hview
                    Hwf Eclick) as (item & Hrun & _).
        { left. split; [exact Htool|]. split; [|exact Hpoor].
          exists clicked. split; assumption. }
        rewrite Hrun in H. injection H as <-. apply Hsame; reflexivity.
      * destruct (Hok x y clicked Hclicked) as (Hx & Hy & Hox & Hoy).
        destruct (ext_click_demolishes BUILDINGS TECH_TREE st x y now variant clicked
                    Hstart Hview Hwf Htool Hclicked Hbuilt)
          as (root & g' & _ & Hrun & _ & Hpt).
        { destruct Eclick as [Hcx Hcy]. split.
          - destruct (TileData.ownerX clicked) as [ox|]; [apply Hox; reflexivity | lia].
          - destruct (TileData.ownerY clicked) as [oy|]; [apply Hoy; reflexivity | lia]. }
        { exact Hrich. }
        rewrite Hrun in H. injection H as <-.
        cbn [Extended.grid Extended.setStats Extended.setGrid] in Hnew.
        specialize (Hpt x' y'). cbv zeta in Hpt. rewrite Hpt, Hold in Hnew.
        destruct (paintedb _ _ _ _ _ x' y'); cbn [option_map] in Hnew;
          injection Hnew as <-; [right; left; reflexivity | left; reflexivity].
  - (* a building tool *)
    set (cfg := BUILDINGS (Extended.selectedTool st)).
    assert (Hrejected :
              placementRejectedE cfg (Extended.unlockedBuildings TECH_TREE st)
                (Extended.money (Extended.stats st)) (Extended.grid st)
                (Extended.mapSize st) (Extended.selectedTool st) x y ->
              kept old new).
    { intro Hrej.
      destruct (ext_rejection BUILDINGS TECH_TREE st x y now variant Hstart Hview
                  Hwf Eclick (or_intror Hrej)) as (item & Hrun & _).
      rewrite Hrun in H. injection H as <-. apply Hsame; reflexivity. }
    destruct (includes (Extended.unlockedBuildings TECH_TREE st)
                       (Extended.selectedTool st)) eqn:Einc;
      [|apply Hrejected; split; [exact Htool | left; exact Einc]].
    destruct ((x + BuildingConfig.width cfg >? Extended.mapSize st)
              || (y + BuildingConfig.height cfg >? Extended.mapSize st))%Z eqn:Eb.
    { apply Hrejected. split; [exact Htool|]. right. left. intro Hin.
      apply bounds_test_false in Hin. congruence. }
    apply bounds_test_false in Eb.
    assert (Hin : footprintInside (Extended.mapSize st) (BuildingConfig.width cfg)
                    (BuildingConfig.height cfg) x y) by (split; assumption).
    destruct (ext_click_verdict _ _ _ _ _ _ Hwf Hin (Extended.selectedTool st)
                clicked Hclicked) as (b & _ & Hiff).
    destruct b.
    { apply Hrejected. split; [exact Htool|]. right. right. left. intro Hp.
      apply Hiff in Hp. discriminate. }
    pose proof (proj1 Hiff eq_refl) as Hplace.
    destruct (Qlt_le_dec (Extended.money (Extended.stats st)) (BuildingConfig.cost cfg))
      as [Hpoor|Hrich];
      [apply Hrejected; split; [exact Htool|]; right; right; right; exact Hpoor|].
    destruct (ext_click_places BUILDINGS TECH_TREE st x y now variant Hstart Hview Hwf
                Htool Einc Hin Hplace Hrich) as (g' & Hrun & _ & Hpt).
    rewrite Hrun in H. injection H as <-.
    cbn [Extended.grid Extended.setStats Extended.setGrid] in Hnew.
    rewrite Hpt, Hold in Hnew. fold cfg in Hnew.
    destruct (paintedb _ _ _ _ _ x' y') eqn:Ep; cbn [option_map] in Hnew;
      injection Hnew as <-; [|left; reflexivity].
    apply always_painted in Ep.
    destruct Hplace as (corner & _ & Hall).
    destruct (Hall (x' - x)%Z (y' - y)%Z) as (t & Ht & [Hk|[Hgreen Hroad]] & _);
      [lia | lia | | ];
      replace (x + (x' - x))%Z with x' in Ht by lia;
      replace (y + (y' - y))%Z with y' in Ht by lia;
      assert (t = old) by congruence; subst t.
    + contradiction.
    + right. right. split; [exact Hroad|]. cbn. exact Hgreen.
Qed.

Lemma autoBuild_keeps_buildings (rnd : nat -> Q) (st st1 : Extended.State) :
  stateOk st -> (forall k, 0 <= rnd k /\ rnd k < 1) ->
  Extended.attemptAutoBuild BUILDINGS TECH_TREE cos sin PI rnd st = Some st1 ->
  forall x' y' old new,
    tileAt (Extended.grid st) x' y' = Some old ->
    tileAt (Extended.grid st1) x' y' = Some new ->
    TileData.buildingType old <> BuildingType.None ->
    new = old.
Proof.
  intros (Hwf & _) Hrnd H x' y' old new Hold Hnew Hocc.
  destruct (ext_autoBuild_safe BUILDINGS TECH_TREE cos sin PI rnd st Hwf Hrnd)
    as (st1' & Hrun & Hcases).
  assert (st1' = st1) by congruence. subst st1'.
  destruct Hcases as [->|Hbuilt]; [congruence|].
  destruct Hbuilt as (kind & x & y & variant & newGrid & _ & _ & _ & Hempty & _ & _
                      & _ & _ & Hpt & -> & _).
  cbn [Extended.grid Extended.setStats Extended.setGrid] in Hnew.
  destruct (paintedb (fun _ _ => true) (BuildingConfig.width (BUILDINGS kind))
                     (BuildingConfig.height (BUILDINGS kind)) x y x' y') eqn:Ep.
  - apply always_painted in Ep. exfalso.
    destruct (Hempty (x' - x)%Z (y' - y)%Z) as (t & Ht & Hk); [lia | lia |].
    replace (x + (x' - x))%Z with x' in Ht by lia.
    replace (y + (y' - y))%Z with y' in Ht by lia.
    apply Hocc. congruence.
  - assert (Hno : ~ covers (BuildingConfig.width (BUILDINGS kind))
                      (BuildingConfig.height (BUILDINGS kind)) x y x' y').
    { intro Hc. apply always_painted in Hc. congruence. }
    rewrite (proj2 (Hpt x' y') Hno) in Hnew. congruence.
Qed.

(** X14.  Buildings are never overwritten.  Whatever event the extended
    variant processes in a state in order, a tile that was occupied is
    afterwards unchanged, or empty (demolition, or the fresh map of the
    start), or was a plain road and is now a green road: neither a click
    nor the auto-builder replaces a building by another one. *)
Theorem buildings_never_overwritten (st st' : Extended.State) (e : Run.Event) :
  stateOk st -> eventOk e -> step st e = Some st' ->
  forall x y old new,
    tileAt (Extended.grid st) x y = Some old ->
    tileAt (Extended.grid st') x y = Some new ->
    TileData.buildingType old <> BuildingType.None ->
    new = old
    \/ TileData.buildingType new = BuildingType.None
    \/ (TileData.buildingType old = BuildingType.Road
        /\ TileData.buildingType new = BuildingType.GreenRoad).
Proof.
  intros Hst He H x y old new Hold Hnew Hocc.
  assert (Hsame : Extended.grid st' = Extended.grid st -> kept old new).
  { intro Hg. rewrite Hg in Hnew. left. congruence. }
  destruct e; cbn [Run.step eventOk] in H, He.
  - destruct (Extended.gameStarted st); injection H as <-; [apply Hsame; reflexivity|].
    cbn [Extended.grid Extended.handleStart] in Hnew.
    apply createInitialGrid_tile in Hnew. subst new. right. left. reflexivity.
  - destruct (Extended.gameStarted st); [|injection H as <-; apply Hsame; reflexivity].
    unfold Extended.tick in H.
    destruct (Extended.autoGrowth st).
    + destruct (Extended.attemptAutoBuild _ _ _ _ _ _ _) as [st1|] eqn:E; [|discriminate].
      injection H as <-.
      cbn [Extended.grid Extended.setCurrentGoal Extended.setHistory Extended.setStats]
        in Hnew.
      left. eapply autoBuild_keeps_buildings; eassumption.
    + injection H as <-. apply Hsame; reflexivity.
  - eapply click_keeps_buildings; eassumption.
  - injection H as <-. apply Hsame; reflexivity.
  - injection H as <-. apply Hsame. unfold Extended.handleUnlockTech.
    destruct (findTech _ _); [|reflexivity]. destruct (Qgeb _ _); reflexivity.
  - injection H as <-. apply Hsame. unfold Extended.handleClaimReward.
    destruct (Extended.currentGoal st) as [goal|]; [|reflexivity].
    destruct (AIGoal.completed goal); reflexivity.
  - destruct (Extended.gameStarted st && Extended.aiEnabled st);
      injection H as <-; apply Hsame; reflexivity.
  - injection H as <-. apply Hsame; reflexivity.
  - injection H as <-. apply Hsame; reflexivity.
Qed.
End NeverOverwritten.

(** A solar array clicked onto the habitation module of the small base:
    the module stays. *)
Lemma buildings_never_overwritten_witness :
  let st := Demo.extState (Demo.smallBase (Some 0%Z)) 3 BuildingType.SolarPanel
                          (Demo.extStats 2000 0 100 400 100) in
  exists st',
    Run.step Demo.BUILDINGS Demo.TECH_TREE Demo.POP_FOOD_CONSUMPTION
             Demo.POP_O2_CONSUMPTION Demo.POP_CO2_PRODUCTION Demo.cos Demo.sin
             Demo.PI st (Run.Click 0 0 "t" 1) = Some st'
    /\ tileAt (Extended.grid st') 0 0
       = Some (Demo.single BuildingType.Residential (Some 0%Z) 0 0).
Proof.
  intro st.
  destruct (Run.step Demo.BUILDINGS Demo.TECH_TREE Demo.POP_FOOD_CONSUMPTION
              Demo.POP_O2_CONSUMPTION Demo.POP_CO2_PRODUCTION Demo.cos Demo.sin
              Demo.PI st (Run.Click 0 0 "t" 1)) as [st'|] eqn:E;
    [|vm_compute in E; discriminate].
  exists st'. split; [reflexivity|].
  destruct (tileAt (Extended.grid st') 0 0) as [new|] eqn:Enew;
    [|vm_compute in E; injection E as <-; vm_compute in Enew; discriminate].
  assert (Hst : stateOk st).
  { split; [split; [reflexivity | repeat constructor]|]. split.
    - intros x y t Ht.
      assert (Hmap : inMap 3 x y).
      { apply (tileAt_inMap 3 (Demo.smallBase (Some 0%Z)) x y t); [|exact Ht].
        split; [reflexivity | repeat constructor]. }
      destruct Hmap as [Hx Hy].
      assert (Hxs : (x = 0 \/ x = 1 \/ x = 2)%Z) by lia.
      assert (Hys : (y = 0 \/ y = 1 \/ y = 2)%Z) by lia.
      destruct Hxs as [->|[->| ->]], Hys as [->|[->| ->]];
        vm_compute in Ht; injection Ht as <-; cbn;
        (split; [reflexivity|]; split; [reflexivity|];
         split; intros o Ho; try discriminate; injection Ho as <-; lia).
    - intro Hg. exfalso. apply Hg. reflexivity. }
  destruct (buildings_never_overwritten Demo.BUILDINGS Demo.TECH_TREE
              Demo.POP_FOOD_CONSUMPTION Demo.POP_O2_CONSUMPTION
              Demo.POP_CO2_PRODUCTION Demo.cos Demo.sin Demo.PI
              st st' (Run.Click 0 0 "t" 1) Hst I E 0%Z 0%Z
              (Demo.single BuildingType.Residential (Some 0%Z) 0 0) new
              eq_refl Enew ltac:(discriminate)) as [->|[Hk|[Hk _]]].
  - reflexivity.
  - vm_compute in E. injection E as <-. vm_compute in Enew. injection Enew as <-.
    discriminate.
  - discriminate.
Defined.

(** ** The guide and the power penalty *)

Lemma isLowPower_iff (a : Agg.t) :
  aggSane a -> (isLowPower a = true <-> Agg.powerGen a < Agg.powerDrain a).
Proof.
  intros (Hg & Hd & _). unfold isLowPower, powerRatio.
  rewrite Qltb_lt.
  destruct (Qgtb (Agg.powerDrain a) 0) eqn:E.
  - apply Qgtb_gt in E.
    assert (Hnz : ~ Agg.powerDrain a == 0) by lra.
    rewrite Q.min_lt_iff.
    assert (Hdiv : Agg.powerGen a / Agg.powerDrain a < 1
                   <-> Agg.powerGen a < Agg.powerDrain a).
    { rewrite <- (Qmult_lt_r _ _ (Agg.powerDrain a) E).
      rewrite Qmult_comm, Qmult_div_r by exact Hnz.
      rewrite Qmult_1_l. reflexivity. }
    rewrite Hdiv. split; [intros [H|H]; [lra | exact H] | intro H; right; exact H].
  - apply Qgtb_le in E. split; intro H; lra.
Qed.

Lemma checkStatus_power (s : Extended.CityStats) :
  RoboGuide.checkStatus s = Some RoboGuide.PowerFailing
  <-> Extended.powerSupply s < Extended.powerDemand s
      /\ ~ (Extended.population s == 0 /\ Extended.day s < 5).
Proof.
  unfold RoboGuide.checkStatus.
  destruct (Qeq_bool (Extended.population s) 0) eqn:Ep; cbn [andb].
  - apply Qeq_bool_iff in Ep.
    destruct (Qltb (Extended.day s) 5) eqn:Ed.
    + apply Qltb_lt in Ed. split; [discriminate|]. intros [_ H]. exfalso. apply H.
      split; assumption.
    + apply Qltb_ge in Ed.
      destruct (Qgtb (Extended.powerDemand s) (Extended.powerSupply s)) eqn:Ew.
      * apply Qgtb_gt in Ew. split; [|reflexivity]. intros _.
        split; [exact Ew|]. intros [_ H]. lra.
      * apply Qgtb_le in Ew. split; [|intros [H _]; lra].
        destruct (Qltb (Extended.oxygen s) 50); [discriminate|].
        destruct (Qltb (Extended.food s) (Extended.population s)); [discriminate|].
        cbn. rewrite !andb_false_r. discriminate.
  - assert (Hp : ~ Extended.population s == 0).
    { intro H. apply Qeq_bool_iff in H. congruence. }
    destruct (Qgtb (Extended.powerDemand s) (Extended.powerSupply s)) eqn:Ew.
    + apply Qgtb_gt in Ew. split; [|reflexivity]. intros _.
      split; [exact Ew|]. intros [H _]. exact (Hp H).
    + apply Qgtb_le in Ew. split; [|intros [H _]; lra].
      destruct (Qltb (Extended.oxygen s) 50); [discriminate|].
      destruct (Qltb (Extended.food s) (Extended.population s)); [discriminate|].
      cbn. rewrite !andb_false_r. discriminate.
Qed.

Lemma checkStatus_no_funds (s : Extended.CityStats) :
  RoboGuide.checkStatus s <> Some RoboGuide.FundsLow
  /\ RoboGuide.checkStatus s <> Some RoboGuide.Bankruptcy.
Proof.
  unfold RoboGuide.checkStatus.
  destruct (_ && _); [split; discriminate|].
  destruct (Qgtb _ _); [split; discriminate|].
  destruct (Qltb _ 50); [split; discriminate|].
  destruct (Qltb _ _); [split; discriminate|].
  cbn. rewrite !andb_false_r. split; discriminate.
Qed.

Section Guide.
Variable BUILDINGS : BuildingType.t -> BuildingConfig.t.
Variable TECH_TREE : list TechNode.t.
Variables POP_FOOD_CONSUMPTION POP_O2_CONSUMPTION POP_CO2_PRODUCTION : Q.
Variables cos sin : Q -> Q.
Variable PI : Q.

(** X15.  The guide and the power penalty.  The tick applies its
    low-power penalty exactly when the power it reports as supply is
    below the power it reports as demand; on the stats of a tick, the
    guide's power alert is the message exactly when that tick was
    penalised and the welcome message (no crew, before day 5) does not
    take precedence.  The two messages about funds are never shown: they
    test a field that the stats do not have. *)
Theorem guide_alert_matches_penalty (rnd : nat -> Q) (st st' : Extended.State) :
  Extended.tick BUILDINGS TECH_TREE POP_FOOD_CONSUMPTION POP_O2_CONSUMPTION
                POP_CO2_PRODUCTION cos sin PI rnd st = Some st' ->
  let a := aggregate BUILDINGS (Extended.grid st) in
  let s' := Extended.stats st' in
  (isLowPower a = true <-> Extended.powerSupply s' < Extended.powerDemand s')
  /\ (RoboGuide.checkStatus s' = Some RoboGuide.PowerFailing
      <-> isLowPower a = true
          /\ ~ (Extended.population s' == 0 /\ Extended.day s' < 5))
  /\ RoboGuide.checkStatus s' <> Some RoboGuide.FundsLow
  /\ RoboGuide.checkStatus s' <> Some RoboGuide.Bankruptcy.
Proof.
  intros H a s'.
  destruct (ext_tick_stats BUILDINGS TECH_TREE POP_FOOD_CONSUMPTION
              POP_O2_CONSUMPTION POP_CO2_PRODUCTION cos sin PI rnd st st' H)
    as (prev & Hs & _).
  assert (Hsup : Extended.powerSupply s' = Agg.powerGen a
                 /\ Extended.powerDemand s' = Agg.powerDrain a).
  { subst s'. rewrite Hs. cbn. fold a. unfold Extended.powerPenalty.
    destruct (isLowPower a); split; reflexivity. }
  destruct Hsup as [Hsup Hdem].
  pose proof (isLowPower_iff a (aggregate_sane BUILDINGS (Extended.grid st))) as Hlow.
  split; [rewrite Hsup, Hdem; exact Hlow|].
  split; [|apply checkStatus_no_funds].
  rewrite checkStatus_power, Hsup, Hdem, Hlow. reflexivity.
Qed.
End Guide.

(** A habitation module (drain 5) without any generator, and a crew of
    10: the tick is penalised and the guide raises the power alert. *)
Lemma guide_alert_matches_penalty_witness :
  let g := [ [Demo.single BuildingType.Residential (Some 0%Z) 0 0;
              Demo.emptyTile (Some 0%Z) 1 0];
             Demo.emptyRow (Some 0%Z) 2 1 ] in
  let st := Demo.extState g 2 BuildingType.Road (Demo.extStats 2000 10 100 400 100) in
  exists st',
    Demo.extTick Demo.rnd st = Some st'
    /\ isLowPower (aggregate Demo.BUILDINGS g) = true
    /\ RoboGuide.checkStatus (Extended.stats st') = Some RoboGuide.PowerFailing.
Proof.
  intros g st.
  destruct (Demo.extTick Demo.rnd st) as [st'|] eqn:E; [|vm_compute in E; discriminate].
  exists st'. split; [reflexivity|]. split; [vm_compute; reflexivity|].
  destruct (guide_alert_matches_penalty Demo.BUILDINGS Demo.TECH_TREE
              Demo.POP_FOOD_CONSUMPTION Demo.POP_O2_CONSUMPTION
              Demo.POP_CO2_PRODUCTION Demo.cos Demo.sin Demo.PI Demo.rnd st st' E)
    as (_ & Hiff & _).
  apply Hiff. split; [vm_compute; reflexivity|].
  vm_compute in E. injection E as <-. intros [Hp _]. vm_compute in Hp. discriminate.
Defined.

(** ** The charts stay in their box *)

Section ChartBox.
Variable data : list Extended.CityStats.
Variable dataKeys : list (Extended.CityStats -> Q).

Let stepMax (d : Extended.CityStats) (max : Q) (k : Extended.CityStats -> Q) : Q :=
  if Qgtb (k d) max then k d else max.

Let stepMin (d : Extended.CityStats) (min : option Q) (k : Extended.CityStats -> Q)
  : option Q :=
  match min with
  | Some m => if Qltb (k d) m then Some (k d) else min
  | None => Some (k d)
  end.

Lemma max_inner (d : Extended.CityStats) (keys : list (Extended.CityStats -> Q)) :
  forall m,
    m <= fold_left (stepMax d) keys m
    /\ forall k, In k keys -> k d <= fold_left (stepMax d) keys m.
Proof.
  induction keys as [|k0 keys IH]; intro m; cbn [fold_left].
  - split; [lra | intros k []].
  - destruct (IH (stepMax d m k0)) as [Hle Hall].
    assert (Hstep : m <= stepMax d m k0 /\ k0 d <= stepMax d m k0).
    { unfold stepMax. cmp_cases; split; lra. }
    split; [lra|]. intros k [<-|Hk]; [lra | apply Hall, Hk].
Qed.

Lemma max_outer (ds : list Extended.CityStats) :
  forall m,
    let r := fold_left (fun max d => fold_left (stepMax d) dataKeys max) ds m in
    m <= r /\ forall d k, In d ds -> In k dataKeys -> k d <= r.
Proof.
  induction ds as [|d0 ds IH]; intro m; cbn [fold_left].
  - split; [lra | intros d k []].
  - destruct (IH (fold_left (stepMax d0) dataKeys m)) as [Hle Hall].
    destruct (max_inner d0 dataKeys m) as [Hle0 Hall0].
    split; [lra|]. intros d k [<-|Hd] Hk.
    + specialize (Hall0 k Hk). lra.
    + apply Hall; assumption.
Qed.

(** The running minimum is below what it was and below what it has seen. *)
Let below (r : option Q) (v : Q) : Prop := exists m, r = Some m /\ m <= v.

Lemma min_inner (d : Extended.CityStats) (keys : list (Extended.CityStats -> Q)) :
  forall mo,
    (forall v, below mo v -> below (fold_left (stepMin d) keys mo) v)
    /\ forall k, In k keys -> below (fold_left (stepMin d) keys mo) (k d).
Proof.
  induction keys as [|k0 keys IH]; intro mo; cbn [fold_left].
  - split; [intros v H; exact H | intros k []].
  - destruct (IH (stepMin d mo k0)) as [Hkeep Hall].
    assert (Hstep : (forall v, below mo v -> below (stepMin d mo k0) v)
                    /\ below (stepMin d mo k0) (k0 d)).
    { unfold stepMin, below. destruct mo as [m|].
      - destruct (Qltb (k0 d) m) eqn:E;
          [apply Qltb_lt in E | apply Qltb_ge in E]; split.
        + intros v (m' & Hm' & Hle). injection Hm' as <-. eexists. split; [reflexivity|lra].
        + eexists. split; [reflexivity | lra].
        + intros v H. exact H.
        + eexists. split; [reflexivity | exact E].
      - split; [intros v (m' & Hm' & _); discriminate|].
        eexists. split; [reflexivity | lra]. }
    destruct Hstep as [Hs1 Hs2].
    split; [intros v H; apply Hkeep, Hs1, H|].
    intros k [<-|Hk]; [apply Hkeep, Hs2 | apply Hall, Hk].
Qed.

Lemma min_outer (ds : list Extended.CityStats) :
  forall mo,
    let r := fold_left (fun min d => fold_left (stepMin d) dataKeys min) ds mo in
    (forall v, below mo v -> below r v)
    /\ forall d k, In d ds -> In k dataKeys -> below r (k d).
Proof.
  induction ds as [|d0 ds IH]; intro mo; cbn [fold_left].
  - split; [intros v H; exact H | intros d k []].
  - destruct (IH (fold_left (stepMin d0) dataKeys mo)) as [Hkeep Hall].
    destruct (min_inner d0 dataKeys mo) as [Hkeep0 Hall0].
    split; [intros v H; apply Hkeep, Hkeep0, H|].
    intros d k [<-|Hd] Hk; [apply Hkeep, Hall0, Hk | apply Hall; assumption].
Qed.

Lemma unit_interval_scaled (t lo span : Q) :
  0 <= t -> t <= 1 -> 0 <= span ->
  lo <= lo + t * span /\ lo + t * span <= lo + span.
Proof. intros. split; nra. Qed.

(** X16.  The charts stay in their box.  For a history of two entries or
    more whose plotted fields are not negative, and without a forced
    maximum, the scale of [CyberChart] has a positive range, and every
    point of every plotted line lies in the drawing area: x from 2 to 98,
    y from 2 to 48; there is one point per history entry. *)
Theorem chart_points_in_box (key : Extended.CityStats -> Q) :
  (2 <= length data)%nat ->
  In key dataKeys ->
  (forall d k, In d data -> In k dataKeys -> 0 <= k d) ->
  0 < CyberChart.maxVal data dataKeys None - CyberChart.minVal data dataKeys
  /\ length (CyberChart.getPoints data dataKeys None key) = length data
  /\ forall p, In p (CyberChart.getPoints data dataKeys None key) ->
               2 <= fst p /\ fst p <= 98 /\ 2 <= snd p /\ snd p <= 48.
Proof.
  intros Hlen Hkey Hpos.
  (* the scale *)
  pose proof (max_outer data 0) as Hmax. cbv zeta in Hmax.
  pose proof (min_outer data None) as Hmin. cbv zeta in Hmin.
  fold stepMax in Hmax. fold stepMin in Hmin.
  unfold CyberChart.maxVal, CyberChart.minVal.
  change (fun max d => fold_left (fun max0 k => if Qgtb (k d) max0 then k d else max0)
                                 dataKeys max)
    with (fun max d => fold_left (stepMax d) dataKeys max).
  change (fun min d =>
            fold_left (fun min0 k => match min0 with
                                     | Some m => if Qltb (k d) m then Some (k d) else min0
                                     | None => Some (k d)
                                     end) dataKeys min)
    with (fun min d => fold_left (stepMin d) dataKeys min).
  set (M := fold_left (fun max d => fold_left (stepMax d) dataKeys max) data 0) in *.
  set (mo := fold_left (fun min d => fold_left (stepMin d) dataKeys min) data None) in *.
  destruct Hmax as [HM0 HMall]. destruct Hmin as [_ Hminall].
  assert (Hex : exists d0, In d0 data).
  { destruct (nth_error data 0) as [d0|] eqn:E.
    - exists d0. eapply nth_error_In. exact E.
    - apply nth_error_None in E. lia. }
  destruct Hex as [d0 Hd0].
  destruct (Hminall d0 key Hd0 Hkey) as (m & Hmo & Hm0).
  rewrite Hmo.
  assert (Hscale : forall d, In d data ->
             Qmax 0 (m * 0.8) <= key d
             /\ key d <= (if Qgtb M 0 then M * 1.1 else 10)
             /\ Qmax 0 (m * 0.8) < (if Qgtb M 0 then M * 1.1 else 10)).
  { intros d Hd.
    destruct (Hminall d key Hd Hkey) as (m' & Hm' & Hmd).
    assert (m' = m) by congruence. subst m'.
    pose proof (Hpos d key Hd Hkey) as Hv0.
    pose proof (HMall d key Hd Hkey) as HvM.
    assert (Hlow : Qmax 0 (m * 0.8) <= key d).
    { apply Q.max_lub; [exact Hv0|].
      destruct (Qlt_le_dec m 0); lra. }
    destruct (Qgtb M 0) eqn:EM; [apply Qgtb_gt in EM | apply Qgtb_le in EM].
    - split; [exact Hlow|]. split; lra.
    - split; [exact Hlow|]. split; [lra|].
      apply Q.max_lub_lt; [lra|]. lra. }
  destruct (Hscale d0 Hd0) as (_ & _ & Hrange).
  split; [lra|]. split.
  { unfold CyberChart.getPoints. rewrite length_map, length_combine, length_seq.
    apply Nat.min_id. }
  intros p Hp. unfold CyberChart.getPoints in Hp.
  apply in_map_iff in Hp. destruct Hp as ([i d] & <- & Hin).
  pose proof (in_combine_l _ _ _ _ Hin) as Hi. apply in_seq in Hi.
  pose proof (in_combine_r _ _ _ _ Hin) as Hd.
  destruct (Hscale d Hd) as (Hlo & Hhi & _).
  cbn [fst snd]. unfold CyberChart.point, CyberChart.range, CyberChart.maxVal,
    CyberChart.minVal, CyberChart.width, CyberChart.height, CyberChart.padding.
  change (fun max d => fold_left (fun max0 k => if Qgtb (k d) max0 then k d else max0)
                                 dataKeys max)
    with (fun max d => fold_left (stepMax d) dataKeys max).
  change (fun min d =>
            fold_left (fun min0 k => match min0 with
                                     | Some m => if Qltb (k d) m then Some (k d) else min0
                                     | None => Some (k d)
                                     end) dataKeys min)
    with (fun min d => fold_left (stepMin d) dataKeys min).
  fold M mo. rewrite Hmo. cbn [fst snd].
  set (hi := if Qgtb M 0 then M * 1.1 else 10) in *.
  set (lo := Qmax 0 (m * 0.8)) in *.
  assert (Er : Qeq_bool (hi - lo) 0 = false).
  { destruct (Qeq_bool (hi - lo) 0) eqn:E; [|reflexivity].
    apply Qeq_bool_iff in E. lra. }
  rewrite Er.
  assert (Hn : 0 <= (key d - lo) / (hi - lo) /\ (key d - lo) / (hi - lo) <= 1).
  { split.
    - apply Qle_shift_div_l; lra.
    - apply Qle_shift_div_r; lra. }
  assert (Hlenq : 1 <= inject_Z (Z.of_nat (length data)) - 1).
  { assert (H2 : inject_Z 2 <= inject_Z (Z.of_nat (length data)))
      by (rewrite <- Zle_Qle; lia).
    change (inject_Z 2) with 2 in H2. lra. }
  assert (Ht : 0 <= inject_Z (Z.of_nat i) / (inject_Z (Z.of_nat (length data)) - 1)
               /\ inject_Z (Z.of_nat i) / (inject_Z (Z.of_nat (length data)) - 1) <= 1).
  { assert (Hi0 : inject_Z 0 <= inject_Z (Z.of_nat i)) by (rewrite <- Zle_Qle; lia).
    assert (Hi1 : inject_Z (Z.of_nat i) + inject_Z 1
                  <= inject_Z (Z.of_nat (length data))).
    { rewrite <- inject_Z_plus, <- Zle_Qle. lia. }
    change (inject_Z 0) with 0 in Hi0. change (inject_Z 1) with 1 in Hi1.
    split.
    - apply Qle_shift_div_l; lra.
    - apply Qle_shift_div_r; lra. }
  destruct Hn as [Hn0 Hn1]. destruct Ht as [Ht0 Ht1].
  repeat split; nra.
Qed.
End ChartBox.

(** Two entries, with oxygen at 100 and at 40: both points of the oxygen
    line are in the box. *)
Lemma chart_points_in_box_witness :
  let data := [Demo.extStats 2000 0 100 400 100; Demo.extStats 2000 0 40 400 100] in
  let points := CyberChart.getPoints data [Extended.oxygen] None Extended.oxygen in
  length points = 2%nat
  /\ Forall (fun p => 2 <= fst p /\ fst p <= 98 /\ 2 <= snd p /\ snd p <= 48) points.
Proof.
  intros data points.
  destruct (chart_points_in_box data [Extended.oxygen] Extended.oxygen)
    as (_ & Hlen & Hbox).
  - cbn. lia.
  - left. reflexivity.
  - intros d k [<-|[<-|[]]] [<-|[]]; cbn; lra.
  - split; [exact Hlen|]. apply Forall_forall. exact Hbox.
Defined.

(** ** The basic variant: ticks never raise *)

Section BasicTicks.
Variable BUILDINGS : BuildingType.t -> BuildingConfig.t.
Variable TECH_TREE : list TechNode.t.

Lemma basic_penalised_income_nonneg (g : Grid) :
  (forall k, 0 <= BuildingConfig.incomeGen (BUILDINGS k)) ->
  0 <= Agg.dailyIncome (Basic.powerPenalty (aggregate BUILDINGS g)).
Proof.
  intro Hcat.
  assert (Hraw : 0 <= Agg.dailyIncome (aggregate BUILDINGS g)).
  { unfold aggregate.
    apply (fold_left_invariant _ (fun a => 0 <= Agg.dailyIncome a)).
    - intros a tile Ha. unfold visit.
      destruct (BuildingType.eqb _ BuildingType.None); [exact Ha|].
      destruct (has _ _); [exact Ha|]. simpl.
      specialize (Hcat (TileData.buildingType tile)). lra.
    - simpl. lra. }
  pose proof (powerRatio_range _ (aggregate_sane BUILDINGS g)) as Hr.
  unfold Basic.powerPenalty.
  destruct (isLowPower _); [|exact Hraw]. simpl.
  apply floor_nonneg. nra.
Qed.

Lemma basic_tick_step (rnd : nat -> Q) (st : Basic.State) :
  wfGrid (Basic.mapSize st) (Basic.grid st) ->
  (0 < Basic.mapSize st)%Z ->
  (forall k, 0 <= rnd k /\ rnd k < 1) ->
  exists st',
    Basic.tick BUILDINGS TECH_TREE rnd st = Some st'
    /\ wfGrid (Basic.mapSize st') (Basic.grid st')
    /\ Basic.mapSize st' = Basic.mapSize st
    /\ Basic.day (Basic.stats st') == Basic.day (Basic.stats st) + 1
    /\ ((forall k, 0 <= BuildingConfig.incomeGen (BUILDINGS k)) ->
        0 <= Basic.money (Basic.stats st) -> 0 <= Basic.money (Basic.stats st')).
Proof.
  intros Hwf Hsize Hrnd. unfold Basic.tick.
  assert (Hauto : exists st1,
             (if Basic.autoGrowth st
              then Basic.attemptAutoBuild BUILDINGS TECH_TREE rnd st
              else Some st) = Some st1
             /\ wfGrid (Basic.mapSize st1) (Basic.grid st1)
             /\ Basic.mapSize st1 = Basic.mapSize st
             /\ Basic.day (Basic.stats st1) = Basic.day (Basic.stats st)
             /\ (0 <= Basic.money (Basic.stats st) ->
                 0 <= Basic.money (Basic.stats st1))).
  { assert (Hidle : forall run : option Basic.State,
               run = Some st ->
               exists st1,
                 run = Some st1
                 /\ wfGrid (Basic.mapSize st1) (Basic.grid st1)
                 /\ Basic.mapSize st1 = Basic.mapSize st
                 /\ Basic.day (Basic.stats st1) = Basic.day (Basic.stats st)
                 /\ (0 <= Basic.money (Basic.stats st) ->
                     0 <= Basic.money (Basic.stats st1))).
    { intros run Hrun. exists st. split; [exact Hrun|]. split; [exact Hwf|].
      split; [reflexivity|]. split; [reflexivity|]. intro H. exact H. }
    destruct (Basic.autoGrowth st); [|apply Hidle; reflexivity].
    destruct (basic_autoBuild_safe BUILDINGS TECH_TREE rnd st Hwf Hsize Hrnd)
      as (st1 & Hrun & [->|Hbuilt]); [apply Hidle; exact Hrun|].
    exists st1. split; [exact Hrun|].
    destruct Hbuilt as (kind & x & y & newGrid & _ & _ & _ & _ & _ & _ & Hwf' & _
                        & Hst1 & Hmoney).
    subst st1. split; [exact Hwf'|]. split; [reflexivity|]. split; [reflexivity|].
    intros _. exact Hmoney. }
  destruct Hauto as (st1 & -> & Hwf1 & Hsize1 & Hday1 & Hmoney1).
  eexists. split; [reflexivity|]. cbn.
  split; [exact Hwf1|]. split; [exact Hsize1|]. split; [rewrite Hday1; reflexivity|].
  intros Hcat Hm. pose proof (basic_penalised_income_nonneg (Basic.grid st) Hcat).
  specialize (Hmoney1 Hm). lra.
Qed.

(** X17.  The basic variant: ticks never raise.  On a square grid of
    positive side, with [Math.random] in [0,1), any number of consecutive
    ticks returns; the grid stays square with the same side, the day
    advances by the number of ticks, and, for a catalog without negative
    credit yields, money that was not negative never becomes negative. *)
Theorem basic_ticks_never_raise (rnds : list (nat -> Q)) :
  forall st,
    wfGrid (Basic.mapSize st) (Basic.grid st) ->
    (0 < Basic.mapSize st)%Z ->
    Forall (fun rnd => forall k, 0 <= rnd k /\ rnd k < 1) rnds ->
    exists st',
      basicTicks BUILDINGS TECH_TREE rnds st = Some st'
      /\ wfGrid (Basic.mapSize st') (Basic.grid st')
      /\ Basic.mapSize st' = Basic.mapSize st
      /\ Basic.day (Basic.stats st')
         == Basic.day (Basic.stats st) + inject_Z (Z.of_nat (length rnds))
      /\ ((forall k, 0 <= BuildingConfig.incomeGen (BUILDINGS k)) ->
          0 <= Basic.money (Basic.stats st) -> 0 <= Basic.money (Basic.stats st')).
Proof.
  induction rnds as [|rnd rest IH]; intros st Hwf Hsize Hall.
  - exists st. split; [reflexivity|]. split; [exact Hwf|]. split; [reflexivity|].
    split; [cbn; cbv [inject_Z]; lra | auto].
  - inversion Hall as [|r' rest' Hrnd Hrest]; subst.
    destruct (basic_tick_step rnd st Hwf Hsize Hrnd)
      as (st1 & Hrun & Hwf1 & Hsize1 & Hday1 & Hmoney1).
    destruct (IH st1 Hwf1 ltac:(lia) Hrest) as (st' & Hrun' & Hwf' & Hsize' & Hday' & Hmoney').
    exists st'. cbn [basicTicks]. rewrite Hrun.
    split; [exact Hrun'|]. split; [exact Hwf'|]. split; [congruence|]. split.
    + rewrite Hday', Hday1. cbn [length]. rewrite Nat2Z.inj_succ.
      unfold Z.succ. rewrite inject_Z_plus. change (inject_Z 1) with 1. lra.
    + intros Hcat Hm. apply Hmoney'; [exact Hcat|]. apply Hmoney1; assumption.
Qed.
End BasicTicks.

(** The small base with auto growth on, three ticks: day 4. *)
Lemma basic_ticks_never_raise_witness :
  let st := Basic.mkState true 3 true true (Demo.smallBase None)
                          (Demo.basicStats 2000 0) BuildingType.Road
                          ["basics"%string] None [] in
  exists st',
    basicTicks Demo.BUILDINGS Demo.TECH_TREE [Demo.rnd; Demo.rnd; Demo.rnd] st
    = Some st'
    /\ Basic.day (Basic.stats st') == 4
    /\ 0 <= Basic.money (Basic.stats st').
Proof.
  intro st.
  destruct (basic_ticks_never_raise Demo.BUILDINGS Demo.TECH_TREE
              [Demo.rnd; Demo.rnd; Demo.rnd] st)
    as (st' & Hrun & _ & _ & Hday & Hmoney).
  - split; [reflexivity | repeat constructor].
  - cbn. lia.
  - repeat constructor; unfold Demo.rnd; lra.
  - exists st'. split; [exact Hrun|]. split.
    + rewrite Hday. vm_compute. reflexivity.
    + apply Hmoney; [|cbn; lra]. intro k. destruct k; cbn; lra.
Defined.

(** ** A run from the initial state *)

(** Start, two placements, a goal, ticks with the auto-builder on, a
    demolition, a claim and a research, from the initial state: the run
    returns in a state in order. *)
Lemma app_never_raises_witness :
  let goal := AIGoal.mk "Grow" population_t 5 None 500 false in
  let events := [Run.Tick Demo.rnd; Run.Start true 3;
                 Run.SelectTool BuildingType.SolarPanel; Run.Click 0 0 "t0" 2;
                 Run.SelectTool BuildingType.Residential; Run.Click 1 1 "t1" 0;
                 Run.Click 7 7 "t2" 0; Run.GoalArrives goal; Run.ToggleAutoGrowth;
                 Run.Tick Demo.rnd; Run.Tick Demo.rnd;
                 Run.SelectTool BuildingType.None; Run.Click 1 1 "t3" 0;
                 Run.ClaimReward "t4"; Run.UnlockTech "commerce" "t5";
                 Run.SetViewMode Extended.moon; Run.Click 0 0 "t6" 1] in
  exists st',
    Run.run Demo.BUILDINGS Demo.TECH_TREE Demo.POP_FOOD_CONSUMPTION
            Demo.POP_O2_CONSUMPTION Demo.POP_CO2_PRODUCTION Demo.cos Demo.sin
            Demo.PI (Extended.initialState 2000 3 ["basics"%string]) events
    = Some st'
    /\ stateOk st'.
Proof.
  intros goal events.
  apply (app_never_raises Demo.BUILDINGS Demo.TECH_TREE Demo.POP_FOOD_CONSUMPTION
           Demo.POP_O2_CONSUMPTION Demo.POP_CO2_PRODUCTION Demo.cos Demo.sin Demo.PI
           2000 3%Z ["basics"%string] events).
  - lia.
  - events_ok.
Defined.

(** ** A colony without buildings *)

Section EmptyColony.
Variable BUILDINGS : BuildingType.t -> BuildingConfig.t.
Variable TECH_TREE : list TechNode.t.
Variables POP_FOOD_CONSUMPTION POP_O2_CONSUMPTION POP_CO2_PRODUCTION : Q.
Variables cos sin : Q -> Q.
Variable PI : Q.

Lemma aggregate_empty (g : Grid) :
  Forall (fun t => TileData.buildingType t = BuildingType.None) (concat g) ->
  aggregate BUILDINGS g = Agg.zero.
Proof.
  unfold aggregate. generalize Agg.zero.
  induction (concat g) as [|tile l IH]; intros a Hall; cbn [fold_left]; [reflexivity|].
  inversion Hall as [|t' l' Ht Hl]; subst.
  unfold visit at 2. rewrite Ht, eqb_refl_kind. apply IH, Hl.
Qed.

(** X19.  A colony without buildings and without crew idles.  With the
    auto-builder off, a tick of the extended variant returns and only
    moves the day (and the history): credits, science and a food stock
    that is not negative stay as they are, the crew stays at 0, no power
    is reported, the grid is untouched, and the air is set to its
    baseline of 100 oxygen and 400 CO2 whatever it was. *)
Theorem empty_colony_idles (rnd : nat -> Q) (st : Extended.State) :
  Forall (fun t => TileData.buildingType t = BuildingType.None)
         (concat (Extended.grid st)) ->
  Extended.autoGrowth st = false ->
  Extended.population (Extended.stats st) == 0 ->
  0 <= Extended.food (Extended.stats st) ->
  exists st',
    Extended.tick BUILDINGS TECH_TREE POP_FOOD_CONSUMPTION POP_O2_CONSUMPTION
                  POP_CO2_PRODUCTION cos sin PI rnd st = Some st'
    /\ Extended.grid st' = Extended.grid st
    /\ Extended.money (Extended.stats st') == Extended.money (Extended.stats st)
    /\ Extended.science (Extended.stats st') == Extended.science (Extended.stats st)
    /\ Extended.food (Extended.stats st') == Extended.food (Extended.stats st)
    /\ Extended.population (Extended.stats st') == 0
    /\ Extended.oxygen (Extended.stats st') == 100
    /\ Extended.co2 (Extended.stats st') == 400
    /\ Extended.powerSupply (Extended.stats st') == 0
    /\ Extended.powerDemand (Extended.stats st') == 0
    /\ Extended.day (Extended.stats st') == Extended.day (Extended.stats st) + 1.
Proof.
  intros Hempty Hauto Hpop Hfood. unfold Extended.tick.
  rewrite Hauto, (aggregate_empty _ Hempty).
  assert (Hpen : Extended.powerPenalty Agg.zero = Agg.zero) by reflexivity.
  rewrite Hpen. eexists. split; [reflexivity|]. cbn.
  assert (Hidle : Extended.isEmptyColony Agg.zero (Extended.stats st) = true).
  { unfold Extended.isEmptyColony. cbn. rewrite andb_true_r.
    apply Qeq_bool_iff, Hpop. }
  split; [reflexivity|]. split; [lra|]. split; [lra|].
  split; [|split; [|split; [|split; [|split; [lra|split; lra]]]]].
  - unfold Extended.newFood, Extended.foodBalance. cbn. cmp_cases; nra.
  - pose proof (ext_newPop_range POP_FOOD_CONSUMPTION POP_O2_CONSUMPTION
                  POP_CO2_PRODUCTION Agg.zero (Extended.stats st)) as Hr.
    assert (Hcap : maxPop Agg.zero == 0) by reflexivity.
    assert (H0 : 0 <= maxPop Agg.zero) by (rewrite Hcap; lra).
    specialize (Hr H0). rewrite Hcap in Hr. lra.
  - unfold Extended.newO2. rewrite Hidle. vm_compute. reflexivity.
  - unfold Extended.newCO2. rewrite Hidle. vm_compute. reflexivity.
Qed.
End EmptyColony.

(** The map right after the start. *)
Lemma empty_colony_idles_witness :
  let st := Extended.handleStart (Extended.initialState 2000 3 ["basics"%string])
                                 true 3 in
  exists st',
    Demo.extTick Demo.rnd st = Some st'
    /\ Extended.money (Extended.stats st') == 2000
    /\ Extended.oxygen (Extended.stats st') == 100
    /\ Extended.day (Extended.stats st') == 2.
Proof.
  intro st.
  destruct (empty_colony_idles Demo.BUILDINGS Demo.TECH_TREE
              Demo.POP_FOOD_CONSUMPTION Demo.POP_O2_CONSUMPTION
              Demo.POP_CO2_PRODUCTION Demo.cos Demo.sin Demo.PI Demo.rnd st)
    as (st' & Hrun & _ & Hm & _ & _ & _ & Ho & _ & _ & _ & Hd).
  - repeat constructor.
  - reflexivity.
  - reflexivity.
  - cbn. lra.
  - exists st'. split; [exact Hrun|]. split; [rewrite Hm; reflexivity|].
    split; [exact Ho|]. rewrite Hd. reflexivity.
Defined.
